(** * WBCD data gallery: viewer adapters, dataset cards and gallery controller

    A shallow embedding of the gallery's React components
    ([RerunViewer], [FoxgloveViewer], [DatasetCard], [UmiGallery]) and of the
    static dataset catalog, together with the parts of the JavaScript
    platform they call: [String.prototype.startsWith], [split], [slice],
    the [URL] constructor with its [href] getter, and [URLSearchParams].

    JavaScript strings are modelled by their UTF-8 encoding: a [string] is a
    sequence of bytes.  Every string operation the components use
    ([startsWith] with an ASCII needle, splitting on an ASCII separator,
    percent-encoding) commutes with that encoding. *)

From Stdlib Require Import ZArith NArith Ascii String List DecimalString QArith Lia Zify.
From stdpp Require Import base strings list gmap.

Local Open Scope string_scope.
Local Open Scope list_scope.
Set Warnings "-register-all".

(** ** Code points *)

Module Char.

Definition code (c : ascii) : N := N_of_ascii c.

Definition between (lo hi : N) (c : ascii) : bool :=
  ((lo <=? code c) && (code c <=? hi))%N.

Definition same (c d : ascii) : bool := Ascii.eqb c d.

(** [mem c set]: the code point [c] is one of the code points of [set]. *)
Fixpoint mem (c : ascii) (set : string) : bool :=
  match set with
  | EmptyString => false
  | String d rest => same c d || mem c rest
  end.

Definition quote : ascii := "034"%char.

Definition is_digit (c : ascii) : bool := between 48 57 c.
Definition is_upper_alpha (c : ascii) : bool := between 65 90 c.
Definition is_lower_alpha (c : ascii) : bool := between 97 122 c.
Definition is_alpha (c : ascii) : bool := is_upper_alpha c || is_lower_alpha c.
Definition is_alphanumeric (c : ascii) : bool := is_digit c || is_alpha c.
Definition is_hex_digit (c : ascii) : bool :=
  is_digit c || between 65 70 c || between 97 102 c.
Definition is_ascii (c : ascii) : bool := (code c <=? 127)%N.
Definition is_c0_control_or_space (c : ascii) : bool := (code c <=? 32)%N.
Definition is_tab_or_newline (c : ascii) : bool :=
  ((code c =? 9) || (code c =? 10) || (code c =? 13))%N.

Definition lowercase (c : ascii) : ascii :=
  if is_upper_alpha c then ascii_of_N (code c + 32) else c.

(** Value of a hexadecimal digit. *)
Definition digit_value (c : ascii) : option N :=
  if is_digit c then Some (code c - 48)%N
  else if between 97 102 c then Some (code c - 87)%N
  else if between 65 70 c then Some (code c - 55)%N
  else None.

Definition hex_upper (n : N) : ascii :=
  if (n <? 10)%N then ascii_of_N (48 + n) else ascii_of_N (55 + n).

Definition hex_lower (n : N) : ascii :=
  if (n <? 10)%N then ascii_of_N (48 + n) else ascii_of_N (87 + n).

End Char.

(** ** Strings as JavaScript uses them *)

Module Str.

Definition snoc (s : string) (c : ascii) : string := s +:+ String c "".

Fixpoint map (f : ascii -> ascii) (s : string) : string :=
  match s with
  | EmptyString => ""
  | String c rest => String (f c) (map f rest)
  end.

Fixpoint forallb (p : ascii -> bool) (s : string) : bool :=
  match s with
  | EmptyString => true
  | String c rest => p c && forallb p rest
  end.

Fixpoint existsb (p : ascii -> bool) (s : string) : bool :=
  match s with
  | EmptyString => false
  | String c rest => p c || existsb p rest
  end.

Fixpoint filter (p : ascii -> bool) (s : string) : string :=
  match s with
  | EmptyString => ""
  | String c rest => if p c then String c (filter p rest) else filter p rest
  end.

Fixpoint drop_while (p : ascii -> bool) (s : string) : string :=
  match s with
  | EmptyString => ""
  | String c rest => if p c then drop_while p rest else s
  end.

Definition lower (s : string) : string := map Char.lowercase s.

Definition is_empty (s : string) : bool :=
  match s with EmptyString => true | _ => false end.

Definition last_char (s : string) : option ascii :=
  match String.rev s with
  | EmptyString => None
  | String c _ => Some c
  end.

(** [s.startsWith(needle)]. *)
Definition startsWith (s needle : string) : bool := String.prefix needle s.

(** [s.includes(needle)]. *)
Fixpoint includes (s needle : string) : bool :=
  String.prefix needle s ||
  match s with
  | EmptyString => false
  | String _ rest => includes rest needle
  end.

(** [s.split(sep)] for a one-character separator; also the URL Standard's
    "strictly split".  The result is never empty: [split sep ""] is [[""]]. *)
Fixpoint split (sep : ascii) (s : string) : list string :=
  match s with
  | EmptyString => [""]
  | String c rest =>
      let parts := split sep rest in
      if Char.same c sep then "" :: parts
      else match parts with
           | p :: ps => String c p :: ps
           | [] => [String c ""]
           end
  end.

(** Concatenation of a list of strings with a separator ([Array.join]). *)
Fixpoint join (sep : string) (l : list string) : string :=
  match l with
  | [] => ""
  | [x] => x
  | x :: rest => x +:+ sep +:+ join sep rest
  end.

Fixpoint concat_map (f : ascii -> string) (s : string) : string :=
  match s with
  | EmptyString => ""
  | String c rest => f c +:+ concat_map f rest
  end.

Definition of_N (n : N) : string := NilEmpty.string_of_uint (N.to_uint n).

End Str.

(** ** The platform's URL parser and serializer

    [new URL(input, base).href] as the WHATWG URL Standard defines it: the
    basic URL parser (a state machine over the code points of the input) run
    without state override, followed by the URL serializer.  Each state of
    the standard is a function of the part of the input that is still to be
    read; "decrease pointer by 1" hands the same input to the next state.

    One kind of host is outside this model and reported as [OutsideModel]:
    a domain that needs IDNA processing (a non-ASCII byte after
    percent-decoding, or a label starting with "xn--"). *)

Module Url.

(** *** Percent-encode sets *)

Definition percent_encode_byte (c : ascii) : string :=
  String "%" (String (Char.hex_upper (Char.code c / 16))
             (String (Char.hex_upper (Char.code c mod 16)) "")).

(** C0 controls and every code point above U+007E. *)
Definition c0_control_set (c : ascii) : bool :=
  ((Char.code c <=? 31) || (126 <? Char.code c))%N.

Definition fragment_set (c : ascii) : bool :=
  c0_control_set c || Char.mem c " <>`" || Char.same c Char.quote.

Definition query_set (c : ascii) : bool :=
  c0_control_set c || Char.mem c " #<>" || Char.same c Char.quote.

Definition special_query_set (c : ascii) : bool :=
  query_set c || Char.same c "'".

Definition path_set (c : ascii) : bool :=
  query_set c || Char.mem c "?^`{}".

Definition userinfo_set (c : ascii) : bool :=
  path_set c || Char.mem c "/:;=@[\]|".

Definition component_set (c : ascii) : bool :=
  userinfo_set c || Char.mem c "$%&+,".

Definition urlencoded_set (c : ascii) : bool :=
  component_set c || Char.mem c "!'()~".

Definition percent_encode (set : ascii -> bool) (c : ascii) : string :=
  if set c then percent_encode_byte c else String c "".

Definition percent_encode_string (set : ascii -> bool) (s : string) : string :=
  Str.concat_map (percent_encode set) s.

Fixpoint percent_decode (s : string) : string :=
  match s with
  | EmptyString => ""
  | String c rest =>
      match rest with
      | String a (String b rest') =>
          match Char.same c "%", Char.digit_value a, Char.digit_value b with
          | true, Some x, Some y =>
              String (ascii_of_N (16 * x + y)) (percent_decode rest')
          | _, _, _ => String c (percent_decode rest)
          end
      | _ => String c (percent_decode rest)
      end
  end.

(** *** URL records *)

Inductive host :=
  | Domain (name : string)
  | IPv4 (address : N)
  | IPv6 (pieces : list N)
  | OpaqueHost (name : string)
  | EmptyHost.

Inductive url_path :=
  | OpaquePath (p : string)
  | ListPath (segments : list string).

Record url := mkUrl {
  scheme : string;
  username : string;
  password : string;
  url_host : option host;
  port : option N;
  path : url_path;
  query : option string;
  fragment : option string
}.

Definition blank : url := mkUrl "" "" "" None None (ListPath []) None None.

Definition set_scheme (u : url) (s : string) : url :=
  mkUrl s (username u) (password u) (url_host u) (port u) (path u) (query u) (fragment u).
Definition set_username (u : url) (s : string) : url :=
  mkUrl (scheme u) s (password u) (url_host u) (port u) (path u) (query u) (fragment u).
Definition set_password (u : url) (s : string) : url :=
  mkUrl (scheme u) (username u) s (url_host u) (port u) (path u) (query u) (fragment u).
Definition set_host (u : url) (h : option host) : url :=
  mkUrl (scheme u) (username u) (password u) h (port u) (path u) (query u) (fragment u).
Definition set_port (u : url) (p : option N) : url :=
  mkUrl (scheme u) (username u) (password u) (url_host u) p (path u) (query u) (fragment u).
Definition set_path (u : url) (p : url_path) : url :=
  mkUrl (scheme u) (username u) (password u) (url_host u) (port u) p (query u) (fragment u).
Definition set_query (u : url) (q : option string) : url :=
  mkUrl (scheme u) (username u) (password u) (url_host u) (port u) (path u) q (fragment u).
Definition set_fragment (u : url) (f : option string) : url :=
  mkUrl (scheme u) (username u) (password u) (url_host u) (port u) (path u) (query u) f.

Definition segments_of (u : url) : list string :=
  match path u with
  | ListPath l => l
  | OpaquePath _ => []
  end.

Definition has_opaque_path (u : url) : bool :=
  match path u with OpaquePath _ => true | ListPath _ => false end.

(** Special schemes and their default ports. *)
Definition default_port (s : string) : option (option N) :=
  if String.eqb s "ftp" then Some (Some 21%N)
  else if String.eqb s "file" then Some None
  else if String.eqb s "http" then Some (Some 80%N)
  else if String.eqb s "https" then Some (Some 443%N)
  else if String.eqb s "ws" then Some (Some 80%N)
  else if String.eqb s "wss" then Some (Some 443%N)
  else None.

Definition is_special_scheme (s : string) : bool :=
  match default_port s with Some _ => true | None => false end.

Definition is_special (u : url) : bool := is_special_scheme (scheme u).

(** *** Outcome of parsing *)

Inductive parsed (A : Type) :=
  | Success (a : A)
  | Failure
  | OutsideModel.
Arguments Success {A} a.
Arguments Failure {A}.
Arguments OutsideModel {A}.

Definition bind {A B : Type} (m : parsed A) (k : A -> parsed B) : parsed B :=
  match m with
  | Success a => k a
  | Failure => Failure
  | OutsideModel => OutsideModel
  end.

(** *** Windows drive letters and dot segments *)

Definition is_windows_drive_letter (s : string) : bool :=
  match s with
  | String a (String b EmptyString) => Char.is_alpha a && Char.mem b ":|"
  | _ => false
  end.

Definition is_normalized_windows_drive_letter (s : string) : bool :=
  match s with
  | String a (String b EmptyString) => Char.is_alpha a && Char.same b ":"
  | _ => false
  end.

Definition starts_with_windows_drive_letter (s : string) : bool :=
  match s with
  | String a (String b rest) =>
      Char.is_alpha a && Char.mem b ":|" &&
      match rest with
      | EmptyString => true
      | String c _ => Char.mem c "/\?#"
      end
  | _ => false
  end.

Definition is_single_dot (s : string) : bool :=
  let l := Str.lower s in String.eqb l "." || String.eqb l "%2e".

Definition is_double_dot (s : string) : bool :=
  let l := Str.lower s in
  String.eqb l ".." || String.eqb l ".%2e" || String.eqb l "%2e." || String.eqb l "%2e%2e".

(** Shorten a URL's path. *)
Definition shorten (sch : string) (segs : list string) : list string :=
  match segs with
  | [d] => if String.eqb sch "file" && is_normalized_windows_drive_letter d
           then segs else []
  | _ => removelast segs
  end.

Definition shorten_path (u : url) : url :=
  set_path u (ListPath (shorten (scheme u) (segments_of u))).

Definition append_segment (u : url) (seg : string) : url :=
  set_path u (ListPath (segments_of u ++ [seg])).

(** *** Host parsing *)

Definition forbidden_host_code_point (c : ascii) : bool :=
  Char.mem c (String "000" (String "009" (String "010" (String "013" " #/:<>?@[\]^|"))))
  || Char.same c Char.quote.

Definition forbidden_domain_code_point (c : ascii) : bool :=
  forbidden_host_code_point c || (Char.code c <=? 31)%N
  || Char.same c "%" || (Char.code c =? 127)%N.

Fixpoint parse_radix (R : N) (acc : N) (s : string) : option N :=
  match s with
  | EmptyString => Some acc
  | String c rest =>
      match Char.digit_value c with
      | Some d => if (d <? R)%N then parse_radix R (acc * R + d) rest else None
      | None => None
      end
  end.

(** The IPv4 number parser ([None] is failure). *)
Definition ipv4_number (s : string) : option N :=
  match s with
  | EmptyString => None
  | String a (String b rest) =>
      if Char.same a "0" && Char.mem b "xX" then parse_radix 16 0 rest
      else if Char.same a "0" then parse_radix 8 0 (String b rest)
      else parse_radix 10 0 s
  | _ => parse_radix 10 0 s
  end.

(** Drop the empty last item of a split, unless it is the only item. *)
Definition drop_empty_last (parts : list string) : list string :=
  match last parts with
  | Some EmptyString => if (1 <? length parts)%nat then removelast parts else parts
  | _ => parts
  end.

Definition ends_in_a_number (s : string) : bool :=
  let parts := Str.split "." s in
  match last parts with
  | Some EmptyString =>
      if (length parts =? 1)%nat then false
      else match last (removelast parts) with
           | Some l => (negb (Str.is_empty l) && Str.forallb Char.is_digit l)
                       || bool_decide (is_Some (ipv4_number l))
           | None => false
           end
  | Some l => Str.forallb Char.is_digit l || bool_decide (is_Some (ipv4_number l))
  | None => false
  end.

Fixpoint ipv4_numbers (parts : list string) : option (list N) :=
  match parts with
  | [] => Some []
  | p :: rest =>
      match ipv4_number p, ipv4_numbers rest with
      | Some n, Some ns => Some (n :: ns)
      | _, _ => None
      end
  end.

(** [ipv4 + n * 256^(3 - counter)] over the numbers before the last. *)
Fixpoint ipv4_sum (counter : N) (numbers : list N) : N :=
  match numbers with
  | [] => 0
  | n :: rest => (n * 256 ^ (3 - counter) + ipv4_sum (counter + 1) rest)%N
  end.

Definition ipv4_parse (s : string) : parsed host :=
  let parts := drop_empty_last (Str.split "." s) in
  if (4 <? length parts)%nat then Failure
  else match ipv4_numbers parts with
       | None => Failure
       | Some numbers =>
           match last numbers with
           | None => Failure
           | Some final =>
               let front := removelast numbers in
               if existsb (fun n => (255 <? n)%N) front then Failure
               else if (256 ^ (5 - N.of_nat (length numbers)) <=? final)%N then Failure
               else Success (IPv4 (final + ipv4_sum 0 front))
           end
       end.

(** The four numbers of an IPv4 address that ends an IPv6 literal: decimal,
    at most 255, without a leading zero. *)
Definition ipv6_ipv4_number (s : string) : option N :=
  match s with
  | EmptyString => None
  | String a rest =>
      if negb (Str.forallb Char.is_digit s) then None
      else if Char.same a "0" && negb (Str.is_empty rest) then None
      else match parse_radix 10 0 s with
           | Some n => if (255 <? n)%N then None else Some n
           | None => None
           end
  end.

Definition ipv6_ipv4_tail (s : string) : option (list N) :=
  match List.map ipv6_ipv4_number (Str.split "." s) with
  | [Some a; Some b; Some c; Some d] => Some [(a * 256 + b)%N; (c * 256 + d)%N]
  | _ => None
  end.

(** The loop of the IPv6 parser.  [pieces] are the pieces read so far, a
    zero standing for the piece a "::" takes; [compress] is the number of
    pieces up to and including that zero; [start] is the input at the
    beginning of the piece being read, [value] and [len] its hexadecimal
    digits so far ([len = 0] between pieces). *)
Fixpoint ipv6_loop (pieces : list N) (compress : option nat) (start : string)
    (value : N) (len : nat) (input : string) : option (list N * option nat) :=
  match input with
  | EmptyString =>
      if (len =? 0)%nat then Some (pieces, compress)
      else Some (pieces ++ [value], compress)
  | String c rest =>
      if (len =? 0)%nat then
        if (length pieces =? 8)%nat then None
        else if Char.same c ":" then
          match compress with
          | Some _ => None
          | None => ipv6_loop (pieces ++ [0%N]) (Some (S (length pieces))) rest 0 0 rest
          end
        else match Char.digit_value c with
             | Some d => ipv6_loop pieces compress input d 1 rest
             | None => None
             end
      else if Char.is_hex_digit c && (len <? 4)%nat then
        ipv6_loop pieces compress start (value * 16 + default 0%N (Char.digit_value c))
                  (S len) rest
      else if Char.same c "." then
        if (6 <? length pieces)%nat then None
        else match ipv6_ipv4_tail start with
             | Some tail => Some (pieces ++ tail, compress)
             | None => None
             end
      else if Char.same c ":" then
        if Str.is_empty rest then None
        else ipv6_loop (pieces ++ [value]) compress rest 0 0 rest
      else None
  end.

Definition ipv6_parse (input : string) : parsed host :=
  let start :=
    match input with
    | String ":" (String ":" rest) => Some ([0%N], Some 1%nat, rest)
    | String ":" _ => None
    | _ => Some ([], None, input)
    end in
  match start with
  | None => Failure
  | Some (pieces, compress, rest) =>
      match ipv6_loop pieces compress rest 0 0 rest with
      | None => Failure
      | Some (pieces, Some k) =>
          Success (IPv6 (take k pieces ++ replicate (8 - length pieces) 0%N
                         ++ drop k pieces))
      | Some (pieces, None) =>
          if (length pieces =? 8)%nat then Success (IPv6 pieces) else Failure
      end
  end.

Definition opaque_host_parse (s : string) : parsed host :=
  if Str.existsb forbidden_host_code_point s then Failure
  else if Str.is_empty s then Success EmptyHost
  else Success (OpaqueHost (percent_encode_string c0_control_set s)).

Definition has_punycode_label (s : string) : bool :=
  existsb (fun label => String.prefix "xn--" label) (Str.split "." (Str.lower s)).

(** The host parser; [isOpaque] is true for URLs that are not special. *)
Definition host_parse (input : string) (isOpaque : bool) : parsed host :=
  if String.prefix "[" input then
    match Str.last_char input with
    | Some "]"%char => ipv6_parse (String.substring 1 (String.length input - 2) input)
    | _ => Failure
    end
  else if isOpaque then opaque_host_parse input
  else
    let domain := percent_decode input in
    if negb (Str.forallb Char.is_ascii domain) then OutsideModel
    else if has_punycode_label domain then OutsideModel
    else
      let asciiDomain := Str.lower domain in
      if Str.is_empty asciiDomain then Failure
      else if Str.existsb forbidden_domain_code_point asciiDomain then Failure
      else if ends_in_a_number asciiDomain then ipv4_parse asciiDomain
      else Success (Domain asciiDomain).

(** *** Serializers *)

Definition serialize_ipv4 (address : N) : string :=
  Str.of_N (address / 16777216 mod 256) +:+ "." +:+
  Str.of_N (address / 65536 mod 256) +:+ "." +:+
  Str.of_N (address / 256 mod 256) +:+ "." +:+
  Str.of_N (address mod 256).

Fixpoint hex_digits (fuel : nat) (n : N) (acc : string) : string :=
  match fuel with
  | O => acc
  | S fuel =>
      let acc := String (Char.hex_lower (n mod 16)) acc in
      if (n <? 16)%N then acc else hex_digits fuel (n / 16) acc
  end.

(** A piece of an IPv6 address in the shortest lowercase hexadecimal form. *)
Definition hex_piece (n : N) : string := hex_digits 4 n "".

(** The length of the run of zero pieces that starts a list. *)
Fixpoint zero_run (pieces : list N) : nat :=
  match pieces with
  | 0%N :: rest => S (zero_run rest)
  | _ => 0
  end.

(** The start and the length of the first longest run of zero pieces at or
    after [index], when that run is longer than [best]. *)
Fixpoint longest_zero_run (index : nat) (best : option nat * nat) (pieces : list N)
    : option nat * nat :=
  match pieces with
  | [] => best
  | _ :: rest =>
      let run := zero_run pieces in
      longest_zero_run (S index)
        (if (snd best <? run)%nat then (Some index, run) else best) rest
  end.

Fixpoint serialize_pieces (index : nat) (compress : option nat) (ignore0 : bool)
    (pieces : list N) : string :=
  match pieces with
  | [] => ""
  | p :: rest =>
      if ignore0 && (p =? 0)%N then serialize_pieces (S index) compress true rest
      else if bool_decide (compress = Some index)
      then (if (index =? 0)%nat then "::" else ":")
           +:+ serialize_pieces (S index) compress true rest
      else hex_piece p +:+ (if (index =? 7)%nat then "" else ":")
           +:+ serialize_pieces (S index) compress false rest
  end.

Definition serialize_ipv6 (pieces : list N) : string :=
  serialize_pieces 0 (fst (longest_zero_run 0 (None, 1%nat) pieces)) false pieces.

Definition serialize_host (h : host) : string :=
  match h with
  | Domain name => name
  | IPv4 address => serialize_ipv4 address
  | IPv6 pieces => "[" +:+ serialize_ipv6 pieces +:+ "]"
  | OpaqueHost name => name
  | EmptyHost => ""
  end.

Definition serialize_path (u : url) : string :=
  match path u with
  | OpaquePath p => p
  | ListPath segs => Str.join "" (List.map (fun seg => "/" +:+ seg) segs)
  end.

Definition includes_credentials (u : url) : bool :=
  negb (Str.is_empty (username u)) || negb (Str.is_empty (password u)).

(** The URL serializer (fragment included). *)
Definition serialize (u : url) : string :=
  scheme u +:+ ":" +:+
  match url_host u with
  | Some h =>
      "//" +:+
      (if includes_credentials u
       then username u +:+
            (if Str.is_empty (password u) then "" else ":" +:+ password u) +:+ "@"
       else "") +:+
      serialize_host h +:+
      match port u with
      | Some p => ":" +:+ Str.of_N p
      | None => ""
      end
  | None =>
      match path u with
      | ListPath (EmptyString :: _ :: _) => "/."
      | _ => ""
      end
  end +:+
  serialize_path u +:+
  match query u with Some q => "?" +:+ q | None => "" end +:+
  match fragment u with Some f => "#" +:+ f | None => "" end.

(** *** The states of the basic URL parser, last state first *)

Definition fragment_state (u : url) (input : string) : url :=
  set_fragment u (Some (default "" (fragment u) +:+ percent_encode_string fragment_set input)).

Definition flush_query (u : url) (buffer : string) : url :=
  let set := if is_special u then special_query_set else query_set in
  set_query u (Some (default "" (query u) +:+ percent_encode_string set buffer)).

Fixpoint query_state (u : url) (buffer : string) (input : string) : url :=
  match input with
  | EmptyString => flush_query u buffer
  | String c rest =>
      if Char.same c "#"
      then fragment_state (set_fragment (flush_query u buffer) (Some "")) rest
      else query_state u (Str.snoc buffer c) rest
  end.

(** A path segment ends: [slash] tells whether the code point that ended it
    is U+002F, or U+005C in a special URL. *)
Definition end_segment (u : url) (buffer : string) (slash : bool) : url :=
  if is_double_dot buffer then
    let u := shorten_path u in
    if negb slash then append_segment u "" else u
  else if is_single_dot buffer && negb slash then append_segment u ""
  else if negb (is_single_dot buffer) then
    let buffer :=
      if String.eqb (scheme u) "file" && bool_decide (segments_of u = [])
         && is_windows_drive_letter buffer
      then match buffer with
           | String a (String _ rest) => String a (String ":" rest)
           | _ => buffer
           end
      else buffer in
    append_segment u buffer
  else u.

Definition is_slash (u : url) (c : ascii) : bool :=
  Char.same c "/" || (is_special u && Char.same c "\").

Fixpoint path_state (u : url) (buffer : string) (input : string) : url :=
  match input with
  | EmptyString => end_segment u buffer false
  | String c rest =>
      if is_slash u c then path_state (end_segment u buffer true) "" rest
      else if Char.same c "?"
      then query_state (set_query (end_segment u buffer false) (Some "")) "" rest
      else if Char.same c "#"
      then fragment_state (set_fragment (end_segment u buffer false) (Some "")) rest
      else path_state u (buffer +:+ percent_encode path_set c) rest
  end.

Definition path_start_state (u : url) (input : string) : url :=
  match input with
  | EmptyString => if is_special u then path_state u "" input else u
  | String c rest =>
      if is_special u then
        if Char.mem c "/\" then path_state u "" rest else path_state u "" input
      else if Char.same c "?" then query_state (set_query u (Some "")) "" rest
      else if Char.same c "#" then fragment_state (set_fragment u (Some "")) rest
      else if Char.same c "/" then path_state u "" rest
      else path_state u "" input
  end.

(** The code points that end an authority, a host or a port. *)
Definition ends_authority (u : url) (c : ascii) : bool :=
  Char.mem c "/?#" || (is_special u && Char.same c "\").

Definition finish_port (u : url) (buffer : string) : parsed url :=
  if Str.is_empty buffer then Success u
  else match parse_radix 10 0 buffer with
       | None => Failure
       | Some p =>
           if (65535 <? p)%N then Failure
           else if bool_decide (default_port (scheme u) = Some (Some p))
           then Success (set_port u None)
           else Success (set_port u (Some p))
       end.

Fixpoint port_state (u : url) (buffer : string) (input : string) : parsed url :=
  match input with
  | EmptyString =>
      bind (finish_port u buffer) (fun u => Success (path_start_state u input))
  | String c rest =>
      if Char.is_digit c then port_state u (Str.snoc buffer c) rest
      else if ends_authority u c
      then bind (finish_port u buffer) (fun u => Success (path_start_state u input))
      else Failure
  end.

Definition finish_host (u : url) (buffer : string) : parsed url :=
  bind (host_parse buffer (negb (is_special u)))
       (fun h => Success (set_host u (Some h))).

Fixpoint host_state (u : url) (buffer : string) (insideBrackets : bool)
    (input : string) : parsed url :=
  match input with
  | EmptyString =>
      if is_special u && Str.is_empty buffer then Failure
      else bind (finish_host u buffer) (fun u => Success (path_start_state u input))
  | String c rest =>
      if Char.same c ":" && negb insideBrackets then
        if Str.is_empty buffer then Failure
        else bind (finish_host u buffer) (fun u => port_state u "" rest)
      else if ends_authority u c then
        if is_special u && Str.is_empty buffer then Failure
        else bind (finish_host u buffer) (fun u => Success (path_start_state u input))
      else
        let insideBrackets :=
          if Char.same c "[" then true
          else if Char.same c "]" then false
          else insideBrackets in
        host_state u (Str.snoc buffer c) insideBrackets rest
  end.

(** The credentials read so far: every code point of [buffer] goes to the
    user name until the first U+003A, and to the password after it. *)
Fixpoint credentials (u : url) (passwordTokenSeen : bool) (buffer : string)
    : url * bool :=
  match buffer with
  | EmptyString => (u, passwordTokenSeen)
  | String c rest =>
      if Char.same c ":" && negb passwordTokenSeen then credentials u true rest
      else
        let encoded := percent_encode userinfo_set c in
        if passwordTokenSeen
        then credentials (set_password u (password u +:+ encoded)) passwordTokenSeen rest
        else credentials (set_username u (username u +:+ encoded)) passwordTokenSeen rest
  end.

Fixpoint authority_state (u : url) (buffer : string)
    (atSignSeen passwordTokenSeen : bool) (input : string) : parsed url :=
  match input with
  | EmptyString =>
      if atSignSeen && Str.is_empty buffer then Failure
      else host_state u "" false (buffer +:+ input)
  | String c rest =>
      if Char.same c "@" then
        let buffer := if atSignSeen then "%40" +:+ buffer else buffer in
        let '(u, passwordTokenSeen) := credentials u passwordTokenSeen buffer in
        authority_state u "" true passwordTokenSeen rest
      else if ends_authority u c then
        if atSignSeen && Str.is_empty buffer then Failure
        else host_state u "" false (buffer +:+ input)
      else authority_state u (Str.snoc buffer c) atSignSeen passwordTokenSeen rest
  end.

Fixpoint special_authority_ignore_slashes_state (u : url) (input : string)
    : parsed url :=
  match input with
  | EmptyString => authority_state u "" false false input
  | String c rest =>
      if Char.mem c "/\" then special_authority_ignore_slashes_state u rest
      else authority_state u "" false false input
  end.

Definition special_authority_slashes_state (u : url) (input : string) : parsed url :=
  match input with
  | String "/" (String "/" rest) => special_authority_ignore_slashes_state u rest
  | _ => special_authority_ignore_slashes_state u input
  end.

Definition copy_authority (u base : url) : url :=
  set_port (set_host (set_password (set_username u (username base)) (password base))
                     (url_host base)) (port base).

Definition relative_slash_state (u base : url) (input : string) : parsed url :=
  match input with
  | EmptyString => Success (path_state (copy_authority u base) "" input)
  | String c rest =>
      if is_special u && Char.mem c "/\"
      then special_authority_ignore_slashes_state u rest
      else if Char.same c "/" then authority_state u "" false false rest
      else Success (path_state (copy_authority u base) "" input)
  end.

Definition relative_state (u base : url) (input : string) : parsed url :=
  let u := set_scheme u (scheme base) in
  match input with
  | EmptyString =>
      Success (set_query (set_path (copy_authority u base) (path base)) (query base))
  | String c rest =>
      if Char.same c "/" then relative_slash_state u base rest
      else if is_special u && Char.same c "\" then relative_slash_state u base rest
      else
        let u := set_query (set_path (copy_authority u base) (path base)) (query base) in
        if Char.same c "?" then Success (query_state (set_query u (Some "")) "" rest)
        else if Char.same c "#"
        then Success (fragment_state (set_fragment u (Some "")) rest)
        else Success (path_state (shorten_path (set_query u None)) "" input)
  end.

Definition path_or_authority_state (u : url) (input : string) : parsed url :=
  match input with
  | String "/" rest => authority_state u "" false false rest
  | _ => Success (path_state u "" input)
  end.

Definition special_relative_or_authority_state (u base : url) (input : string)
    : parsed url :=
  match input with
  | String "/" (String "/" rest) => special_authority_ignore_slashes_state u rest
  | _ => relative_state u base input
  end.

Definition copy_file_base (u base : url) : url :=
  set_query (set_path (set_host u (url_host base)) (path base)) (query base).

Definition base_is_file (base : option url) : option url :=
  match base with
  | Some b => if String.eqb (scheme b) "file" then Some b else None
  | None => None
  end.

Fixpoint file_host_state (u : url) (buffer : string) (input : string) : parsed url :=
  let finish :=
    if is_windows_drive_letter buffer then Success (path_state u buffer input)
    else if Str.is_empty buffer
    then Success (path_start_state (set_host u (Some EmptyHost)) input)
    else bind (host_parse buffer (negb (is_special u)))
              (fun h =>
                 let h := match h with
                          | Domain name => if String.eqb name "localhost"
                                           then EmptyHost else h
                          | _ => h
                          end in
                 Success (path_start_state (set_host u (Some h)) input)) in
  match input with
  | EmptyString => finish
  | String c rest =>
      if Char.mem c "/\?#" then finish
      else file_host_state u (Str.snoc buffer c) rest
  end.

Definition file_slash_state (u : url) (base : option url) (input : string)
    : parsed url :=
  let otherwise :=
    let u :=
      match base_is_file base with
      | Some b =>
          let u := set_host u (url_host b) in
          match segments_of b with
          | first :: _ =>
              if negb (starts_with_windows_drive_letter input)
                 && is_normalized_windows_drive_letter first
              then append_segment u first else u
          | [] => u
          end
      | None => u
      end in
    Success (path_state u "" input) in
  match input with
  | EmptyString => otherwise
  | String c rest =>
      if Char.mem c "/\" then file_host_state u "" rest else otherwise
  end.

Definition file_state (u : url) (base : option url) (input : string) : parsed url :=
  let u := set_host (set_scheme u "file") (Some EmptyHost) in
  match input with
  | EmptyString =>
      match base_is_file base with
      | Some b => Success (copy_file_base u b)
      | None => Success (path_state u "" input)
      end
  | String c rest =>
      if Char.mem c "/\" then file_slash_state u base rest
      else match base_is_file base with
           | Some b =>
               let u := copy_file_base u b in
               if Char.same c "?"
               then Success (query_state (set_query u (Some "")) "" rest)
               else if Char.same c "#"
               then Success (fragment_state (set_fragment u (Some "")) rest)
               else
                 let u := set_query u None in
                 let u := if negb (starts_with_windows_drive_letter input)
                          then shorten_path u
                          else set_path u (ListPath []) in
                 Success (path_state u "" input)
           | None => Success (path_state u "" input)
           end
  end.

Definition no_scheme_state (u : url) (base : option url) (input : string)
    : parsed url :=
  match base with
  | None => Failure
  | Some b =>
      if has_opaque_path b then
        match input with
        | String "#" rest =>
            let u := set_query (set_path (set_scheme u (scheme b)) (path b)) (query b) in
            Success (fragment_state (set_fragment u (Some "")) rest)
        | _ => Failure
        end
      else if negb (String.eqb (scheme b) "file") then relative_state u b input
      else file_state u base input
  end.

Fixpoint opaque_path_state (u : url) (acc : string) (input : string) : url :=
  match input with
  | EmptyString => set_path u (OpaquePath acc)
  | String c rest =>
      if Char.same c "?"
      then query_state (set_query (set_path u (OpaquePath acc)) (Some "")) "" rest
      else if Char.same c "#"
      then fragment_state (set_fragment (set_path u (OpaquePath acc)) (Some "")) rest
      else if Char.same c " " then
        match rest with
        | String d _ =>
            if Char.mem d "?#" then opaque_path_state u (acc +:+ "%20") rest
            else opaque_path_state u (Str.snoc acc c) rest
        | EmptyString => opaque_path_state u (Str.snoc acc c) rest
        end
      else opaque_path_state u (acc +:+ percent_encode c0_control_set c) rest
  end.

(** What follows the U+003A that ends a scheme. *)
Definition after_scheme (u : url) (base : option url) (input : string) : parsed url :=
  if String.eqb (scheme u) "file" then file_state u base input
  else if is_special u then
    match base with
    | Some b =>
        if String.eqb (scheme b) (scheme u)
        then special_relative_or_authority_state u b input
        else special_authority_slashes_state u input
    | None => special_authority_slashes_state u input
    end
  else
    match input with
    | String "/" rest => path_or_authority_state u rest
    | _ => Success (opaque_path_state u "" input)
    end.

(** The scheme state: [None] when the input does not start with a scheme
    (the parser then starts over in the no scheme state). *)
Fixpoint scheme_state (buffer : string) (input : string) : option (string * string) :=
  match input with
  | EmptyString => None
  | String c rest =>
      if Char.is_alphanumeric c || Char.mem c "+-."
      then scheme_state (Str.snoc buffer (Char.lowercase c)) rest
      else if Char.same c ":" then Some (buffer, rest)
      else None
  end.

Definition scheme_start_state (base : option url) (input : string) : parsed url :=
  match input with
  | String c rest =>
      if Char.is_alpha c then
        match scheme_state (String (Char.lowercase c) "") rest with
        | Some (sch, rest) => after_scheme (set_scheme blank sch) base rest
        | None => no_scheme_state blank base input
        end
      else no_scheme_state blank base input
  | EmptyString => no_scheme_state blank base input
  end.

(** Leading and trailing C0 controls and spaces are removed, then every
    ASCII tab and newline. *)
Definition strip (input : string) : string :=
  let s := Str.drop_while Char.is_c0_control_or_space input in
  let s := String.rev (Str.drop_while Char.is_c0_control_or_space (String.rev s)) in
  Str.filter (fun c => negb (Char.is_tab_or_newline c)) s.

(** The basic URL parser. *)
Definition parse (input : string) (base : option url) : parsed url :=
  scheme_start_state base (strip input).

(** [new URL(input, base).href]: the base is parsed first, without a base of
    its own; the constructor throws a [TypeError] when either parse fails. *)
Definition href (input base : string) : parsed string :=
  bind (parse base None) (fun parsedBase =>
  bind (parse input (Some parsedBase)) (fun u => Success (serialize u))).

(** A reference begins with a scheme: an ASCII letter, then letters, digits,
    U+002B, U+002D or U+002E, up to a U+003A. *)
Definition begins_with_scheme (r : string) : bool :=
  match r with
  | String c rest => Char.is_alpha c && bool_decide (is_Some (scheme_state "" rest))
  | EmptyString => false
  end.

End Url.

(** ** JavaScript values and completions *)

Module JS.

(** A file reference as a component receives it: [null], [undefined] or a
    string. *)
Inductive value :=
  | Null
  | Undefined
  | Str (s : string).

(** ToBoolean. *)
Definition truthy (v : value) : bool :=
  match v with
  | Null | Undefined => false
  | Str s => negb (Str.is_empty s)
  end.

(** ToString. *)
Definition to_string (v : value) : string :=
  match v with
  | Null => "null"
  | Undefined => "undefined"
  | Str s => s
  end.

Inductive error := TypeError.

(** How an evaluation ends: with a value, with a thrown exception, or
    outside the modelled part of the platform (see [Url]). *)
Inductive completion (A : Type) :=
  | Normal (a : A)
  | Throw (e : error)
  | Unmodelled.
Arguments Normal {A} a.
Arguments Throw {A} e.
Arguments Unmodelled {A}.

Definition bind {A B : Type} (m : completion A) (k : A -> completion B)
    : completion B :=
  match m with
  | Normal a => k a
  | Throw e => Throw e
  | Unmodelled => Unmodelled
  end.

(** [v?.startsWith(needle)] for [v] null, undefined or a string: the
    optional chain yields [undefined] ([None]) on [null] and [undefined]. *)
Definition optional_startsWith (v : value) (needle : string) : option bool :=
  match v with
  | Null | Undefined => None
  | Str s => Some (Str.startsWith s needle)
  end.

(** [v.startsWith(needle)]: a property access on [null] or [undefined]
    throws. *)
Definition startsWith (v : value) (needle : string) : completion bool :=
  match v with
  | Null | Undefined => Throw TypeError
  | Str s => Normal (Str.startsWith s needle)
  end.

(** ToBoolean of the result of an optional chain. *)
Definition truthy_result (r : option bool) : bool := default false r.

(** [new URL(input, base).href]. *)
Definition new_URL_href (input : value) (base : string) : completion value :=
  match Url.href (to_string input) base with
  | Url.Success h => Normal (Str h)
  | Url.Failure => Throw TypeError
  | Url.OutsideModel => Unmodelled
  end.

(** [array.slice(0, n)]. *)
Definition slice0 {A : Type} (n : nat) (l : list A) : list A := take n l.

(** [array.pop()]: the last element, [undefined] on an empty array. *)
Definition pop (l : list string) : value :=
  match last l with
  | Some s => Str s
  | None => Undefined
  end.

End JS.

Notation "'let*' x ':=' m 'in' k" := (JS.bind m (fun x => k))
  (at level 10, x name, m at level 100, k at level 200).

(** ** URLSearchParams *)

Module URLSearchParams.

(** The list of name-value pairs, in insertion order. *)
Definition t : Type := list (string * string).

Definition empty : t := [].

Fixpoint replace_first (name value : string) (l : t) : t :=
  match l with
  | [] => []
  | (n, v) :: rest =>
      if String.eqb n name
      then (n, value) :: List.filter (fun p => negb (String.eqb (fst p) name)) rest
      else (n, v) :: replace_first name value rest
  end.

(** [params.set(name, value)]: the first pair called [name] takes the value
    and the others are removed; without such a pair one is appended. *)
Definition set (name value : string) (l : t) : t :=
  if existsb (fun p => String.eqb (fst p) name) l
  then replace_first name value l
  else (l ++ [(name, value)])%list.

(** application/x-www-form-urlencoded byte serialization: U+0020 becomes
    U+002B, the code points of the urlencoded percent-encode set are
    percent-encoded. *)
Definition serialize_byte (c : ascii) : string :=
  if Char.same c " " then "+" else Url.percent_encode Url.urlencoded_set c.

Definition serialize_string (s : string) : string :=
  Str.concat_map serialize_byte s.

(** [params.toString()]. *)
Definition toString (l : t) : string :=
  Str.join "&" (List.map (fun p => serialize_string (fst p) +:+ "=" +:+
                                   serialize_string (snd p)) l).

End URLSearchParams.

(** ** The dataset catalog *)

(** A dataset descriptor.  [topics] is the object literal of the source: a
    map from category name to the topic paths of that category; a category
    that is not a key reads as [undefined]. *)
Record Dataset := mkDataset {
  id : string;
  name : string;
  source : string;
  description : string;
  thumbnail : JS.value;
  rrdUrl : JS.value;
  topics : gmap string (list string)
}.

Record DataSource := mkDataSource {
  ds_name : string;
  ds_url : string;
  note : string
}.

(** [src/umi-gallery/src/data/datasets.js], the module [UmiGallery] imports. *)
Module Datasets.

Definition DATASETS : list Dataset := [
  {| id := "genrobot-1";
     name := "Clean Bowl";
     source := "Genrobot";
     description := "Bimanual bowl cleaning task demonstrating coordinated manipulation";
     thumbnail := JS.Str "./thumbnails/clean_bowl.jpg";
     rrdUrl := JS.Str "./rrd/clean_bowl.rrd";
     topics := {[ "transforms" := ["/robot0/vio/eef_pose"; "/robot1/vio/eef_pose"];
                  "cameras" := ["/robot0/sensor/camera0"; "/robot1/sensor/camera0"] ]} |};
  {| id := "genrobot-2";
     name := "Unscrew Bottle Cap and Pour";
     source := "Genrobot";
     description := "Fine manipulation task: unscrewing cap and pouring liquid";
     thumbnail := JS.Str "./thumbnails/unscrew_bottle_cap_and_pour.jpg";
     rrdUrl := JS.Str "./rrd/unscrew_bottle_cap_and_pour.rrd";
     topics := {[ "transforms" := ["/robot0/vio/eef_pose"; "/robot1/vio/eef_pose"];
                  "cameras" := ["/robot0/sensor/camera0"; "/robot1/sensor/camera0"] ]} |};
  {| id := "dm-insert-1";
     name := "Memory Cube Insert";
     source := "DAIMON";
     description := "Precision insertion task with 8-DOF arm and tactile sensing (DM Robotics)";
     thumbnail := JS.Str "./thumbnails/dm_insert_episode_0.jpg";
     rrdUrl := JS.Str "./rrd/dm_insert_episode_0.rrd";
     topics := {[ "cameras" := ["/cameras/top"; "/cameras/wrist"; "/cameras/tactile"];
                  "scalars" := ["/observation/state"; "/action"] ]} |};
  {| id := "dm-tacexo-1";
     name := "Fold Towels (TacExo)";
     source := "DAIMON";
     description := "Bimanual glove manipulation with thumb tactile sensing (TacExo)";
     thumbnail := JS.Str "./thumbnails/tacexo_fold_towels_episode_0.jpg";
     rrdUrl := JS.Str "./rrd/tacexo_fold_towels_episode_0.rrd";
     topics := {[ "cameras" := ["/cameras/third_view"; "/tactile/left_thumb"; "/tactile/right_thumb"];
                  "scalars" := ["/fingers"] ]} |};
  {| id := "lumos-task-1";
     name := "Object Packing: Light Bulb";
     source := "Lumos";
     description := "Bimanual manipulation task of packing a single light bulb into a small box";
     thumbnail := JS.Str "./thumbnails/lumos_task1.jpg";
     rrdUrl := JS.Str "./rrd/lumos_task1.rrd";
     topics := {[ "transforms" := ["world/left_hand/eef"; "world/right_hand/eef"];
                  "cameras" := ["world/left_hand/camera"; "world/right_hand/camera"] ]} |};
  {| id := "lumos-task-2";
     name := "Object Packing: Cups";
     source := "Lumos";
     description := "Pack 2 water cups into a large box";
     thumbnail := JS.Str "./thumbnails/lumos_task2.jpg";
     rrdUrl := JS.Str "./rrd/lumos_task2.rrd";
     topics := {[ "transforms" := ["world/left_hand/eef"; "world/right_hand/eef"];
                  "cameras" := ["world/left_hand/camera"; "world/right_hand/camera"] ]} |}
].

Definition DATA_SOURCE : DataSource :=
  {| ds_name := "Genrobot 10Kh-RealOmin-OpenData";
     ds_url := "https://huggingface.co/datasets/genrobot2025/10Kh-RealOmin-OpenData";
     note := "Featuring data from Genrobot, DAIMON and Lumos for WBCD 2026 competition." |}.

End Datasets.

(** [src/unnamed/part_001], a second copy of the catalog module. *)
Module Datasets_part_001.

Definition DATASETS : list Dataset := [
  {| id := "genrobot-1";
     name := "Clean Bowl";
     source := "Genrobot";
     description := "Bimanual bowl cleaning task demonstrating coordinated manipulation";
     thumbnail := JS.Str "./thumbnails/clean_bowl.jpg";
     rrdUrl := JS.Str "./rrd/clean_bowl.rrd";
     topics := {[ "transforms" := ["/robot0/vio/eef_pose"; "/robot1/vio/eef_pose"];
                  "cameras" := ["/robot0/sensor/camera0"; "/robot1/sensor/camera0"] ]} |};
  {| id := "genrobot-2";
     name := "Unscrew Bottle Cap and Pour";
     source := "Genrobot";
     description := "Fine manipulation task: unscrewing cap and pouring liquid";
     thumbnail := JS.Str "./thumbnails/unscrew_bottle_cap_and_pour.jpg";
     rrdUrl := JS.Str "./rrd/unscrew_bottle_cap_and_pour.rrd";
     topics := {[ "transforms" := ["/robot0/vio/eef_pose"; "/robot1/vio/eef_pose"];
                  "cameras" := ["/robot0/sensor/camera0"; "/robot1/sensor/camera0"] ]} |};
  {| id := "genrobot-3";
     name := "Zip Clothes";
     source := "Genrobot";
     description := "Precision zipping task with deformable garment handling";
     thumbnail := JS.Str "./thumbnails/zip_clothes.jpg";
     rrdUrl := JS.Str "./rrd/zip_clothes.rrd";
     topics := {[ "transforms" := ["/robot0/vio/eef_pose"; "/robot1/vio/eef_pose"];
                  "cameras" := ["/robot0/sensor/camera0"; "/robot1/sensor/camera0"] ]} |}
].

Definition DATA_SOURCE : DataSource :=
  {| ds_name := "Genrobot 10Kh-RealOmin-OpenData";
     ds_url := "https://huggingface.co/datasets/genrobot2025/10Kh-RealOmin-OpenData";
     note := "Additional data from DM Robot and Lumos coming soon for WBCD 2026 competition." |}.

End Datasets_part_001.

(** ** React elements *)

(** What an event handler of the gallery does when it runs. *)
Inductive action :=
  | HandleCardClick (dataset : Dataset)   (* [() => handleCardClick(dataset)] *)
  | HideTarget.                           (* [e.target.style.display = 'none'] *)

Inductive attr_value :=
  | AStr (s : string)
  | ANum (q : Q)
  | ARef (r : string)
  | AHandler (a : action).

(** An element tree as a component returns it.  The gallery's own
    components appear in their parent's tree as elements carrying their
    props; host elements and the third-party [WebViewer] are [Elem]. *)
Inductive node :=
  | Text (s : string)
  | Elem (tag : string) (attrs : list (string * attr_value)) (children : list node)
  | DatasetCardElem (key : string) (dataset : Dataset) (isActive : bool) (onClick : action)
  | RerunViewerElem (rrdUrl : JS.value).

(** A JSX child [{v}]: a string renders as text, [null] and [undefined]
    render nothing. *)
Definition child (v : JS.value) : list node :=
  match v with
  | JS.Str s => [Text s]
  | JS.Null | JS.Undefined => []
  end.

(** The [className] attribute of a node. *)
Definition className_of (n : node) : string :=
  match n with
  | Elem _ attrs _ =>
      match List.find (fun a => String.eqb (fst a) "className") attrs with
      | Some (_, AStr s) => s
      | _ => ""
      end
  | _ => ""
  end.

Definition is_space (c : ascii) : bool := Char.is_c0_control_or_space c.

(** The class tokens of a [className]: its maximal runs of non-space code
    points. *)
Fixpoint tokens (current : string) (s : string) : list string :=
  match s with
  | EmptyString => if Str.is_empty current then [] else [current]
  | String c rest =>
      if is_space c
      then (if Str.is_empty current then tokens "" rest else current :: tokens "" rest)
      else tokens (Str.snoc current c) rest
  end.

Definition has_class (cls : string) (n : node) : bool :=
  existsb (String.eqb cls) (tokens "" (className_of n)).

(** All nodes of a tree, parents before children, in document order. *)
Fixpoint nodes (n : node) : list node :=
  n :: match n with
       | Elem _ _ children => List.flat_map nodes children
       | _ => []
       end.

Definition count (p : node -> bool) (n : node) : nat :=
  length (List.filter p (nodes n)).

Definition is_text (s : string) (n : node) : bool :=
  match n with
  | Text t => String.eqb s t
  | _ => false
  end.

(** ** DatasetCard.jsx *)

Module DatasetCard.

Definition getSourceBadgeClass (source : string) : string :=
  if String.eqb source "Genrobot" then "bg-emerald-500/90 text-white"
  else if String.eqb source "Lumos" then "bg-amber-500/90 text-white"
  else if String.eqb source "DM Robot" then "bg-violet-500/90 text-white"
  else "bg-slate-500/90 text-white".

Definition getSourceGradient (source : string) : string :=
  if String.eqb source "Genrobot" then "bg-gradient-to-br from-emerald-400 to-emerald-600"
  else if String.eqb source "Lumos" then "bg-gradient-to-br from-amber-400 to-amber-600"
  else if String.eqb source "DM Robot" then "bg-gradient-to-br from-violet-400 to-violet-600"
  else "bg-gradient-to-br from-slate-400 to-slate-600".

(** [dataset.thumbnail && !dataset.thumbnail.includes('placeholder')]. *)
Definition shows_thumbnail (dataset : Dataset) : bool :=
  match thumbnail dataset with
  | JS.Str s => negb (Str.is_empty s) && negb (Str.includes s "placeholder")
  | JS.Null | JS.Undefined => false
  end.

Definition thumbnail_image (dataset : Dataset) : node :=
  Elem "img" [("src", AStr (JS.to_string (thumbnail dataset)));
              ("alt", AStr (name dataset));
              ("className", AStr "w-full h-full object-cover");
              ("onError", AHandler HideTarget)] [].

Definition fallback_icon (dataset : Dataset) : node :=
  Elem "div" [("className", AStr "absolute inset-0 flex items-center justify-center")] [
    Elem "div" [("className", AStr ("
              w-16 h-16 rounded-2xl flex items-center justify-center
              " +:+ getSourceGradient (source dataset) +:+ "
            "))] [
      Elem "svg" [("className", AStr "w-8 h-8 text-white/80"); ("fill", AStr "none");
                  ("stroke", AStr "currentColor"); ("viewBox", AStr "0 0 24 24")] [
        Elem "path" [("strokeLinecap", AStr "round"); ("strokeLinejoin", AStr "round");
                     ("strokeWidth", ANum 1.5);
                     ("d", AStr "M9 3v2m6-2v2M9 19v2m6-2v2M5 9H3m2 6H3m18-6h-2m2 6h-2M7 19h10a2 2 0 002-2V7a2 2 0 00-2-2H7a2 2 0 00-2 2v10a2 2 0 002 2zM9 9h6v6H9V9z")] []
      ]
    ]
  ].

Definition source_badge (dataset : Dataset) : node :=
  Elem "div" [("className", AStr "absolute top-3 right-3")] [
    Elem "span" [("className", AStr ("
            px-2 py-1 rounded-full text-xs font-medium backdrop-blur-sm
            " +:+ getSourceBadgeClass (source dataset) +:+ "
          "))] [Text (source dataset)]
  ].

(** [{isActive && (...)}]: the "Playing" indicator, nothing when [isActive]
    is false. *)
Definition active_indicator (isActive : bool) : list node :=
  if isActive then [
    Elem "div" [("className", AStr "absolute top-3 left-3")] [
      Elem "span" [("className", AStr "px-2 py-1 rounded-full text-xs font-medium bg-blue-500 text-white flex items-center gap-1")] [
        Elem "span" [("className", AStr "w-2 h-2 bg-white rounded-full animate-pulse")] [];
        Text "Playing"
      ]
    ]
  ] else [].

(** [dataset.topics.transforms?.slice(0, 2).map(topic => <span ...>)]: one
    tag per topic, showing [topic.split('/').pop()]. *)
Definition topic_tag (topic : string) : node :=
  Elem "span" [("key", AStr topic);
               ("className", AStr "px-1.5 py-0.5 bg-slate-100 text-slate-600 rounded text-xs font-mono truncate max-w-[120px]")]
       (child (JS.pop (Str.split "/" topic))).

Definition topic_tags (dataset : Dataset) : list node :=
  match topics dataset !! "transforms" with
  | Some transforms => List.map topic_tag (JS.slice0 2 transforms)
  | None => []
  end.

(** [{dataset.topics.tactile && (...)}]: an array is truthy, a missing key
    reads as [undefined]. *)
Definition tactile_tag (dataset : Dataset) : list node :=
  match topics dataset !! "tactile" with
  | Some _ => [Elem "span" [("className", AStr "px-1.5 py-0.5 bg-purple-100 text-purple-600 rounded text-xs")]
                    [Text "tactile"]]
  | None => []
  end.

Definition DatasetCard (dataset : Dataset) (isActive : bool) (onClick : action) : node :=
  Elem "button" [("onClick", AHandler onClick);
                 ("className", AStr ("
        dataset-card text-left w-full rounded-xl overflow-hidden bg-white border
        " +:+ (if isActive
               then "ring-2 ring-blue-500 ring-offset-2 border-blue-200"
               else "border-slate-200 hover:border-slate-300") +:+ "
        shadow-sm hover:shadow-lg
      "))] [
    Elem "div" [("className", AStr "aspect-video bg-gradient-to-br from-slate-100 to-slate-200 relative overflow-hidden")]
      ([if shows_thumbnail dataset then thumbnail_image dataset else fallback_icon dataset;
        source_badge dataset]
       ++ active_indicator isActive);
    Elem "div" [("className", AStr "p-4")] [
      Elem "h4" [("className", AStr "font-semibold text-slate-800 mb-1")] [Text (name dataset)];
      Elem "p" [("className", AStr "text-sm text-slate-500 line-clamp-2")] [Text (description dataset)];
      Elem "div" [("className", AStr "mt-3 flex flex-wrap gap-1")]
        (topic_tags dataset ++ tactile_tag dataset)
    ]
  ].

End DatasetCard.

(** ** RerunViewer (src/unnamed/part_000) *)

Module RerunViewer.

(** [rrdUrl?.startsWith('http') ? rrdUrl
       : rrdUrl ? new URL(rrdUrl, window.location.href).href : null] *)
Definition fullUrl (rrdUrl : JS.value) (location_href : string)
    : JS.completion JS.value :=
  if JS.truthy_result (JS.optional_startsWith rrdUrl "http")
  then JS.Normal rrdUrl
  else if JS.truthy rrdUrl
  then JS.new_URL_href rrdUrl location_href
  else JS.Normal JS.Null.

Definition placeholder : node :=
  Elem "div" [("className", AStr "w-full h-full flex items-center justify-center bg-slate-800 text-slate-400")] [
    Elem "div" [("className", AStr "text-center")] [
      Elem "svg" [("className", AStr "w-16 h-16 mx-auto mb-4 opacity-50"); ("fill", AStr "none");
                  ("stroke", AStr "currentColor"); ("viewBox", AStr "0 0 24 24")] [
        Elem "path" [("strokeLinecap", AStr "round"); ("strokeLinejoin", AStr "round");
                     ("strokeWidth", ANum 1.5);
                     ("d", AStr "M4 16l4.586-4.586a2 2 0 012.828 0L16 16m-2-2l1.586-1.586a2 2 0 012.828 0L20 14m-6-6h.01M6 20h12a2 2 0 002-2V6a2 2 0 00-2-2H6a2 2 0 00-2 2v12a2 2 0 002 2z")] []
      ];
      Elem "p" [] [Text "No dataset selected"]
    ]
  ].

Definition viewer (fullUrl rrdUrl : JS.value) : node :=
  Elem "div" [("className", AStr "w-full h-full relative")] [
    Elem "WebViewer" [("width", AStr "100%"); ("height", AStr "100%");
                      ("rrd", AStr (JS.to_string fullUrl))] [];
    Elem "div" [("className", AStr "absolute bottom-4 left-4 px-3 py-2 bg-slate-900/80 backdrop-blur-sm rounded-lg text-xs text-slate-300 font-mono max-w-md truncate pointer-events-none")]
      (child rrdUrl)
  ].

Definition RerunViewer (rrdUrl : JS.value) (location_href : string)
    : JS.completion node :=
  let* fullUrl := fullUrl rrdUrl location_href in
  if negb (JS.truthy fullUrl) then JS.Normal placeholder
  else JS.Normal (viewer fullUrl rrdUrl).

End RerunViewer.

(** ** FoxgloveViewer.jsx *)

Module FoxgloveViewer.

Definition baseUrl : string := "https://embed.foxglove.dev".

(** The full URL of the MCAP file: the [if]/[else] on
    [mcapUrl.startsWith('http')]. *)
Definition fullMcapUrl (mcapUrl : JS.value) (location_href : string)
    : JS.completion JS.value :=
  let* http := JS.startsWith mcapUrl "http" in
  if http then JS.Normal mcapUrl
  else JS.new_URL_href mcapUrl location_href.

(** The query parameters of the embed URL. *)
Definition params (fullMcapUrl : JS.value) : URLSearchParams.t :=
  URLSearchParams.set "ds.url" (JS.to_string fullMcapUrl)
    (URLSearchParams.set "ds" "remote-file" URLSearchParams.empty).

(** The function given to [useMemo]. *)
Definition foxgloveUrl (mcapUrl : JS.value) (location_href : string)
    : JS.completion JS.value :=
  if negb (JS.truthy mcapUrl) then JS.Normal JS.Null
  else
    let* fullMcapUrl := fullMcapUrl mcapUrl location_href in
    JS.Normal (JS.Str (baseUrl +:+ "?" +:+ URLSearchParams.toString (params fullMcapUrl))).

(** The cell of [useMemo(f, [mcapUrl])]: the dependency of the last
    computation and its value; [None] before the first render. *)
Record memo := mkMemo { dep : JS.value; memoized : JS.value }.

Definition same_dep (a b : JS.value) : bool :=
  match a, b with
  | JS.Null, JS.Null | JS.Undefined, JS.Undefined => true
  | JS.Str s, JS.Str t => String.eqb s t
  | _, _ => false
  end.

Definition useMemo (cell : option memo) (d : JS.value)
    (f : JS.completion JS.value) : JS.completion (JS.value * option memo) :=
  match cell with
  | Some m =>
      if same_dep (dep m) d then JS.Normal (memoized m, cell)
      else let* v := f in JS.Normal (v, Some (mkMemo d v))
  | None => let* v := f in JS.Normal (v, Some (mkMemo d v))
  end.

Definition placeholder : node :=
  Elem "div" [("className", AStr "w-full h-full flex items-center justify-center bg-slate-800 text-slate-400")] [
    Elem "div" [("className", AStr "text-center")] [
      Elem "svg" [("className", AStr "w-16 h-16 mx-auto mb-4 opacity-50"); ("fill", AStr "none");
                  ("stroke", AStr "currentColor"); ("viewBox", AStr "0 0 24 24")] [
        Elem "path" [("strokeLinecap", AStr "round"); ("strokeLinejoin", AStr "round");
                     ("strokeWidth", ANum 1.5);
                     ("d", AStr "M4 16l4.586-4.586a2 2 0 012.828 0L16 16m-2-2l1.586-1.586a2 2 0 012.828 0L20 14m-6-6h.01M6 20h12a2 2 0 002-2V6a2 2 0 00-2-2H6a2 2 0 00-2 2v12a2 2 0 002 2z")] []
      ];
      Elem "p" [] [Text "No dataset selected"]
    ]
  ].

Definition viewer (foxgloveUrl mcapUrl : JS.value) : node :=
  Elem "div" [("className", AStr "w-full h-full relative")] [
    Elem "iframe" [("src", AStr (JS.to_string foxgloveUrl));
                   ("title", AStr "Foxglove Viewer");
                   ("className", AStr "w-full h-full border-0");
                   ("allow", AStr "fullscreen")] [];
    Elem "div" [("className", AStr "absolute bottom-4 left-4 px-3 py-2 bg-slate-900/80 backdrop-blur-sm rounded-lg text-xs text-slate-300 font-mono max-w-md truncate")]
      (child mcapUrl)
  ].

(** One render of the component: the element tree and the memo cell it
    leaves.  [layoutType] is a prop the component never reads. *)
Definition FoxgloveViewer (cell : option memo) (mcapUrl : JS.value)
    (location_href : string) : JS.completion (node * option memo) :=
  let* r := useMemo cell mcapUrl (foxgloveUrl mcapUrl location_href) in
  if negb (JS.truthy mcapUrl) then JS.Normal (placeholder, snd r)
  else JS.Normal (viewer (fst r) mcapUrl, snd r).

End FoxgloveViewer.

(** ** UmiGallery.jsx *)

Module UmiGallery.

(** The callback given to [setTimeout]:
    [viewerRef.current?.scrollIntoView({ behavior: 'smooth', block: 'start' })]. *)
Inductive callback := ScrollViewerIntoView.

Record timeout := mkTimeout { run : callback; delay : N }.

(** The memory the gallery works with: the catalog the module imports, the
    React state cell [selectedDataset] and the timers [setTimeout] has
    scheduled, oldest first. *)
Record store := mkStore {
  DATASETS : list Dataset;
  selectedDataset : option Dataset;
  timeouts : list timeout
}.

(** The first render: [useState(null)]. *)
Definition mount (catalog : list Dataset) : store :=
  {| DATASETS := catalog; selectedDataset := None; timeouts := [] |}.

Definition setSelectedDataset (dataset : Dataset) (st : store) : store :=
  {| DATASETS := DATASETS st; selectedDataset := Some dataset; timeouts := timeouts st |}.

Definition setTimeout (f : callback) (ms : N) (st : store) : store :=
  {| DATASETS := DATASETS st; selectedDataset := selectedDataset st;
     timeouts := timeouts st ++ [mkTimeout f ms] |}.

Definition handleCardClick (dataset : Dataset) (st : store) : store :=
  setTimeout ScrollViewerIntoView 100 (setSelectedDataset dataset st).

(** Running an event handler of the rendered tree. *)
Definition dispatch (a : action) (st : store) : store :=
  match a with
  | HandleCardClick dataset => handleCardClick dataset st
  | HideTarget => st
  end.

Definition getSourceBadgeClass (source : string) : string :=
  if String.eqb source "Genrobot" then "bg-emerald-100 text-emerald-700"
  else if String.eqb source "Lumos" then "bg-amber-100 text-amber-700"
  else if String.eqb source "DM Robot" then "bg-violet-100 text-violet-700"
  else "bg-slate-100 text-slate-700".

(** [selectedDataset?.id === dataset.id]: [undefined] is not strictly equal
    to a string. *)
Definition isActive (selected : option Dataset) (dataset : Dataset) : bool :=
  match selected with
  | Some s => String.eqb (id s) (id dataset)
  | None => false
  end.

Definition header : node :=
  Elem "header" [("className", AStr "bg-slate-900 text-white py-4 sticky top-0 z-50 shadow-lg")] [
    Elem "div" [("className", AStr "max-w-7xl mx-auto px-4 sm:px-6 lg:px-8")] [
      Elem "div" [("className", AStr "flex items-center justify-between")] [
        Elem "div" [("className", AStr "flex items-center gap-4")] [
          Elem "a" [("href", AStr "../index.html");
                    ("className", AStr "text-slate-400 hover:text-white transition-colors")] [
            Elem "svg" [("className", AStr "w-5 h-5"); ("fill", AStr "none");
                        ("stroke", AStr "currentColor"); ("viewBox", AStr "0 0 24 24")] [
              Elem "path" [("strokeLinecap", AStr "round"); ("strokeLinejoin", AStr "round");
                           ("strokeWidth", ANum 2);
                           ("d", AStr "M10 19l-7-7m0 0l7-7m-7 7h18")] []
            ]
          ];
          Elem "div" [] [
            Elem "h1" [("className", AStr "text-xl font-bold")] [Text "WBCD Data Gallery"];
            Elem "p" [("className", AStr "text-sm text-slate-400")] [Text "WBCD 2026 Competition"]
          ]
        ];
        Elem "div" [("className", AStr "hidden sm:flex items-center gap-2 text-sm text-slate-400")] [
          Elem "span" [("className", AStr "px-2 py-1 bg-emerald-900/50 text-emerald-400 rounded")] [Text "Genrobot"];
          Elem "span" [("className", AStr "px-2 py-1 bg-amber-900/50 text-amber-400 rounded")] [Text "Lumos"];
          Elem "span" [("className", AStr "px-2 py-1 bg-violet-900/50 text-violet-400 rounded")] [Text "DM Robot"]
        ]
      ]
    ]
  ].

(** [DATASETS.map((dataset) => <DatasetCard ... />)]. *)
Definition cards (st : store) : list node :=
  List.map (fun dataset =>
              DatasetCardElem (id dataset) dataset
                              (isActive (selectedDataset st) dataset)
                              (HandleCardClick dataset))
           (DATASETS st).

Definition selection_section (st : store) : node :=
  Elem "section" [("className", AStr "py-8 px-4 sm:px-6 lg:px-8")] [
    Elem "div" [("className", AStr "max-w-7xl mx-auto")] [
      Elem "h3" [("className", AStr "text-xl font-semibold text-slate-800 mb-2")] [Text "Select a Dataset"];
      Elem "p" [("className", AStr "text-slate-600 mb-6")] [Text "Click a dataset to view it in the Rerun visualizer below."];
      Elem "div" [("className", AStr "grid grid-cols-1 sm:grid-cols-2 lg:grid-cols-3 gap-6")] (cards st)
    ]
  ].

(** [selectedDataset.topics.<category>?.map(topic => <code ...>)]. *)
Definition topic_codes (dataset : Dataset) (category className : string) : list node :=
  match topics dataset !! category with
  | Some paths =>
      List.map (fun topic => Elem "code" [("key", AStr topic); ("className", AStr className)]
                                  [Text topic]) paths
  | None => []
  end.

(** The viewer region when a dataset is selected. *)
Definition selected_panel (dataset : Dataset) : list node := [
  Elem "div" [("className", AStr "mb-6")] [
    Elem "div" [("className", AStr "flex items-center gap-3 mb-2")] [
      Elem "h2" [("className", AStr "text-2xl font-bold text-slate-800")] [Text (name dataset)];
      Elem "span" [("className", AStr ("px-3 py-1 rounded-full text-sm font-medium "
                                       +:+ getSourceBadgeClass (source dataset)))]
           [Text (source dataset)]
    ];
    Elem "p" [("className", AStr "text-slate-600")] [Text (description dataset)];
    Elem "p" [("className", AStr "text-sm text-amber-600 mt-2")]
         [Text "⏳ Data files are large. Please wait a moment for the visualization to load."]
  ];
  Elem "div" [("className", AStr "foxglove-container")] [
    RerunViewerElem (rrdUrl dataset)
  ];
  Elem "div" [("className", AStr "mt-4 flex flex-wrap gap-2")]
    ([Elem "span" [("className", AStr "text-sm text-slate-500")] [Text "Topics:"]]
     ++ topic_codes dataset "transforms" "px-2 py-1 bg-blue-50 text-blue-700 rounded text-xs font-mono"
     ++ topic_codes dataset "cameras" "px-2 py-1 bg-green-50 text-green-700 rounded text-xs font-mono")
].

(** The viewer region when no dataset is selected. *)
Definition placeholder_panel : node :=
  Elem "div" [("className", AStr "foxglove-container bg-slate-100 rounded-lg flex items-center justify-center")] [
    Elem "div" [("className", AStr "text-center text-slate-500")] [
      Elem "svg" [("className", AStr "w-20 h-20 mx-auto mb-4 opacity-40"); ("fill", AStr "none");
                  ("stroke", AStr "currentColor"); ("viewBox", AStr "0 0 24 24")] [
        Elem "path" [("strokeLinecap", AStr "round"); ("strokeLinejoin", AStr "round");
                     ("strokeWidth", ANum 1.5);
                     ("d", AStr "M15 10.5a3 3 0 11-6 0 3 3 0 016 0z")] [];
        Elem "path" [("strokeLinecap", AStr "round"); ("strokeLinejoin", AStr "round");
                     ("strokeWidth", ANum 1.5);
                     ("d", AStr "M19.5 10.5c0 7.142-7.5 11.25-7.5 11.25S4.5 17.642 4.5 10.5a7.5 7.5 0 1115 0z")] []
      ];
      Elem "p" [("className", AStr "text-lg font-medium")] [Text "Select a dataset above"];
      Elem "p" [("className", AStr "text-sm mt-1")] [Text "The Rerun visualizer will load here"]
    ]
  ].

(** [{selectedDataset ? (<>...</>) : (...)}]: an object is truthy, [null]
    is not. *)
Definition viewer_region (st : store) : list node :=
  match selectedDataset st with
  | Some dataset => selected_panel dataset
  | None => [placeholder_panel]
  end.

Definition viewer_section (st : store) : node :=
  Elem "section" [("ref", ARef "viewerRef");
                  ("className", AStr "py-8 px-4 sm:px-6 lg:px-8 bg-white border-t border-slate-200")] [
    Elem "div" [("className", AStr "max-w-7xl mx-auto")] (viewer_region st)
  ].

Definition footer (DATA_SOURCE : DataSource) : node :=
  Elem "footer" [("className", AStr "bg-slate-900 text-slate-400 py-8 px-4")] [
    Elem "div" [("className", AStr "max-w-7xl mx-auto text-center")] [
      Elem "p" [("className", AStr "text-sm")]
           [Text "This gallery is demo-use only.Sample data are collected by our sponsors on similar tasks. They will provide datasets for the competition tasks and supply data to participating teams."];
      Elem "p" [("className", AStr "text-xs mt-2 text-slate-500")] [Text (note DATA_SOURCE)];
      Elem "p" [("className", AStr "text-xs mt-3")] [
        Elem "a" [("href", AStr "../index.html");
                  ("className", AStr "hover:text-white transition-colors")]
             [Text "← Back to WBCD 2026 Competition"]
      ]
    ]
  ].

(** The element tree [UmiGallery] returns in the store [st]. *)
Definition UmiGallery (DATA_SOURCE : DataSource) (st : store) : node :=
  Elem "div" [("className", AStr "bg-slate-50 min-h-screen")] [
    header;
    selection_section st;
    viewer_section st;
    footer DATA_SOURCE
  ].

(** The props of a [DatasetCard] element. *)
Definition card_of (m : node) : list (Dataset * bool * action) :=
  match m with
  | DatasetCardElem _ d a h => [(d, a, h)]
  | _ => []
  end.

(** The [DatasetCard] elements of a tree, with the props they carry. *)
Definition card_props (n : node) : list (Dataset * bool * action) :=
  List.flat_map card_of (nodes n).

(** The children of the element that holds [viewerRef], inside its
    centering [div]. *)
Definition viewer_of_node (m : node) : list node :=
  match m with
  | Elem _ (("ref", ARef "viewerRef") :: _) [Elem _ _ children] => children
  | _ => []
  end.

Definition viewer_of (n : node) : list node :=
  List.flat_map viewer_of_node (nodes n).

(** The stores the gallery can be in: the first render, and what a click on
    a rendered card leaves. *)
Inductive reachable (DATA_SOURCE : DataSource) (catalog : list Dataset) : store -> Prop :=
  | reach_mount : reachable DATA_SOURCE catalog (mount catalog)
  | reach_click st d a h :
      reachable DATA_SOURCE catalog st ->
      In (d, a, h) (card_props (UmiGallery DATA_SOURCE st)) ->
      reachable DATA_SOURCE catalog (dispatch h st).

End UmiGallery.

(** ** UTF-8

    A string of the model is the UTF-8 encoding of a JavaScript string that
    holds no lone surrogate, that is, of a sequence of scalar values:
    [Utf8.encode].  A JavaScript string with a lone surrogate has no such
    encoding.  [Utf8.decode] is the platform's "UTF-8 decode without BOM":
    it reads any byte sequence and gives U+FFFD for every ill-formed part. *)

Module Utf8.

(** A scalar value: a code point that is not a surrogate. *)
Definition is_scalar_value (cp : N) : bool :=
  ((cp <? 0xD800) || ((0xE000 <=? cp) && (cp <=? 0x10FFFF)))%N.

Definition byte (n : N) : ascii := ascii_of_N n.

(** The continuation byte that carries bits [6 * k] to [6 * k + 5] of [cp]. *)
Definition continuation (cp : N) (k : N) : ascii :=
  byte (N.lor 0x80 (N.land (N.shiftr cp (6 * k)) 0x3F)).

(** The UTF-8 encoder, for one scalar value. *)
Definition encode_code_point (cp : N) : string :=
  if (cp <=? 0x7F)%N then String (byte cp) ""
  else if (cp <=? 0x7FF)%N then
    String (byte (N.shiftr cp 6 + 0xC0)) (String (continuation cp 0) "")
  else if (cp <=? 0xFFFF)%N then
    String (byte (N.shiftr cp 12 + 0xE0))
           (String (continuation cp 1) (String (continuation cp 0) ""))
  else
    String (byte (N.shiftr cp 18 + 0xF0))
           (String (continuation cp 2)
                   (String (continuation cp 1) (String (continuation cp 0) ""))).

Fixpoint encode (cps : list N) : string :=
  match cps with
  | [] => ""
  | cp :: rest => encode_code_point cp +:+ encode rest
  end.

(** The state of the UTF-8 decoder. *)
Record state : Type := mkState {
  code_point : N;
  bytes_seen : N;
  bytes_needed : N;
  lower_boundary : N;
  upper_boundary : N
}.

Definition initial : state := mkState 0 0 0 0x80 0xBF.

Definition replacement : N := 0xFFFD.

(** A byte read when no byte is needed: the code points emitted and the
    next state. *)
Definition lead (b : N) : list N * state :=
  if (b <=? 0x7F)%N then ([b], initial)
  else if ((0xC2 <=? b) && (b <=? 0xDF))%N then
    ([], mkState (N.land b 0x1F) 0 1 0x80 0xBF)
  else if ((0xE0 <=? b) && (b <=? 0xEF))%N then
    ([], mkState (N.land b 0xF) 0 2
                 (if (b =? 0xE0)%N then 0xA0 else 0x80)
                 (if (b =? 0xED)%N then 0x9F else 0xBF))
  else if ((0xF0 <=? b) && (b <=? 0xF4))%N then
    ([], mkState (N.land b 0x7) 0 3
                 (if (b =? 0xF0)%N then 0x90 else 0x80)
                 (if (b =? 0xF4)%N then 0x8F else 0xBF))
  else ([replacement], initial).

(** One byte.  A byte outside the boundaries ends the sequence with an
    error and is read again as a first byte. *)
Definition step (st : state) (b : N) : list N * state :=
  if (bytes_needed st =? 0)%N then lead b
  else if negb ((lower_boundary st <=? b) && (b <=? upper_boundary st))%N then
    let '(out, st') := lead b in (replacement :: out, st')
  else
    let cp := N.lor (N.shiftl (code_point st) 6) (N.land b 0x3F) in
    let seen := (bytes_seen st + 1)%N in
    if (seen =? bytes_needed st)%N then ([cp], initial)
    else ([], mkState cp seen (bytes_needed st) 0x80 0xBF).

Fixpoint run (st : state) (s : string) : list N :=
  match s with
  | EmptyString => if (bytes_needed st =? 0)%N then [] else [replacement]
  | String c rest =>
      let '(out, st') := step st (N_of_ascii c) in out ++ run st' rest
  end.

(** "UTF-8 decode without BOM": the code points of a byte sequence, U+FFFD
    for every ill-formed part. *)
Definition decode (s : string) : list N := run initial s.

(** A byte sequence read as a string. *)
Definition to_string (s : string) : string := encode (decode s).

End Utf8.

(** ** Reading a query back

    The platform's parser of application/x-www-form-urlencoded strings, the
    one [new URLSearchParams(query)] and [url.searchParams] run: the inverse
    direction of [URLSearchParams.toString].  A name or a value is
    percent-decoded to bytes, and the bytes are UTF-8-decoded to a string. *)

Module Urlencoded.

Definition plus_to_space (c : ascii) : ascii :=
  if Char.same c "+" then " "%char else c.

(** The bytes of a name or a value: U+002B becomes U+0020, then
    percent-decoding. *)
Definition decode_bytes (s : string) : string :=
  Url.percent_decode (Str.map plus_to_space s).

(** A name or a value: its bytes, UTF-8-decoded. *)
Definition decode (s : string) : string :=
  Utf8.to_string (decode_bytes s).

(** The part before the first [sep] and, when there is one, the part after. *)
Fixpoint split_first (sep : ascii) (s : string) : string * option string :=
  match s with
  | EmptyString => ("", None)
  | String c rest =>
      if Char.same c sep then ("", Some rest)
      else let '(before, after) := split_first sep rest in (String c before, after)
  end.

Definition parse_pair (bytes : string) : string * string :=
  let '(name, value) := split_first "=" bytes in
  (decode name, decode (default "" value)).

Definition parse (input : string) : list (string * string) :=
  List.map parse_pair
           (List.filter (fun bytes => negb (Str.is_empty bytes)) (Str.split "&" input)).

End Urlencoded.

(** ** Sessions and queries on rendered trees *)

(** The store after the handlers of [events] have run, first to last. *)
Definition run (events : list action) (st : UmiGallery.store) : UmiGallery.store :=
  List.fold_left (fun s a => UmiGallery.dispatch a s) events st.

(** The descriptors of the card clicks among [events], in order. *)
Definition clicked (events : list action) : list Dataset :=
  List.flat_map (fun a => match a with
                          | HandleCardClick d => [d]
                          | HideTarget => []
                          end) events.

(** The [rrdUrl] props of the [RerunViewer] elements of a tree. *)
Definition rerun_viewer_of (m : node) : list JS.value :=
  match m with
  | RerunViewerElem v => [v]
  | _ => []
  end.

Definition rerun_viewers (n : node) : list JS.value :=
  List.flat_map rerun_viewer_of (nodes n).

(** The texts directly inside the elements called [tag]. *)
Definition text_of (m : node) : list string :=
  match m with
  | Text s => [s]
  | _ => []
  end.

Definition texts_in (tag : string) (m : node) : list string :=
  match m with
  | Elem t _ children => if String.eqb t tag then List.flat_map text_of children else []
  | _ => []
  end.

Definition texts_of_tag (tag : string) (n : node) : list string :=
  List.flat_map (texts_in tag) (nodes n).

(** The handler an element carries under the attribute [event]. *)
Definition handler_of (event : string) (n : node) : option action :=
  match n with
  | Elem _ attrs _ =>
      match List.find (fun a => String.eqb (fst a) event) attrs with
      | Some (_, AHandler h) => Some h
      | _ => None
      end
  | _ => None
  end.

(** The value of a string attribute of an element. *)
Definition attr_of (attr : string) (n : node) : option string :=
  match n with
  | Elem _ attrs _ =>
      match List.find (fun a => String.eqb (fst a) attr) attrs with
      | Some (_, AStr s) => Some s
      | _ => None
      end
  | _ => None
  end.

Definition has_tag (tag : string) (n : node) : bool :=
  match n with
  | Elem t _ _ => String.eqb t tag
  | _ => false
  end.

(** The bytes an application/x-www-form-urlencoded string is made of. *)
Definition form_byte (c : ascii) : bool :=
  Char.is_alphanumeric c || Char.mem c "*-._+%".

(** The bytes of a serialized parameter list: form bytes and the two
    separators. *)
Definition query_byte (c : ascii) : bool := form_byte c || Char.mem c "&=".

(** A scheme as the URL parser produces it: an ASCII letter followed by
    letters, digits, U+002B, U+002D or U+002E. *)
Definition scheme_char (c : ascii) : bool :=
  Char.is_alphanumeric c || Char.mem c "+-.".

Definition valid_scheme (s : string) : bool :=
  match s with
  | String c rest => Char.is_alpha c && Str.forallb scheme_char rest
  | EmptyString => false
  end.

(** A parse that succeeds gives a URL whose scheme is [s]. *)
Definition has_scheme (s : string) (r : Url.parsed Url.url) : Prop :=
  match r with
  | Url.Success u => Url.scheme u = s
  | Url.Failure | Url.OutsideModel => True
  end.


(** * Properties *)

(** ** Strings and the URL serializer *)

Lemma append_nonempty (a b : string) (c : ascii) : a +:+ String c b <> "".
Proof. destruct a; discriminate. Qed.

Lemma startsWith_nonempty (s : string) (c : ascii) (needle : string) :
  Str.startsWith s (String c needle) = true -> Str.is_empty s = false.
Proof. destruct s; simpl; [discriminate | reflexivity]. Qed.

(** The URL model on inputs of each kind the gallery can meet. *)

Example href_relative_path :
  Url.href "../x/./y/../z?q=1 2#f" "https://example.org/gallery/index.html?old#old"
  = Url.Success "https://example.org/x/z?q=1%202#f".
Proof. vm_compute. reflexivity. Qed.

Example href_absolute_path :
  Url.href "/rrd/a b.rrd" "https://example.org:8443/gallery/"
  = Url.Success "https://example.org:8443/rrd/a%20b.rrd".
Proof. vm_compute. reflexivity. Qed.

Example href_scheme_relative :
  Url.href "//cdn.example.com/a.rrd" "https://example.org/gallery/"
  = Url.Success "https://cdn.example.com/a.rrd".
Proof. vm_compute. reflexivity. Qed.

Example href_absolute_normalised :
  Url.href "HTTP://User@Example.ORG:80/a/%2e%2e/b" "https://example.org/gallery/"
  = Url.Success "http://User@example.org/b".
Proof. vm_compute. reflexivity. Qed.

Example href_file_page :
  Url.href "./rrd/a.rrd" "file:///C:/site/gallery/index.html"
  = Url.Success "file:///C:/site/gallery/rrd/a.rrd".
Proof. vm_compute. reflexivity. Qed.

Example href_ip_hosts :
  Url.href "a.rrd" "http://[::1]:5173/gallery/" = Url.Success "http://[::1]:5173/gallery/a.rrd" /\
  Url.href "a.rrd" "http://0x7f.1/" = Url.Success "http://127.0.0.1/a.rrd".
Proof. split; vm_compute; reflexivity. Qed.

Example href_failures :
  Url.href "//" "https://example.org/gallery/" = Url.Failure /\
  Url.href "a.rrd" "about:blank" = Url.Failure /\
  Url.href "a.rrd" "gallery/index.html" = Url.Failure.
Proof. repeat split; vm_compute; reflexivity. Qed.

(** A serialized URL starts with its scheme and a colon: it is never the
    empty string, so an [href] is always truthy. *)
Lemma serialize_nonempty (u : Url.url) : Url.serialize u <> "".
Proof.
  unfold Url.serialize. exact (append_nonempty (Url.scheme u) _ ":"%char).
Qed.

Lemma href_truthy (input : JS.value) (base : string) (v : JS.value) :
  JS.new_URL_href input base = JS.Normal v -> JS.truthy v = true.
Proof.
  unfold JS.new_URL_href, Url.href, Url.bind. intros H.
  destruct (Url.parse base None) as [b| |]; try discriminate.
  destruct (Url.parse (JS.to_string input) (Some b)) as [u| |]; try discriminate.
  injection H as <-. simpl.
  destruct (Url.serialize u) eqn:E; [|reflexivity].
  exfalso. exact (serialize_nonempty u E).
Qed.

(** The values that are not truthy. *)
Lemma falsy_values (v : JS.value) :
  JS.truthy v = false <-> v = JS.Null \/ v = JS.Undefined \/ v = JS.Str "".
Proof.
  split.
  - destruct v as [| |s]; auto. destruct s; [auto | discriminate].
  - intros [-> | [-> | ->]]; reflexivity.
Qed.

(** ** The viewer adapters: which references are resolved *)

Section Resolution.

Variables (r location_href : string).

(** A reference that starts with "http" is the resolved URL of both
    adapters. *)
Lemma fullUrl_http :
  Str.startsWith r "http" = true ->
  RerunViewer.fullUrl (JS.Str r) location_href = JS.Normal (JS.Str r) /\
  FoxgloveViewer.fullMcapUrl (JS.Str r) location_href = JS.Normal (JS.Str r).
Proof.
  intros H. unfold RerunViewer.fullUrl, FoxgloveViewer.fullMcapUrl. simpl.
  rewrite H. split; reflexivity.
Qed.

(** Any other non-empty reference goes to the [URL] constructor, with the
    page location as base. *)
Lemma fullUrl_resolved :
  r <> "" -> Str.startsWith r "http" = false ->
  RerunViewer.fullUrl (JS.Str r) location_href = JS.new_URL_href (JS.Str r) location_href /\
  FoxgloveViewer.fullMcapUrl (JS.Str r) location_href = JS.new_URL_href (JS.Str r) location_href.
Proof.
  intros Hr H. unfold RerunViewer.fullUrl, FoxgloveViewer.fullMcapUrl. simpl.
  rewrite H. simpl. destruct r; [congruence | split; reflexivity].
Qed.

(** What [RerunViewer] renders once the reference is resolved to [u]. *)
Lemma RerunViewer_embeds (u : JS.value) :
  JS.truthy u = true ->
  RerunViewer.fullUrl (JS.Str r) location_href = JS.Normal u ->
  RerunViewer.RerunViewer (JS.Str r) location_href
  = JS.Normal (RerunViewer.viewer u (JS.Str r)).
Proof.
  intros Hu H. unfold RerunViewer.RerunViewer. rewrite H. simpl. rewrite Hu. reflexivity.
Qed.

(** What [FoxgloveViewer] renders on its first render once the reference is
    resolved to [u]. *)
Lemma FoxgloveViewer_embeds (u : JS.value) :
  r <> "" ->
  FoxgloveViewer.fullMcapUrl (JS.Str r) location_href = JS.Normal u ->
  let target := JS.Str (FoxgloveViewer.baseUrl +:+ "?" +:+
                        URLSearchParams.toString (FoxgloveViewer.params u)) in
  FoxgloveViewer.foxgloveUrl (JS.Str r) location_href = JS.Normal target /\
  FoxgloveViewer.FoxgloveViewer None (JS.Str r) location_href
  = JS.Normal (FoxgloveViewer.viewer target (JS.Str r),
               Some (FoxgloveViewer.mkMemo (JS.Str r) target)).
Proof.
  intros Hr H target.
  assert (Ht : JS.truthy (JS.Str r) = true) by (destruct r; [congruence | reflexivity]).
  assert (E : FoxgloveViewer.foxgloveUrl (JS.Str r) location_href = JS.Normal target).
  { unfold FoxgloveViewer.foxgloveUrl. rewrite Ht, H. reflexivity. }
  split; [exact E |].
  unfold FoxgloveViewer.FoxgloveViewer, FoxgloveViewer.useMemo.
  rewrite E. cbn [JS.bind fst snd]. rewrite Ht. reflexivity.
Qed.

End Resolution.

(** The two query parameters of the embed URL, in order. *)
Lemma params_two (u : string) :
  FoxgloveViewer.params (JS.Str u) = [("ds", "remote-file"); ("ds.url", u)].
Proof. reflexivity. Qed.

Lemma toString_params (u : string) :
  URLSearchParams.toString (FoxgloveViewer.params (JS.Str u))
  = "ds=remote-file&ds.url=" +:+ URLSearchParams.serialize_string u.
Proof. reflexivity. Qed.

(** C1, at the reference "httpdocs/a.rrd": a relative path (it begins with
    no scheme) whose text starts with "http".  The standard resolution
    against "https://example.org/gallery/" is
    "https://example.org/gallery/httpdocs/a.rrd", but both adapters take
    the branch meant for full URLs and hand the path to the embedded viewer
    unresolved. *)
Theorem C1_http_named_path_left_unresolved :
  let r := "httpdocs/a.rrd" in
  let location_href := "https://example.org/gallery/" in
  Url.begins_with_scheme r = false /\
  JS.new_URL_href (JS.Str r) location_href
  = JS.Normal (JS.Str "https://example.org/gallery/httpdocs/a.rrd") /\
  RerunViewer.fullUrl (JS.Str r) location_href = JS.Normal (JS.Str r) /\
  FoxgloveViewer.fullMcapUrl (JS.Str r) location_href = JS.Normal (JS.Str r) /\
  RerunViewer.RerunViewer (JS.Str r) location_href
  = JS.Normal (RerunViewer.viewer (JS.Str r) (JS.Str r)).
Proof. repeat split; vm_compute; reflexivity. Qed.



(** C2 as stated fails at "ftp://x/a/../b.rrd": the reference carries a
    scheme, yet the resolved URL of both adapters is "ftp://x/b.rrd", not
    the reference itself. *)
Lemma C2_counterexample :
  Url.begins_with_scheme "ftp://x/a/../b.rrd" = true /\
  RerunViewer.fullUrl (JS.Str "ftp://x/a/../b.rrd") "https://example.org/gallery/"
  = JS.Normal (JS.Str "ftp://x/b.rrd") /\
  FoxgloveViewer.fullMcapUrl (JS.Str "ftp://x/a/../b.rrd") "https://example.org/gallery/"
  = JS.Normal (JS.Str "ftp://x/b.rrd") /\
  ~ (RerunViewer.fullUrl (JS.Str "ftp://x/a/../b.rrd") "https://example.org/gallery/"
     = JS.Normal (JS.Str "ftp://x/a/../b.rrd")) /\
  ~ (FoxgloveViewer.fullMcapUrl (JS.Str "ftp://x/a/../b.rrd") "https://example.org/gallery/"
     = JS.Normal (JS.Str "ftp://x/a/../b.rrd")).
Proof. repeat split; try (vm_compute; reflexivity); vm_compute; discriminate. Qed.

(** An absolute ftp URL is parsed the same way whatever the base is. *)
Lemma ftp_reference_ignores_base (base : Url.url) :
  Url.parse "ftp://x/a.rrd" (Some base)
  = Url.Success (Url.mkUrl "ftp" "" "" (Some (Url.Domain "x")) None
                           (Url.ListPath ["a.rrd"]) None None).
Proof.
  change (Url.parse "ftp://x/a.rrd" (Some base))
    with (Url.after_scheme (Url.set_scheme Url.blank "ftp") (Some base) "//x/a.rrd").
  unfold Url.after_scheme.
  change (Url.scheme (Url.set_scheme Url.blank "ftp")) with "ftp".
  change (String.eqb "ftp" "file") with false.
  change (Url.is_special (Url.set_scheme Url.blank "ftp")) with true.
  cbv iota.
  destruct (String.eqb (Url.scheme base) "ftp"); vm_compute; reflexivity.
Qed.

(** C2, amended: a reference that begins with a scheme and whose text
    starts with "http" is used as it is by both adapters, as the resolved
    URL and in what they render.  A reference that begins with a scheme and
    does not start with "http" goes through URL resolution instead, which
    returns "ftp://x/a.rrd" unchanged on every page. *)
Theorem C2_http_reference_used_as_is :
  (forall r location_href : string,
     Url.begins_with_scheme r = true -> Str.startsWith r "http" = true ->
     RerunViewer.fullUrl (JS.Str r) location_href = JS.Normal (JS.Str r) /\
     FoxgloveViewer.fullMcapUrl (JS.Str r) location_href = JS.Normal (JS.Str r) /\
     RerunViewer.RerunViewer (JS.Str r) location_href
     = JS.Normal (RerunViewer.viewer (JS.Str r) (JS.Str r)) /\
     FoxgloveViewer.foxgloveUrl (JS.Str r) location_href
     = JS.Normal (JS.Str ("https://embed.foxglove.dev?ds=remote-file&ds.url="
                          +:+ URLSearchParams.serialize_string r))) /\
  (forall r location_href : string,
     Url.begins_with_scheme r = true -> Str.startsWith r "http" = false ->
     RerunViewer.fullUrl (JS.Str r) location_href = JS.new_URL_href (JS.Str r) location_href /\
     FoxgloveViewer.fullMcapUrl (JS.Str r) location_href = JS.new_URL_href (JS.Str r) location_href) /\
  (forall (location_href : string) (base : Url.url),
     Url.parse location_href None = Url.Success base ->
     RerunViewer.fullUrl (JS.Str "ftp://x/a.rrd") location_href
     = JS.Normal (JS.Str "ftp://x/a.rrd") /\
     FoxgloveViewer.fullMcapUrl (JS.Str "ftp://x/a.rrd") location_href
     = JS.Normal (JS.Str "ftp://x/a.rrd")).
Proof.
  split; [| split].
  - intros r L _ H. destruct (fullUrl_http r L H) as [E1 E2].
    assert (Hr : r <> "") by (intros ->; discriminate).
    repeat split; try assumption.
    + apply RerunViewer_embeds; [| assumption].
      simpl. rewrite (startsWith_nonempty _ _ _ H). reflexivity.
    + destruct (FoxgloveViewer_embeds r L (JS.Str r) Hr E2) as [E _]. exact E.
  - intros r L Hs H. apply fullUrl_resolved; [| assumption].
    intros ->. discriminate.
  - intros L base Hb.
    assert (E : JS.new_URL_href (JS.Str "ftp://x/a.rrd") L
                = JS.Normal (JS.Str "ftp://x/a.rrd")).
    { unfold JS.new_URL_href, Url.href. rewrite Hb. simpl Url.bind.
      change (JS.to_string (JS.Str "ftp://x/a.rrd")) with "ftp://x/a.rrd".
      rewrite ftp_reference_ignores_base. reflexivity. }
    destruct (fullUrl_resolved "ftp://x/a.rrd" L) as [E1 E2];
      [discriminate | reflexivity |].
    rewrite E1, E2. split; exact E.
Qed.

Lemma C2_witness :
  (Url.begins_with_scheme "https://x/a.mcap" = true /\
   Str.startsWith "https://x/a.mcap" "http" = true /\
   RerunViewer.fullUrl (JS.Str "https://x/a.mcap") "https://example.org/gallery/"
   = JS.Normal (JS.Str "https://x/a.mcap") /\
   FoxgloveViewer.fullMcapUrl (JS.Str "https://x/a.mcap") "https://example.org/gallery/"
   = JS.Normal (JS.Str "https://x/a.mcap")) /\
  (Url.begins_with_scheme "ftp://x/a.rrd" = true /\
   Str.startsWith "ftp://x/a.rrd" "http" = false /\
   RerunViewer.fullUrl (JS.Str "ftp://x/a.rrd") "https://example.org/gallery/"
   = JS.Normal (JS.Str "ftp://x/a.rrd")) /\
  (Url.begins_with_scheme "HTTP://x/a/../b.rrd" = true /\
   Str.startsWith "HTTP://x/a/../b.rrd" "http" = false /\
   RerunViewer.fullUrl (JS.Str "HTTP://x/a/../b.rrd") "https://example.org/gallery/"
   = JS.new_URL_href (JS.Str "HTTP://x/a/../b.rrd") "https://example.org/gallery/" /\
   JS.new_URL_href (JS.Str "HTTP://x/a/../b.rrd") "https://example.org/gallery/"
   = JS.Normal (JS.Str "http://x/b.rrd")).
Proof.
  destruct C2_http_reference_used_as_is as (Hhttp & Hother & Hftp).
  split; [| split].
  - split; [reflexivity |]. split; [reflexivity |].
    destruct (Hhttp "https://x/a.mcap" "https://example.org/gallery/" eq_refl eq_refl)
      as (E1 & E2 & _).
    split; [exact E1 | exact E2].
  - split; [reflexivity |]. split; [reflexivity |].
    refine (proj1 (Hftp "https://example.org/gallery/" _ _)).
    vm_compute. reflexivity.
  - split; [reflexivity |]. split; [reflexivity |].
    split; [| vm_compute; reflexivity].
    exact (proj1 (Hother "HTTP://x/a/../b.rrd" "https://example.org/gallery/"
                         eq_refl eq_refl)).
Defined.

(** C10: the test for an absolute reference is the prefix test
    [startsWith('http')].  A non-empty reference that starts with "http" is
    the resolved URL verbatim, scheme or no scheme; a reference that begins
    with a scheme and does not start with "http" is given to
    [new URL(r, window.location.href)]. *)
Theorem C10_prefix_test_not_scheme_test (r location_href : string) :
  r <> "" ->
  (Str.startsWith r "http" = true ->
   RerunViewer.fullUrl (JS.Str r) location_href = JS.Normal (JS.Str r) /\
   FoxgloveViewer.fullMcapUrl (JS.Str r) location_href = JS.Normal (JS.Str r)) /\
  (Url.begins_with_scheme r = true -> Str.startsWith r "http" = false ->
   RerunViewer.fullUrl (JS.Str r) location_href
   = JS.new_URL_href (JS.Str r) location_href /\
   FoxgloveViewer.fullMcapUrl (JS.Str r) location_href
   = JS.new_URL_href (JS.Str r) location_href).
Proof.
  intros Hr. split.
  - apply fullUrl_http.
  - intros _. apply fullUrl_resolved. exact Hr.
Qed.

(** The two references C10 names: the relative path "httpdocs/a.rrd" is
    used verbatim, and "ftp://x/a.rrd" is resolved; on an ftp page the
    reference "ftp:a.rrd" shows that the page location takes part. *)
Lemma C10_witness :
  (Url.begins_with_scheme "httpdocs/a.rrd" = false /\
   RerunViewer.fullUrl (JS.Str "httpdocs/a.rrd") "https://example.org/gallery/"
   = JS.Normal (JS.Str "httpdocs/a.rrd") /\
   FoxgloveViewer.fullMcapUrl (JS.Str "httpdocs/a.rrd") "https://example.org/gallery/"
   = JS.Normal (JS.Str "httpdocs/a.rrd")) /\
  (RerunViewer.fullUrl (JS.Str "ftp://x/a.rrd") "https://example.org/gallery/"
   = JS.new_URL_href (JS.Str "ftp://x/a.rrd") "https://example.org/gallery/" /\
   FoxgloveViewer.fullMcapUrl (JS.Str "ftp://x/a.rrd") "https://example.org/gallery/"
   = JS.new_URL_href (JS.Str "ftp://x/a.rrd") "https://example.org/gallery/") /\
  (RerunViewer.fullUrl (JS.Str "ftp:a.rrd") "ftp://h/dir/"
   = JS.new_URL_href (JS.Str "ftp:a.rrd") "ftp://h/dir/" /\
   JS.new_URL_href (JS.Str "ftp:a.rrd") "ftp://h/dir/"
   = JS.Normal (JS.Str "ftp://h/dir/a.rrd")).
Proof.
  split; [| split].
  - split; [reflexivity |].
    refine (proj1 (C10_prefix_test_not_scheme_test "httpdocs/a.rrd"
                     "https://example.org/gallery/" _) eq_refl).
    discriminate.
  - refine (proj2 (C10_prefix_test_not_scheme_test "ftp://x/a.rrd"
                     "https://example.org/gallery/" _) eq_refl eq_refl).
    discriminate.
  - split.
    + refine (proj1 (proj2 (C10_prefix_test_not_scheme_test "ftp:a.rrd"
                              "ftp://h/dir/" _) eq_refl eq_refl)).
      discriminate.
    + vm_compute. reflexivity.
Defined.

(** ** The embed URL of the iframe adapter *)

(** C3 as stated fails at its own example: for "https://x/a.mcap" the
    adapter does not produce the URL with a slash before the query. *)
Lemma C3_counterexample :
  ~ (FoxgloveViewer.foxgloveUrl (JS.Str "https://x/a.mcap") "https://example.org/gallery/"
     = JS.Normal (JS.Str "https://embed.foxglove.dev/?ds=remote-file&ds.url=https%3A%2F%2Fx%2Fa.mcap")).
Proof. vm_compute. discriminate. Qed.

(** C3, amended: when the reference [mcapUrl] is not empty and resolves to
    [u], the adapter sets exactly the two parameters ds=remote-file and
    ds.url=[u], and the target is the embed base, without a slash, followed
    by "?" and the form-urlencoded parameters.  This is the [src] of the
    iframe it renders.  For "https://x/a.mcap" the target is
    "https://embed.foxglove.dev?ds=remote-file&ds.url=https%3A%2F%2Fx%2Fa.mcap". *)
Theorem C3_embed_url (mcapUrl location_href u : string) :
  mcapUrl <> "" ->
  FoxgloveViewer.fullMcapUrl (JS.Str mcapUrl) location_href = JS.Normal (JS.Str u) ->
  let target := "https://embed.foxglove.dev?ds=remote-file&ds.url="
                +:+ URLSearchParams.serialize_string u in
  FoxgloveViewer.params (JS.Str u) = [("ds", "remote-file"); ("ds.url", u)] /\
  FoxgloveViewer.foxgloveUrl (JS.Str mcapUrl) location_href = JS.Normal (JS.Str target) /\
  (exists cell,
     FoxgloveViewer.FoxgloveViewer None (JS.Str mcapUrl) location_href
     = JS.Normal (FoxgloveViewer.viewer (JS.Str target) (JS.Str mcapUrl), cell)) /\
  FoxgloveViewer.foxgloveUrl (JS.Str "https://x/a.mcap") location_href
  = JS.Normal (JS.Str "https://embed.foxglove.dev?ds=remote-file&ds.url=https%3A%2F%2Fx%2Fa.mcap").
Proof.
  intros Hr H target.
  destruct (FoxgloveViewer_embeds mcapUrl location_href (JS.Str u) Hr H) as [E1 E2].
  split; [reflexivity |]. split; [exact E1 |]. split; [eexists; exact E2 |].
  reflexivity.
Qed.

Lemma C3_witness :
  FoxgloveViewer.foxgloveUrl (JS.Str "./rrd/a b.mcap") "https://example.org/gallery/"
  = JS.Normal (JS.Str "https://embed.foxglove.dev?ds=remote-file&ds.url=https%3A%2F%2Fexample.org%2Fgallery%2Frrd%2Fa%2520b.mcap").
Proof.
  refine (proj1 (proj2 (C3_embed_url "./rrd/a b.mcap" "https://example.org/gallery/"
                          "https://example.org/gallery/rrd/a%20b.mcap" _ _))).
  - discriminate.
  - vm_compute. reflexivity.
Defined.

(** The browser that loads the iframe parses its [src]: the parsed target
    of the example has the slash that the string lacks. *)
Lemma embed_url_normalised :
  JS.new_URL_href
    (JS.Str "https://embed.foxglove.dev?ds=remote-file&ds.url=https%3A%2F%2Fx%2Fa.mcap")
    "https://example.org/gallery/"
  = JS.Normal (JS.Str "https://embed.foxglove.dev/?ds=remote-file&ds.url=https%3A%2F%2Fx%2Fa.mcap").
Proof. vm_compute. reflexivity. Qed.

(** ** The placeholder *)

(** C5: for a reference that is [null], [undefined] or the empty string,
    both adapters return normally with the placeholder, in every page
    location and, for [FoxgloveViewer], whatever its memo cell holds.  The
    two placeholders are the same tree; it shows "No dataset selected" and
    embeds neither the [WebViewer] nor an iframe. *)
Theorem C5_missing_reference_placeholder (v : JS.value) (location_href : string)
    (cell : option FoxgloveViewer.memo) :
  v = JS.Null \/ v = JS.Undefined \/ v = JS.Str "" ->
  RerunViewer.RerunViewer v location_href = JS.Normal RerunViewer.placeholder /\
  (exists cell',
     FoxgloveViewer.FoxgloveViewer cell v location_href
     = JS.Normal (FoxgloveViewer.placeholder, cell')) /\
  FoxgloveViewer.placeholder = RerunViewer.placeholder /\
  count (is_text "No dataset selected") RerunViewer.placeholder = 1%nat /\
  count (fun n => match n with
                  | Elem tag _ _ => String.eqb tag "WebViewer" || String.eqb tag "iframe"
                  | _ => false
                  end) RerunViewer.placeholder = 0%nat.
Proof.
  intros Hv.
  assert (Hf : JS.truthy v = false) by (apply falsy_values; exact Hv).
  split; [| split; [| repeat split]].
  - destruct Hv as [-> | [-> | ->]]; reflexivity.
  - unfold FoxgloveViewer.FoxgloveViewer, FoxgloveViewer.useMemo,
      FoxgloveViewer.foxgloveUrl.
    rewrite Hf. simpl.
    destruct cell as [m|]; [destruct (FoxgloveViewer.same_dep _ _) |];
      simpl; rewrite ?Hf; eexists; reflexivity.
Qed.

Lemma C5_witness :
  RerunViewer.RerunViewer JS.Null "https://example.org/gallery/"
  = JS.Normal RerunViewer.placeholder /\
  RerunViewer.RerunViewer (JS.Str "") "https://example.org/gallery/"
  = JS.Normal RerunViewer.placeholder.
Proof.
  split.
  - exact (proj1 (C5_missing_reference_placeholder JS.Null
                    "https://example.org/gallery/" None (or_introl eq_refl))).
  - exact (proj1 (C5_missing_reference_placeholder (JS.Str "")
                    "https://example.org/gallery/" None
                    (or_intror (or_intror eq_refl)))).
Defined.

(** ** Traversals of element trees *)

Lemma flat_map_flat_map {A B C : Type} (f : A -> list B) (g : B -> list C) (l : list A) :
  List.flat_map g (List.flat_map f l) = List.flat_map (fun a => List.flat_map g (f a)) l.
Proof.
  induction l as [|a l IH]; simpl; [reflexivity |].
  rewrite List.flat_map_app, IH. reflexivity.
Qed.

Lemma card_props_Elem (tag : string) (attrs : list (string * attr_value))
    (children : list node) :
  UmiGallery.card_props (Elem tag attrs children)
  = List.flat_map UmiGallery.card_props children.
Proof.
  unfold UmiGallery.card_props. simpl. apply flat_map_flat_map.
Qed.

Lemma card_props_topic_codes (dataset : Dataset) (category className : string) :
  List.flat_map UmiGallery.card_props (UmiGallery.topic_codes dataset category className) = [].
Proof.
  unfold UmiGallery.topic_codes. destruct (topics dataset !! category) as [paths|]; [| reflexivity].
  induction paths as [|p paths IH]; [reflexivity | exact IH].
Qed.

Lemma card_props_cards (st : UmiGallery.store) :
  List.flat_map UmiGallery.card_props (UmiGallery.cards st)
  = List.map (fun d => (d, UmiGallery.isActive (UmiGallery.selectedDataset st) d,
                        HandleCardClick d)) (UmiGallery.DATASETS st).
Proof.
  unfold UmiGallery.cards. induction (UmiGallery.DATASETS st) as [|d l IH]; [reflexivity |].
  simpl. f_equal. exact IH.
Qed.

(** The cards of the gallery: one per descriptor of the catalog, in catalog
    order, each with the handler that selects its own descriptor. *)
Lemma card_props_UmiGallery (DATA_SOURCE : DataSource) (st : UmiGallery.store) :
  UmiGallery.card_props (UmiGallery.UmiGallery DATA_SOURCE st)
  = List.map (fun d => (d, UmiGallery.isActive (UmiGallery.selectedDataset st) d,
                        HandleCardClick d)) (UmiGallery.DATASETS st).
Proof.
  unfold UmiGallery.UmiGallery. rewrite card_props_Elem.
  cbn [List.flat_map].
  assert (Hh : UmiGallery.card_props UmiGallery.header = []) by reflexivity.
  assert (Hf : UmiGallery.card_props (UmiGallery.footer DATA_SOURCE) = []) by reflexivity.
  assert (Hv : UmiGallery.card_props (UmiGallery.viewer_section st) = []).
  { unfold UmiGallery.viewer_section. rewrite card_props_Elem. cbn [List.flat_map].
    rewrite card_props_Elem, app_nil_r.
    unfold UmiGallery.viewer_region. destruct (UmiGallery.selectedDataset st) as [d|];
      [| reflexivity].
    unfold UmiGallery.selected_panel. cbn [List.flat_map].
    rewrite !card_props_Elem. cbn [List.flat_map app].
    rewrite !List.flat_map_app, !card_props_topic_codes. reflexivity. }
  rewrite Hh, Hf, Hv, !app_nil_r. simpl.
  unfold UmiGallery.selection_section. rewrite card_props_Elem. cbn [List.flat_map].
  rewrite card_props_Elem, app_nil_r. cbn [List.flat_map].
  rewrite !card_props_Elem. simpl. rewrite app_nil_r. apply card_props_cards.
Qed.

Lemma filter_nodes_Elem (p : node -> bool) (tag : string)
    (attrs : list (string * attr_value)) (children : list node) :
  List.filter p (nodes (Elem tag attrs children))
  = (List.filter p [Elem tag attrs children]
     ++ List.flat_map (fun c => List.filter p (nodes c)) children)%list.
Proof.
  cbn [nodes]. change (?x :: ?l) with ([x] ++ l)%list at 1.
  rewrite List.filter_app. f_equal.
  induction children as [|c cs IH]; [reflexivity |].
  cbn [List.flat_map]. rewrite List.filter_app, IH. reflexivity.
Qed.

Lemma getSourceBadgeClass_cases (s : string) :
  In (DatasetCard.getSourceBadgeClass s)
     ["bg-emerald-500/90 text-white"; "bg-amber-500/90 text-white";
      "bg-violet-500/90 text-white"; "bg-slate-500/90 text-white"].
Proof.
  unfold DatasetCard.getSourceBadgeClass.
  repeat (destruct (String.eqb s _); [simpl; tauto |]). simpl; tauto.
Qed.

Lemma getSourceGradient_cases (s : string) :
  In (DatasetCard.getSourceGradient s)
     ["bg-gradient-to-br from-emerald-400 to-emerald-600";
      "bg-gradient-to-br from-amber-400 to-amber-600";
      "bg-gradient-to-br from-violet-400 to-violet-600";
      "bg-gradient-to-br from-slate-400 to-slate-600"].
Proof.
  unfold DatasetCard.getSourceGradient.
  repeat (destruct (String.eqb s _); [simpl; tauto |]). simpl; tauto.
Qed.

Lemma truncated_topic_tag (t : string) :
  List.filter (has_class "truncate") (nodes (DatasetCard.topic_tag t))
  = [DatasetCard.topic_tag t].
Proof.
  unfold DatasetCard.topic_tag. rewrite filter_nodes_Elem.
  destruct (JS.pop (Str.split "/" t)); reflexivity.
Qed.

Lemma truncated_topic_tags (l : list string) :
  List.flat_map (fun c => List.filter (has_class "truncate") (nodes c))
                (List.map DatasetCard.topic_tag l)
  = List.map DatasetCard.topic_tag l.
Proof.
  induction l as [|t l IH]; [reflexivity |].
  cbn [List.map List.flat_map]. rewrite IH, truncated_topic_tag. reflexivity.
Qed.

Lemma filter_static (p : node -> bool) (x : node) :
  p x = false -> List.filter p [x] = [].
Proof. intros H. simpl. rewrite H. reflexivity. Qed.

(** Walks down the explicit part of a tree, dropping the nodes on which the
    predicate computes to false. *)
Ltac walk :=
  repeat first
    [ rewrite filter_nodes_Elem; cbn [List.flat_map]
    | rewrite filter_static by reflexivity
    | progress cbn [nodes app]
    | rewrite List.app_nil_r ].

Section CardParts.

Variables (cls : string) (dataset : Dataset).
Hypothesis cls_known : In cls ["truncate"; "animate-pulse"].

Lemma thumbnail_part :
  List.filter (has_class cls)
    (nodes (if DatasetCard.shows_thumbnail dataset
            then DatasetCard.thumbnail_image dataset
            else DatasetCard.fallback_icon dataset)) = [].
Proof.
  destruct cls_known as [<- | [<- | []]];
    (destruct (DatasetCard.shows_thumbnail dataset); [reflexivity |]);
    unfold DatasetCard.fallback_icon;
    destruct (getSourceGradient_cases (source dataset)) as [E | [E | [E | [E | []]]]];
    rewrite <- E; reflexivity.
Qed.

Lemma source_badge_part :
  List.filter (has_class cls) (nodes (DatasetCard.source_badge dataset)) = [].
Proof.
  unfold DatasetCard.source_badge.
  destruct cls_known as [<- | [<- | []]];
    destruct (getSourceBadgeClass_cases (source dataset)) as [E | [E | [E | [E | []]]]];
    rewrite <- E; reflexivity.
Qed.

(** The nodes of class [cls] in a card: those of the active indicator and
    of the tag row. *)
Lemma card_nodes_of_class (isActive : bool) (onClick : action) :
  List.filter (has_class cls) (nodes (DatasetCard.DatasetCard dataset isActive onClick))
  = (List.flat_map (fun c => List.filter (has_class cls) (nodes c))
                   (DatasetCard.active_indicator isActive)
     ++ List.flat_map (fun c => List.filter (has_class cls) (nodes c))
                      (DatasetCard.topic_tags dataset ++ DatasetCard.tactile_tag dataset))%list.
Proof.
  unfold DatasetCard.DatasetCard.
  rewrite filter_nodes_Elem. cbn [List.flat_map].
  rewrite (filter_nodes_Elem _ "div" _ (_ ++ _)), List.flat_map_app. cbn [List.flat_map].
  rewrite thumbnail_part, source_badge_part.
  rewrite (filter_nodes_Elem _ "div" [("className", AStr "p-4")]). cbn [List.flat_map].
  rewrite (filter_nodes_Elem _ "div" [("className", AStr "mt-3 flex flex-wrap gap-1")]).
  destruct cls_known as [<- | [<- | []]]; destruct isActive; walk; reflexivity.
Qed.

End CardParts.

Lemma split_last (sep : ascii) (s : string) : exists x, last (Str.split sep s) = Some x.
Proof.
  induction s as [|c s [x IH]]; simpl; [eexists; reflexivity |].
  destruct (Char.same c sep).
  - destruct (Str.split sep s); [discriminate | eexists; exact IH].
  - destruct (Str.split sep s) as [|p [|q ps]]; [discriminate | | ].
    + eexists; reflexivity.
    + eexists; exact IH.
Qed.

(** ** Dataset cards *)

(** C8: in the tile of any descriptor, the tags with the [truncate] class
    are the topic tags, there are at most two of them, and each shows the
    last segment of one of the first two paths that the descriptor's
    [topics] mapping lists under "transforms". *)
Theorem C8_at_most_two_truncated_topic_tags (dataset : Dataset) (isActive : bool)
    (onClick : action) :
  let card := DatasetCard.DatasetCard dataset isActive onClick in
  List.filter (has_class "truncate") (nodes card) = DatasetCard.topic_tags dataset /\
  (count (has_class "truncate") card <= 2)%nat /\
  Forall (fun tag =>
            exists transforms topic segment,
              topics dataset !! "transforms" = Some transforms /\
              In topic (take 2 transforms) /\
              last (Str.split "/" topic) = Some segment /\
              tag = Elem "span"
                      [("key", AStr topic);
                       ("className", AStr "px-1.5 py-0.5 bg-slate-100 text-slate-600 rounded text-xs font-mono truncate max-w-[120px]")]
                      [Text segment])
         (DatasetCard.topic_tags dataset).
Proof.
  intros card.
  assert (E : List.filter (has_class "truncate") (nodes card)
              = DatasetCard.topic_tags dataset).
  { unfold card. rewrite (card_nodes_of_class "truncate"); [| simpl; tauto].
    rewrite List.flat_map_app.
    assert (Ha : List.flat_map (fun c => List.filter (has_class "truncate") (nodes c))
                   (DatasetCard.active_indicator isActive) = [])
      by (destruct isActive; reflexivity).
    assert (Ht : List.flat_map (fun c => List.filter (has_class "truncate") (nodes c))
                   (DatasetCard.tactile_tag dataset) = [])
      by (unfold DatasetCard.tactile_tag; destruct (topics dataset !! "tactile"); reflexivity).
    rewrite Ha, Ht, List.app_nil_r. cbn [app].
    unfold DatasetCard.topic_tags. destruct (topics dataset !! "transforms"); [| reflexivity].
    apply truncated_topic_tags. }
  split; [exact E |]. split.
  - unfold count. fold card. rewrite E. unfold DatasetCard.topic_tags.
    destruct (topics dataset !! "transforms") as [transforms|]; [| simpl; lia].
    rewrite List.length_map. unfold JS.slice0. rewrite length_take. lia.
  - unfold DatasetCard.topic_tags.
    destruct (topics dataset !! "transforms") as [transforms|] eqn:Et; [| constructor].
    apply List.Forall_forall. intros tag Hin. apply List.in_map_iff in Hin.
    destruct Hin as (topic & <- & Hin).
    destruct (split_last "/" topic) as [segment Hs].
    exists transforms, topic, segment. repeat split; try assumption.
    unfold DatasetCard.topic_tag, JS.pop. rewrite Hs. reflexivity.
Qed.

(** C9: the two badge lookups are total functions of the label.  A label
    other than the three known ones gets the default style of each lookup,
    and the styles of the three known labels differ from each other and
    from the default. *)
Theorem C9_badge_lookup_total (s : string) :
  s <> "Genrobot" -> s <> "Lumos" -> s <> "DM Robot" ->
  DatasetCard.getSourceBadgeClass s = "bg-slate-500/90 text-white" /\
  UmiGallery.getSourceBadgeClass s = "bg-slate-100 text-slate-700" /\
  List.map DatasetCard.getSourceBadgeClass ["Genrobot"; "Lumos"; "DM Robot"; s]
  = ["bg-emerald-500/90 text-white"; "bg-amber-500/90 text-white";
     "bg-violet-500/90 text-white"; "bg-slate-500/90 text-white"] /\
  List.map UmiGallery.getSourceBadgeClass ["Genrobot"; "Lumos"; "DM Robot"; s]
  = ["bg-emerald-100 text-emerald-700"; "bg-amber-100 text-amber-700";
     "bg-violet-100 text-violet-700"; "bg-slate-100 text-slate-700"] /\
  NoDup (List.map DatasetCard.getSourceBadgeClass ["Genrobot"; "Lumos"; "DM Robot"; s]) /\
  NoDup (List.map UmiGallery.getSourceBadgeClass ["Genrobot"; "Lumos"; "DM Robot"; s]).
Proof.
  intros H1 H2 H3.
  apply String.eqb_neq in H1, H2, H3.
  assert (E1 : DatasetCard.getSourceBadgeClass s = "bg-slate-500/90 text-white")
    by (unfold DatasetCard.getSourceBadgeClass; rewrite H1, H2, H3; reflexivity).
  assert (E2 : UmiGallery.getSourceBadgeClass s = "bg-slate-100 text-slate-700")
    by (unfold UmiGallery.getSourceBadgeClass; rewrite H1, H2, H3; reflexivity).
  split; [exact E1 |]. split; [exact E2 |].
  cbn [List.map]. rewrite E1, E2.
  split; [reflexivity |]. split; [reflexivity |].
  split; apply (bool_decide_unpack _); vm_compute; exact I.
Qed.

(** The catalog's "DAIMON" label is not one of the three known labels. *)
Lemma C9_witness :
  DatasetCard.getSourceBadgeClass "DAIMON" = "bg-slate-500/90 text-white" /\
  UmiGallery.getSourceBadgeClass "DAIMON" = "bg-slate-100 text-slate-700".
Proof.
  destruct (C9_badge_lookup_total "DAIMON") as (E1 & E2 & _); try discriminate.
  split; [exact E1 | exact E2].
Defined.

(** ** The gallery controller *)

(** C4: [handleCardClick d] leaves [d] selected whatever was selected
    before.  From the first render, clicking X and then Y gives the
    selections none, X, Y; clicking X twice leaves the selection that one
    click leaves.  The click reads the other parts of the store only to
    schedule the scroll: the catalog is untouched and one timeout is added. *)
Theorem C4_handleCardClick_selects (X Y : Dataset) (st : UmiGallery.store)
    (catalog : list Dataset) :
  UmiGallery.selectedDataset (UmiGallery.handleCardClick X st) = Some X /\
  UmiGallery.dispatch (HandleCardClick X) st = UmiGallery.handleCardClick X st /\
  List.map UmiGallery.selectedDataset
    [UmiGallery.mount catalog;
     UmiGallery.handleCardClick X (UmiGallery.mount catalog);
     UmiGallery.handleCardClick Y (UmiGallery.handleCardClick X (UmiGallery.mount catalog))]
  = [None; Some X; Some Y] /\
  UmiGallery.selectedDataset (UmiGallery.handleCardClick X (UmiGallery.handleCardClick X st))
  = UmiGallery.selectedDataset (UmiGallery.handleCardClick X st) /\
  UmiGallery.DATASETS (UmiGallery.handleCardClick X st) = UmiGallery.DATASETS st /\
  UmiGallery.timeouts (UmiGallery.handleCardClick X st)
  = (UmiGallery.timeouts st ++ [UmiGallery.mkTimeout UmiGallery.ScrollViewerIntoView 100])%list.
Proof. repeat split. Qed.

Lemma flat_map_nodes_Elem {A : Type} (g : node -> list A) (tag : string)
    (attrs : list (string * attr_value)) (children : list node) :
  List.flat_map g (nodes (Elem tag attrs children))
  = (g (Elem tag attrs children)
     ++ List.flat_map (fun c => List.flat_map g (nodes c)) children)%list.
Proof. cbn [nodes List.flat_map]. f_equal. apply flat_map_flat_map. Qed.

Lemma viewer_of_Elem (tag : string) (attrs : list (string * attr_value))
    (children : list node) :
  UmiGallery.viewer_of (Elem tag attrs children)
  = (UmiGallery.viewer_of_node (Elem tag attrs children)
     ++ List.flat_map UmiGallery.viewer_of children)%list.
Proof. apply flat_map_nodes_Elem. Qed.

Lemma viewer_of_cards (st : UmiGallery.store) :
  List.flat_map UmiGallery.viewer_of (UmiGallery.cards st) = [].
Proof.
  unfold UmiGallery.cards. induction (UmiGallery.DATASETS st) as [|d l IH];
    [reflexivity | exact IH].
Qed.

(** The viewer region of the gallery is what [viewer_region] builds. *)
Lemma viewer_of_UmiGallery_mount (DATA_SOURCE : DataSource) (catalog : list Dataset) :
  UmiGallery.viewer_of (UmiGallery.UmiGallery DATA_SOURCE (UmiGallery.mount catalog))
  = [UmiGallery.placeholder_panel].
Proof.
  unfold UmiGallery.UmiGallery. rewrite viewer_of_Elem. cbn [List.flat_map].
  assert (Hh : UmiGallery.viewer_of UmiGallery.header = []) by reflexivity.
  assert (Hf : UmiGallery.viewer_of (UmiGallery.footer DATA_SOURCE) = []) by reflexivity.
  assert (Hv : UmiGallery.viewer_of (UmiGallery.viewer_section (UmiGallery.mount catalog))
               = [UmiGallery.placeholder_panel]) by reflexivity.
  assert (Hs : UmiGallery.viewer_of (UmiGallery.selection_section (UmiGallery.mount catalog))
               = []).
  { unfold UmiGallery.selection_section. rewrite viewer_of_Elem. cbn [List.flat_map].
    rewrite viewer_of_Elem, List.app_nil_r. cbn [List.flat_map].
    rewrite !viewer_of_Elem, viewer_of_cards. reflexivity. }
  rewrite Hh, Hf, Hv, Hs. reflexivity.
Qed.

(** What the active indicator of a tile is: the pulsing dot of the
    "Playing" badge and the ring around the tile.  Both are there when
    [isActive] is true and absent when it is false. *)
Lemma active_indicator_shown (dataset : Dataset) (isActive : bool) (onClick : action) :
  count (has_class "animate-pulse") (DatasetCard.DatasetCard dataset isActive onClick)
  = (if isActive then 1 else 0)%nat /\
  has_class "ring-2" (DatasetCard.DatasetCard dataset isActive onClick) = isActive.
Proof.
  split; [| destruct isActive; reflexivity].
  unfold count. rewrite (card_nodes_of_class "animate-pulse"); [| simpl; tauto].
  rewrite List.flat_map_app.
  assert (Ht : List.flat_map (fun c => List.filter (has_class "animate-pulse") (nodes c))
                 (DatasetCard.tactile_tag dataset) = [])
    by (unfold DatasetCard.tactile_tag; destruct (topics dataset !! "tactile"); reflexivity).
  assert (Hg : List.flat_map (fun c => List.filter (has_class "animate-pulse") (nodes c))
                 (DatasetCard.topic_tags dataset) = []).
  { unfold DatasetCard.topic_tags. destruct (topics dataset !! "transforms") as [l|];
      [| reflexivity].
    induction (JS.slice0 2 l) as [|t ts IH]; [reflexivity |].
    cbn [List.map List.flat_map]. rewrite IH.
    unfold DatasetCard.topic_tag. destruct (JS.pop (Str.split "/" t)); reflexivity. }
  rewrite Ht, Hg, !List.app_nil_r. destruct isActive; reflexivity.
Qed.

(** C6: on the first render nothing is selected; the viewer region holds
    the static placeholder panel and nothing else; there is one card per
    descriptor of the catalog, every card is passed [isActive = false], and
    a tile rendered with [isActive = false] has neither the pulsing
    "Playing" badge nor the ring. *)
Theorem C6_no_selection_render (DATA_SOURCE : DataSource) (catalog : list Dataset) :
  let st := UmiGallery.mount catalog in
  let tree := UmiGallery.UmiGallery DATA_SOURCE st in
  UmiGallery.selectedDataset st = None /\
  UmiGallery.viewer_of tree = [UmiGallery.placeholder_panel] /\
  List.map (fun p => fst (fst p)) (UmiGallery.card_props tree) = catalog /\
  Forall (fun p => snd (fst p) = false) (UmiGallery.card_props tree) /\
  Forall (fun p =>
            let tile := DatasetCard.DatasetCard (fst (fst p)) (snd (fst p)) (snd p) in
            count (has_class "animate-pulse") tile = 0%nat /\
            has_class "ring-2" tile = false) (UmiGallery.card_props tree).
Proof.
  intros st tree. unfold tree.
  split; [reflexivity |]. split; [apply viewer_of_UmiGallery_mount |].
  rewrite card_props_UmiGallery. cbn [st UmiGallery.mount UmiGallery.DATASETS
                                      UmiGallery.selectedDataset UmiGallery.isActive].
  split; [| split].
  - rewrite List.map_map. cbn [fst]. apply List.map_id.
  - apply List.Forall_forall. intros p Hp. apply List.in_map_iff in Hp.
    destruct Hp as (d & <- & _). reflexivity.
  - apply List.Forall_forall. intros p Hp. apply List.in_map_iff in Hp.
    destruct Hp as (d & <- & _). cbn [fst snd]. cbv zeta.
    apply (active_indicator_shown d false).
Qed.

(** Every reachable store holds the catalog it was mounted with, and what
    it has selected is a descriptor of that catalog. *)
Lemma reachable_invariant (DATA_SOURCE : DataSource) (catalog : list Dataset)
    (st : UmiGallery.store) :
  UmiGallery.reachable DATA_SOURCE catalog st ->
  UmiGallery.DATASETS st = catalog /\
  match UmiGallery.selectedDataset st with
  | Some d => In d catalog
  | None => True
  end.
Proof.
  induction 1 as [|st d a h _ [IHc IHs] Hin].
  - split; [reflexivity | exact I].
  - rewrite card_props_UmiGallery in Hin. apply List.in_map_iff in Hin.
    destruct Hin as (d' & E & Hd). injection E as -> _ <-.
    rewrite IHc in Hd. split; [exact IHc | exact Hd].
Qed.

(** The ids of both copies of the catalog are pairwise different. *)
Lemma DATASETS_ids_NoDup :
  NoDup (List.map id Datasets.DATASETS) /\
  NoDup (List.map id Datasets_part_001.DATASETS).
Proof. split; apply (bool_decide_unpack _); vm_compute; exact I. Qed.

Lemma NoDup_ids_lookup (catalog : list Dataset) :
  NoDup (List.map id catalog) ->
  forall (i j : nat) (d1 d2 : Dataset),
    catalog !! i = Some d1 -> catalog !! j = Some d2 -> i <> j -> id d1 <> id d2.
Proof.
  intros Hnd i j d1 d2 H1 H2 Hij E. apply Hij.
  apply (proj1 (NoDup_alt _) Hnd i j (id d1)); rewrite list_lookup_fmap.
  - rewrite H1. reflexivity.
  - rewrite H2, E. reflexivity.
Qed.

(** C7: two descriptors at different places of the catalog have different
    ids, in both copies of the catalog; and the catalog is fixed: every
    store the gallery reaches from its first render holds the catalog it
    was mounted with, and renders one card per descriptor, in catalog
    order. *)
Theorem C7_catalog_ids_unique_and_fixed :
  (forall (i j : nat) (d1 d2 : Dataset),
     Datasets.DATASETS !! i = Some d1 -> Datasets.DATASETS !! j = Some d2 ->
     i <> j -> id d1 <> id d2) /\
  (forall (i j : nat) (d1 d2 : Dataset),
     Datasets_part_001.DATASETS !! i = Some d1 ->
     Datasets_part_001.DATASETS !! j = Some d2 ->
     i <> j -> id d1 <> id d2) /\
  (forall (DATA_SOURCE : DataSource) (catalog : list Dataset) (st : UmiGallery.store),
     UmiGallery.reachable DATA_SOURCE catalog st ->
     UmiGallery.DATASETS st = catalog /\
     List.map (fun p => fst (fst p))
              (UmiGallery.card_props (UmiGallery.UmiGallery DATA_SOURCE st)) = catalog).
Proof.
  destruct DATASETS_ids_NoDup as [N1 N2].
  split; [exact (NoDup_ids_lookup _ N1) |]. split; [exact (NoDup_ids_lookup _ N2) |].
  intros DS catalog st Hr. destruct (reachable_invariant DS catalog st Hr) as [Hc _].
  split; [exact Hc |].
  rewrite card_props_UmiGallery, List.map_map, Hc. cbn [fst]. apply List.map_id.
Qed.

(** The first and the third descriptor of the catalog, and the store after
    a click on the first card. *)
Lemma C7_witness :
  (exists d1 d2,
     Datasets.DATASETS !! 0%nat = Some d1 /\ Datasets.DATASETS !! 2%nat = Some d2 /\
     id d1 <> id d2) /\
  (exists d a h,
     In (d, a, h) (UmiGallery.card_props
                     (UmiGallery.UmiGallery Datasets.DATA_SOURCE
                        (UmiGallery.mount Datasets.DATASETS))) /\
     UmiGallery.DATASETS (UmiGallery.dispatch h (UmiGallery.mount Datasets.DATASETS))
     = Datasets.DATASETS).
Proof.
  destruct C7_catalog_ids_unique_and_fixed as (Hids & _ & Hfixed).
  split.
  - eexists. eexists. split; [reflexivity |]. split; [reflexivity |].
    apply (Hids 0%nat 2%nat); [reflexivity | reflexivity | discriminate].
  - eexists. eexists. eexists.
    assert (Hin : In (match Datasets.DATASETS with
                      | d :: _ => (d, false, HandleCardClick d)
                      | [] => (mkDataset "" "" "" "" JS.Null JS.Null ∅, false, HideTarget)
                      end)
                     (UmiGallery.card_props
                        (UmiGallery.UmiGallery Datasets.DATA_SOURCE
                           (UmiGallery.mount Datasets.DATASETS))))
      by (left; reflexivity).
    split; [exact Hin |].
    refine (proj1 (Hfixed Datasets.DATA_SOURCE _ _ _)).
    eapply UmiGallery.reach_click; [apply UmiGallery.reach_mount | exact Hin].
Defined.

Lemma NoDup_ids_inj (catalog : list Dataset) (d1 d2 : Dataset) :
  NoDup (List.map id catalog) -> In d1 catalog -> In d2 catalog ->
  id d1 = id d2 -> d1 = d2.
Proof.
  induction catalog as [|d l IH]; [intros _ [] |].
  cbn [List.map]. intros Hnd H1 H2 E. apply NoDup_cons in Hnd as [Hd Hl].
  assert (Hid : forall x, In x l -> id x <> id d).
  { intros x Hx Ex. apply Hd. rewrite <- Ex. apply list_elem_of_In.
    apply List.in_map. exact Hx. }
  destruct H1 as [<- | H1], H2 as [<- | H2].
  - reflexivity.
  - exfalso. exact (Hid d2 H2 (eq_sym E)).
  - exfalso. exact (Hid d1 H1 E).
  - exact (IH Hl H1 H2 E).
Qed.

(** After a click on the card of a descriptor Y of a catalog with unique
    ids, the cards are passed [isActive = true] for Y and for no other
    descriptor. *)
Theorem only_clicked_card_active (DATA_SOURCE : DataSource) (st : UmiGallery.store)
    (Y d : Dataset) (a : bool) (h : action) :
  NoDup (List.map id (UmiGallery.DATASETS st)) ->
  In Y (UmiGallery.DATASETS st) ->
  In (d, a, h) (UmiGallery.card_props
                  (UmiGallery.UmiGallery DATA_SOURCE (UmiGallery.handleCardClick Y st))) ->
  a = true <-> d = Y.
Proof.
  intros Hnd HY Hin. rewrite card_props_UmiGallery in Hin.
  apply List.in_map_iff in Hin. destruct Hin as (d' & E & Hd).
  injection E as -> <- _. cbn [UmiGallery.handleCardClick UmiGallery.setTimeout
    UmiGallery.setSelectedDataset UmiGallery.selectedDataset UmiGallery.isActive] in *.
  split.
  - intros Ha. apply String.eqb_eq in Ha.
    symmetry. exact (NoDup_ids_inj _ _ _ Hnd HY Hd Ha).
  - intros ->. apply String.eqb_refl.
Qed.

Lemma only_clicked_card_active_example :
  exists Y d,
    In Y Datasets.DATASETS /\
    In (d, true, HandleCardClick d)
       (UmiGallery.card_props
          (UmiGallery.UmiGallery Datasets.DATA_SOURCE
             (UmiGallery.handleCardClick Y (UmiGallery.mount Datasets.DATASETS)))) /\
    d = Y.
Proof.
  eexists. eexists.
  assert (HY : In (match Datasets.DATASETS with
                   | d :: _ => d
                   | [] => mkDataset "" "" "" "" JS.Null JS.Null ∅
                   end) Datasets.DATASETS) by (left; reflexivity).
  assert (Hin : In (match Datasets.DATASETS with
                    | d :: _ => (d, true, HandleCardClick d)
                    | [] => (mkDataset "" "" "" "" JS.Null JS.Null ∅, true, HideTarget)
                    end)
                   (UmiGallery.card_props
                      (UmiGallery.UmiGallery Datasets.DATA_SOURCE
                         (UmiGallery.handleCardClick
                            (match Datasets.DATASETS with
                             | d :: _ => d
                             | [] => mkDataset "" "" "" "" JS.Null JS.Null ∅
                             end) (UmiGallery.mount Datasets.DATASETS)))))
    by (left; reflexivity).
  split; [exact HY |]. split; [exact Hin |].
  exact (proj1 (only_clicked_card_active Datasets.DATA_SOURCE
                  (UmiGallery.mount Datasets.DATASETS) _ _ _ _
                  (proj1 DATASETS_ids_NoDup) HY Hin) eq_refl).
Defined.

(** A render of [FoxgloveViewer] whose memo cell was filled for the same
    reference reuses the memoized embed URL: the page location is read only
    when the reference changes. *)
Theorem FoxgloveViewer_reuses_memo (m : FoxgloveViewer.memo) (mcapUrl : JS.value)
    (location_href : string) :
  FoxgloveViewer.same_dep (FoxgloveViewer.dep m) mcapUrl = true ->
  JS.truthy mcapUrl = true ->
  FoxgloveViewer.FoxgloveViewer (Some m) mcapUrl location_href
  = JS.Normal (FoxgloveViewer.viewer (FoxgloveViewer.memoized m) mcapUrl, Some m).
Proof.
  intros Hd Ht. unfold FoxgloveViewer.FoxgloveViewer, FoxgloveViewer.useMemo.
  rewrite Hd. cbn [JS.bind fst snd]. rewrite Ht. reflexivity.
Qed.

Lemma FoxgloveViewer_reuses_memo_example :
  FoxgloveViewer.FoxgloveViewer
    (Some (FoxgloveViewer.mkMemo (JS.Str "./a.mcap")
             (JS.Str "https://embed.foxglove.dev?ds=remote-file&ds.url=https%3A%2F%2Fexample.org%2Fa.mcap")))
    (JS.Str "./a.mcap") "https://example.org/gallery/"
  = JS.Normal
      (FoxgloveViewer.viewer
         (JS.Str "https://embed.foxglove.dev?ds=remote-file&ds.url=https%3A%2F%2Fexample.org%2Fa.mcap")
         (JS.Str "./a.mcap"),
       Some (FoxgloveViewer.mkMemo (JS.Str "./a.mcap")
               (JS.Str "https://embed.foxglove.dev?ds=remote-file&ds.url=https%3A%2F%2Fexample.org%2Fa.mcap"))).
Proof.
  exact (FoxgloveViewer_reuses_memo
           (FoxgloveViewer.mkMemo (JS.Str "./a.mcap")
              (JS.Str "https://embed.foxglove.dev?ds=remote-file&ds.url=https%3A%2F%2Fexample.org%2Fa.mcap"))
           (JS.Str "./a.mcap") "https://example.org/gallery/" eq_refl eq_refl).
Defined.

(** ** Further properties of the adapters *)

Lemma Normal_inj {A : Type} (a b : A) : JS.Normal a = JS.Normal b -> a = b.
Proof. congruence. Qed.

Lemma viewer_not_placeholder :
  (forall u r, RerunViewer.viewer u r <> RerunViewer.placeholder) /\
  (forall u r, FoxgloveViewer.viewer u r <> FoxgloveViewer.placeholder).
Proof.
  split; intros u r E; apply (f_equal className_of) in E; vm_compute in E; discriminate.
Qed.

(** [RerunViewer] shows the placeholder exactly when the reference is
    [null], [undefined] or empty; [FoxgloveViewer] likewise, whatever its
    memo cell holds.  A reference that is there is embedded, or the URL
    constructor throws: the placeholder never stands in for a failure. *)
Theorem placeholder_iff_no_reference (v : JS.value) (location_href : string)
    (cell : option FoxgloveViewer.memo) :
  (RerunViewer.RerunViewer v location_href = JS.Normal RerunViewer.placeholder
   <-> JS.truthy v = false) /\
  ((exists cell', FoxgloveViewer.FoxgloveViewer cell v location_href
                  = JS.Normal (FoxgloveViewer.placeholder, cell'))
   <-> JS.truthy v = false).
Proof.
  destruct viewer_not_placeholder as [NR NF].
  split; split.
  - intros H. destruct (JS.truthy v) eqn:Ht; [exfalso | reflexivity].
    destruct v as [| |r]; try discriminate.
    assert (Hr : r <> "") by (intros ->; discriminate).
    destruct (Str.startsWith r "http") eqn:Hh.
    + destruct (fullUrl_http r location_href Hh) as [E _].
      rewrite (RerunViewer_embeds r location_href (JS.Str r) Ht E) in H.
      exact (NR _ _ (Normal_inj _ _ H)).
    + destruct (fullUrl_resolved r location_href Hr Hh) as [E _].
      destruct (JS.new_URL_href (JS.Str r) location_href) as [u| |] eqn:Eu.
      * rewrite (RerunViewer_embeds r location_href u (href_truthy _ _ _ Eu) E) in H.
        exact (NR _ _ (Normal_inj _ _ H)).
      * unfold RerunViewer.RerunViewer in H. rewrite E in H. discriminate.
      * unfold RerunViewer.RerunViewer in H. rewrite E in H. discriminate.
  - intros H. apply falsy_values in H. destruct H as [-> | [-> | ->]]; reflexivity.
  - intros [cell' H]. destruct (JS.truthy v) eqn:Ht; [exfalso | reflexivity].
    unfold FoxgloveViewer.FoxgloveViewer in H.
    destruct (FoxgloveViewer.useMemo cell v _) as [[t c]| |]; try discriminate.
    cbn [JS.bind fst snd] in H. rewrite Ht in H. cbn [negb] in H.
    apply Normal_inj in H. exact (NF _ _ (f_equal fst H)).
  - intros Hf. unfold FoxgloveViewer.FoxgloveViewer, FoxgloveViewer.useMemo,
      FoxgloveViewer.foxgloveUrl.
    rewrite Hf. simpl.
    destruct cell as [m|]; [destruct (FoxgloveViewer.same_dep _ _) |];
      simpl; rewrite ?Hf; eexists; reflexivity.
Qed.

(** Two renders of [FoxgloveViewer] in a row: when the reference is the
    same, the second render returns what the first returned and does not
    look at the page location; when it differs, the second render is a
    first render of the new reference. *)
Theorem FoxgloveViewer_second_render (v v' : JS.value) (L L' : string)
    (tree : node) (cell : option FoxgloveViewer.memo) :
  FoxgloveViewer.FoxgloveViewer None v L = JS.Normal (tree, cell) ->
  FoxgloveViewer.FoxgloveViewer cell v' L'
  = if FoxgloveViewer.same_dep v v'
    then JS.Normal (tree, cell)
    else FoxgloveViewer.FoxgloveViewer None v' L'.
Proof.
  unfold FoxgloveViewer.FoxgloveViewer at 1. unfold FoxgloveViewer.useMemo at 1.
  destruct (FoxgloveViewer.foxgloveUrl v L) as [u| |]; try discriminate.
  cbn [JS.bind fst snd]. intros H.
  assert (Hc : cell = Some (FoxgloveViewer.mkMemo v u))
    by (destruct (negb (JS.truthy v)); apply Normal_inj in H;
        apply (f_equal snd) in H; symmetry; exact H).
  subst cell. unfold FoxgloveViewer.FoxgloveViewer at 1. unfold FoxgloveViewer.useMemo at 1.
  cbn [FoxgloveViewer.dep FoxgloveViewer.memoized].
  destruct (FoxgloveViewer.same_dep v v') eqn:Ed; [| reflexivity].
  assert (v' = v) as ->.
  { destruct v as [| |s], v' as [| |s']; try discriminate; try reflexivity.
    apply String.eqb_eq in Ed. congruence. }
  cbn [JS.bind fst snd]. exact H.
Qed.

Lemma FoxgloveViewer_second_render_example :
  exists tree cell,
    FoxgloveViewer.FoxgloveViewer None (JS.Str "./a.mcap") "https://example.org/gallery/"
    = JS.Normal (tree, cell) /\
    FoxgloveViewer.FoxgloveViewer cell (JS.Str "./a.mcap") "https://elsewhere.example/"
    = JS.Normal (tree, cell) /\
    attr_of "src" (match tree with
                   | Elem _ _ (iframe :: _) => iframe
                   | _ => tree
                   end)
    = Some "https://embed.foxglove.dev?ds=remote-file&ds.url=https%3A%2F%2Fexample.org%2Fgallery%2Fa.mcap".
Proof.
  eexists. eexists.
  assert (H : FoxgloveViewer.FoxgloveViewer None (JS.Str "./a.mcap")
                "https://example.org/gallery/"
              = JS.Normal
                  (FoxgloveViewer.viewer
                     (JS.Str "https://embed.foxglove.dev?ds=remote-file&ds.url=https%3A%2F%2Fexample.org%2Fgallery%2Fa.mcap")
                     (JS.Str "./a.mcap"),
                   Some (FoxgloveViewer.mkMemo (JS.Str "./a.mcap")
                           (JS.Str "https://embed.foxglove.dev?ds=remote-file&ds.url=https%3A%2F%2Fexample.org%2Fgallery%2Fa.mcap"))))
    by (vm_compute; reflexivity).
  split; [exact H |]. split; [| reflexivity].
  exact (FoxgloveViewer_second_render (JS.Str "./a.mcap") (JS.Str "./a.mcap")
           "https://example.org/gallery/" "https://elsewhere.example/" _ _ H).
Defined.

(** ** Further properties of the gallery controller *)

Lemma run_from (events : list action) (st : UmiGallery.store) :
  UmiGallery.DATASETS (run events st) = UmiGallery.DATASETS st /\
  UmiGallery.selectedDataset (run events st)
  = match last (clicked events) with
    | Some d => Some d
    | None => UmiGallery.selectedDataset st
    end /\
  UmiGallery.timeouts (run events st)
  = UmiGallery.timeouts st
    ++ List.map (fun _ => UmiGallery.mkTimeout UmiGallery.ScrollViewerIntoView 100)
                (clicked events).
Proof.
  revert st. induction events as [|a events IH]; intros st.
  - cbn. rewrite List.app_nil_r. auto.
  - change (run (a :: events) st) with (run events (UmiGallery.dispatch a st)).
    destruct (IH (UmiGallery.dispatch a st)) as (Hc & Hs & Ht).
    rewrite Hc, Hs, Ht. destruct a as [d|].
    + change (clicked (HandleCardClick d :: events)) with (d :: clicked events).
      split; [reflexivity |]. split.
      * rewrite last_cons. destruct (last (clicked events)); reflexivity.
      * cbn [UmiGallery.dispatch UmiGallery.handleCardClick UmiGallery.setTimeout
             UmiGallery.setSelectedDataset UmiGallery.timeouts List.map].
        rewrite <- List.app_assoc. reflexivity.
    + change (clicked (HideTarget :: events)) with (clicked events). auto.
Qed.

(** A session: after any sequence of card clicks and image errors from the
    first render, the selection is the descriptor of the last click (none
    when no card was clicked), one scroll of 100 ms has been scheduled per
    click, the same card clicked again included, and the catalog is the one
    mounted.  An image error changes nothing. *)
Theorem session_outcome (events : list action) (catalog : list Dataset) :
  let st := run events (UmiGallery.mount catalog) in
  UmiGallery.DATASETS st = catalog /\
  UmiGallery.selectedDataset st = last (clicked events) /\
  UmiGallery.timeouts st
  = List.map (fun _ => UmiGallery.mkTimeout UmiGallery.ScrollViewerIntoView 100)
             (clicked events) /\
  length (UmiGallery.timeouts st) = length (clicked events).
Proof.
  intros st. destruct (run_from events (UmiGallery.mount catalog)) as (Hc & Hs & Ht).
  fold st in Hc, Hs, Ht. cbn [UmiGallery.mount UmiGallery.DATASETS
    UmiGallery.selectedDataset UmiGallery.timeouts app] in Hc, Hs, Ht.
  split; [exact Hc |]. split.
  - rewrite Hs. destruct (last (clicked events)); reflexivity.
  - split; [exact Ht |]. rewrite Ht. apply List.length_map.
Qed.

Lemma reachable_timeouts (DATA_SOURCE : DataSource) (catalog : list Dataset)
    (st : UmiGallery.store) :
  UmiGallery.reachable DATA_SOURCE catalog st ->
  st = UmiGallery.mount catalog \/
  (exists d, UmiGallery.selectedDataset st = Some d) /\ UmiGallery.timeouts st <> [].
Proof.
  induction 1 as [|st d a h _ _ Hin]; [left; reflexivity | right].
  rewrite card_props_UmiGallery in Hin. apply List.in_map_iff in Hin.
  destruct Hin as (d' & E & _). injection E as -> _ <-.
  split; [eexists; reflexivity |].
  cbn. destruct (UmiGallery.timeouts st); discriminate.
Qed.

(** There is no way back to "nothing selected": a store reached from the
    first render has no selection only if it is the first render itself.
    What is selected is always a descriptor of the catalog. *)
Theorem selection_never_cleared (DATA_SOURCE : DataSource) (catalog : list Dataset)
    (st : UmiGallery.store) :
  UmiGallery.reachable DATA_SOURCE catalog st ->
  (UmiGallery.selectedDataset st = None <-> st = UmiGallery.mount catalog) /\
  (forall d, UmiGallery.selectedDataset st = Some d -> In d catalog).
Proof.
  intros Hr. split.
  - split.
    + intros Hn. destruct (reachable_timeouts _ _ _ Hr) as [E | [[d Hd] _]];
        [exact E | congruence].
    + intros ->. reflexivity.
  - intros d Hd. destruct (reachable_invariant _ _ _ Hr) as [_ Hs].
    rewrite Hd in Hs. exact Hs.
Qed.

Lemma selection_never_cleared_example :
  exists d st,
    UmiGallery.reachable Datasets.DATA_SOURCE Datasets.DATASETS st /\
    UmiGallery.selectedDataset st = Some d /\ In d Datasets.DATASETS.
Proof.
  eexists. eexists.
  assert (Hin : In (match Datasets.DATASETS with
                    | d :: _ => (d, false, HandleCardClick d)
                    | [] => (mkDataset "" "" "" "" JS.Null JS.Null ∅, false, HideTarget)
                    end)
                   (UmiGallery.card_props
                      (UmiGallery.UmiGallery Datasets.DATA_SOURCE
                         (UmiGallery.mount Datasets.DATASETS))))
    by (left; reflexivity).
  assert (Hr : UmiGallery.reachable Datasets.DATA_SOURCE Datasets.DATASETS _)
    by (eapply UmiGallery.reach_click; [apply UmiGallery.reach_mount | exact Hin]).
  split; [exact Hr |]. split; [reflexivity |].
  exact (proj2 (selection_never_cleared _ _ _ Hr) _ eq_refl).
Defined.

Ltac descend :=
  repeat (rewrite flat_map_nodes_Elem; cbn [List.flat_map]).

Lemma query_cards {A : Type} (g : node -> list A) (st : UmiGallery.store) :
  (forall k d a h, g (DatasetCardElem k d a h) = []) ->
  List.flat_map (fun c => List.flat_map g (nodes c)) (UmiGallery.cards st) = [].
Proof.
  intros Hg. unfold UmiGallery.cards.
  induction (UmiGallery.DATASETS st) as [|d l IH]; [reflexivity |].
  cbn [List.map List.flat_map nodes]. rewrite Hg, IH. reflexivity.
Qed.

(** A query that finds nothing in the header, in the footer, in the card
    grid or in plain text finds in the gallery what it finds in the viewer
    region. *)
Ltac to_viewer_region g DS :=
  unfold UmiGallery.UmiGallery;
  rewrite flat_map_nodes_Elem; cbn [List.flat_map];
  change (List.flat_map g (nodes UmiGallery.header)) with (@nil ltac:(let t := type of g in
    match t with _ -> list ?A => exact A end));
  change (List.flat_map g (nodes (UmiGallery.footer DS))) with (@nil ltac:(let t := type of g in
    match t with _ -> list ?A => exact A end));
  unfold UmiGallery.selection_section, UmiGallery.viewer_section;
  descend; rewrite query_cards by reflexivity;
  cbn [nodes List.flat_map app rerun_viewer_of texts_in text_of
       String.eqb Ascii.eqb Bool.eqb];
  rewrite ?List.app_nil_r.

Lemma rerun_viewers_topic_codes (d : Dataset) (category className : string) :
  List.flat_map (fun c => List.flat_map rerun_viewer_of (nodes c))
                (UmiGallery.topic_codes d category className) = [].
Proof.
  unfold UmiGallery.topic_codes. destruct (topics d !! category) as [l|]; [| reflexivity].
  induction l as [|t l IH]; [reflexivity | exact IH].
Qed.

Lemma code_texts_topic_codes (d : Dataset) (category className : string) :
  List.flat_map (fun c => List.flat_map (texts_in "code") (nodes c))
                (UmiGallery.topic_codes d category className)
  = default [] (topics d !! category).
Proof.
  unfold UmiGallery.topic_codes. destruct (topics d !! category) as [l|]; [| reflexivity].
  induction l as [|t l IH]; [reflexivity |].
  cbn [List.map List.flat_map]. rewrite IH. reflexivity.
Qed.

Lemma h2_texts_topic_codes (d : Dataset) (category className : string) :
  List.flat_map (fun c => List.flat_map (texts_in "h2") (nodes c))
                (UmiGallery.topic_codes d category className) = [].
Proof.
  unfold UmiGallery.topic_codes. destruct (topics d !! category) as [l|]; [| reflexivity].
  induction l as [|t l IH]; [reflexivity | exact IH].
Qed.

Lemma rerun_viewers_gallery (DATA_SOURCE : DataSource) (st : UmiGallery.store) :
  rerun_viewers (UmiGallery.UmiGallery DATA_SOURCE st)
  = match UmiGallery.selectedDataset st with
    | Some d => [rrdUrl d]
    | None => []
    end.
Proof.
  unfold rerun_viewers. to_viewer_region rerun_viewer_of DATA_SOURCE.
  unfold UmiGallery.viewer_region. destruct (UmiGallery.selectedDataset st) as [d|];
    [| reflexivity].
  unfold UmiGallery.selected_panel. cbn [List.flat_map]. descend.
  rewrite !List.flat_map_app, !rerun_viewers_topic_codes. reflexivity.
Qed.

Lemma h2_texts_gallery (DATA_SOURCE : DataSource) (st : UmiGallery.store) :
  texts_of_tag "h2" (UmiGallery.UmiGallery DATA_SOURCE st)
  = match UmiGallery.selectedDataset st with
    | Some d => [name d]
    | None => []
    end.
Proof.
  unfold texts_of_tag. to_viewer_region (texts_in "h2") DATA_SOURCE.
  unfold UmiGallery.viewer_region. destruct (UmiGallery.selectedDataset st) as [d|];
    [| reflexivity].
  unfold UmiGallery.selected_panel. cbn [List.flat_map]. descend.
  rewrite !List.flat_map_app, !h2_texts_topic_codes. reflexivity.
Qed.

Lemma code_texts_gallery (DATA_SOURCE : DataSource) (st : UmiGallery.store) :
  texts_of_tag "code" (UmiGallery.UmiGallery DATA_SOURCE st)
  = match UmiGallery.selectedDataset st with
    | Some d => default [] (topics d !! "transforms") ++ default [] (topics d !! "cameras")
    | None => []
    end.
Proof.
  unfold texts_of_tag. to_viewer_region (texts_in "code") DATA_SOURCE.
  unfold UmiGallery.viewer_region. destruct (UmiGallery.selectedDataset st) as [d|];
    [| reflexivity].
  unfold UmiGallery.selected_panel. cbn [List.flat_map]. descend.
  rewrite !List.flat_map_app, !code_texts_topic_codes.
  cbn. rewrite List.app_nil_r. reflexivity.
Qed.

(** What the gallery shows for the selection, in any store: with a
    descriptor selected there is exactly one [RerunViewer], fed that
    descriptor's [rrdUrl], one heading with its name, and the topic list
    holds its "transforms" paths followed by its "cameras" paths, all of
    them and in order; paths of other categories (the catalog's "scalars")
    are not listed.  With nothing selected there is no [RerunViewer] and no
    topic. *)
Theorem selection_rendered (DATA_SOURCE : DataSource) (st : UmiGallery.store) :
  let tree := UmiGallery.UmiGallery DATA_SOURCE st in
  rerun_viewers tree
  = match UmiGallery.selectedDataset st with
    | Some d => [rrdUrl d]
    | None => []
    end /\
  texts_of_tag "h2" tree
  = match UmiGallery.selectedDataset st with
    | Some d => [name d]
    | None => []
    end /\
  texts_of_tag "code" tree
  = match UmiGallery.selectedDataset st with
    | Some d => default [] (topics d !! "transforms") ++ default [] (topics d !! "cameras")
    | None => []
    end.
Proof.
  intros tree. unfold tree.
  split; [apply rerun_viewers_gallery |].
  split; [apply h2_texts_gallery | apply code_texts_gallery].
Qed.

(** From a card to the viewer: the tile of every card the gallery renders
    carries, as its [onClick], a handler that selects the descriptor of
    that card; after the click the gallery feeds that descriptor's [rrdUrl]
    to the one [RerunViewer], and the card is rendered active. *)
Theorem card_click_feeds_viewer (DATA_SOURCE : DataSource) (st : UmiGallery.store)
    (d : Dataset) (a : bool) (h : action) :
  In (d, a, h) (UmiGallery.card_props (UmiGallery.UmiGallery DATA_SOURCE st)) ->
  handler_of "onClick" (DatasetCard.DatasetCard d a h) = Some h /\
  UmiGallery.selectedDataset (UmiGallery.dispatch h st) = Some d /\
  rerun_viewers (UmiGallery.UmiGallery DATA_SOURCE (UmiGallery.dispatch h st)) = [rrdUrl d] /\
  In (d, true, h)
     (UmiGallery.card_props (UmiGallery.UmiGallery DATA_SOURCE (UmiGallery.dispatch h st))).
Proof.
  intros Hin. rewrite card_props_UmiGallery in Hin. apply List.in_map_iff in Hin.
  destruct Hin as (d' & E & Hd). injection E as -> _ <-.
  split; [reflexivity |]. split; [reflexivity |].
  split; [rewrite rerun_viewers_gallery; reflexivity |].
  rewrite card_props_UmiGallery. apply List.in_map_iff. exists d.
  split; [| exact Hd].
  cbn [UmiGallery.dispatch UmiGallery.handleCardClick UmiGallery.setTimeout
       UmiGallery.setSelectedDataset UmiGallery.selectedDataset UmiGallery.isActive].
  rewrite String.eqb_refl. reflexivity.
Qed.

Lemma card_click_feeds_viewer_example :
  exists d a h,
    In (d, a, h) (UmiGallery.card_props
                    (UmiGallery.UmiGallery Datasets.DATA_SOURCE
                       (UmiGallery.mount Datasets.DATASETS))) /\
    rerun_viewers (UmiGallery.UmiGallery Datasets.DATA_SOURCE
                     (UmiGallery.dispatch h (UmiGallery.mount Datasets.DATASETS)))
    = [JS.Str "./rrd/unscrew_bottle_cap_and_pour.rrd"].
Proof.
  eexists. eexists. eexists.
  assert (Hin : In (match Datasets.DATASETS with
                    | _ :: d :: _ => (d, false, HandleCardClick d)
                    | _ => (mkDataset "" "" "" "" JS.Null JS.Null ∅, false, HideTarget)
                    end)
                   (UmiGallery.card_props
                      (UmiGallery.UmiGallery Datasets.DATA_SOURCE
                         (UmiGallery.mount Datasets.DATASETS))))
    by (right; left; reflexivity).
  split; [exact Hin |].
  exact (proj1 (proj2 (proj2 (card_click_feeds_viewer _ _ _ _ _ Hin)))).
Defined.

(** ** Further properties of the dataset card *)

(** The three style lookups agree on the colour of a source: one hue per
    label for the badge of the tile, the gradient of its fallback icon and
    the badge of the viewer panel; the hue is slate exactly for a label
    that is none of the three known ones. *)
Theorem style_lookups_agree (s : string) :
  exists hue : string,
    In hue ["emerald"; "amber"; "violet"; "slate"] /\
    DatasetCard.getSourceBadgeClass s = "bg-" +:+ hue +:+ "-500/90 text-white" /\
    DatasetCard.getSourceGradient s
    = "bg-gradient-to-br from-" +:+ hue +:+ "-400 to-" +:+ hue +:+ "-600" /\
    UmiGallery.getSourceBadgeClass s
    = "bg-" +:+ hue +:+ "-100 text-" +:+ hue +:+ "-700" /\
    (hue = "slate" <-> ~ In s ["Genrobot"; "Lumos"; "DM Robot"]).
Proof.
  unfold DatasetCard.getSourceBadgeClass, DatasetCard.getSourceGradient,
    UmiGallery.getSourceBadgeClass.
  destruct (String.eqb s "Genrobot") eqn:E1;
    [apply String.eqb_eq in E1; subst s; exists "emerald" |
     destruct (String.eqb s "Lumos") eqn:E2;
     [apply String.eqb_eq in E2; subst s; exists "amber" |
      destruct (String.eqb s "DM Robot") eqn:E3;
      [apply String.eqb_eq in E3; subst s; exists "violet" | exists "slate"]]].
  1-3: (repeat split; try reflexivity; try (simpl; tauto); try discriminate;
        intros H; exfalso; apply H; simpl; tauto).
  apply String.eqb_neq in E1, E2, E3.
  repeat split; try reflexivity; try (simpl; tauto).
  intros _ [H | [H | [H | []]]]; congruence.
Qed.

Lemma split_last_segment (sep : ascii) (s : string) :
  exists seg,
    last (Str.split sep s) = Some seg /\
    Str.existsb (fun c => Char.same c sep) seg = false /\
    ((Str.split sep s = [seg] /\ s = seg) \/
     (exists pre, s = pre +:+ String sep seg) /\
     exists p q ps, Str.split sep s = p :: q :: ps).
Proof.
  induction s as [|c s (seg & Hl & Hn & IH)].
  - exists "". repeat split. left. split; reflexivity.
  - cbn [Str.split]. destruct (Char.same c sep) eqn:Ec.
    + apply Ascii.eqb_eq in Ec. subst c. exists seg.
      destruct (Str.split sep s) as [|p ps] eqn:Es; [discriminate |].
      split; [rewrite last_cons, Hl; reflexivity |]. split; [exact Hn |].
      right. split; [| eexists; eexists; eexists; reflexivity].
      destruct IH as [[_ ->] | [[pre ->] _]].
      * exists "". reflexivity.
      * exists (String sep pre). reflexivity.
    + destruct IH as [[Es ->] | [[pre ->] (p & q & ps & Es)]].
      * rewrite Es. exists (String c seg). split; [reflexivity |].
        split; [cbn; rewrite Ec; exact Hn |].
        left. split; reflexivity.
      * rewrite Es in *. exists seg. split.
        { rewrite last_cons in Hl. rewrite last_cons.
          destruct (last (q :: ps)) eqn:El; [exact Hl |].
          rewrite last_cons in El. destruct (last ps); discriminate. }
        split; [exact Hn |]. right.
        split; [exists (String c pre); reflexivity |].
        eexists; eexists; eexists; reflexivity.
Qed.

(** The text of a topic tag is the part of the topic path after its last
    U+002F: it holds no U+002F, and the path is that text alone or ends
    with a U+002F followed by it.  A path that ends with U+002F, the empty
    path included, gives an empty tag. *)
Theorem topic_tag_shows_last_segment (topic : string) :
  exists seg,
    DatasetCard.topic_tag topic
    = Elem "span"
        [("key", AStr topic);
         ("className", AStr "px-1.5 py-0.5 bg-slate-100 text-slate-600 rounded text-xs font-mono truncate max-w-[120px]")]
        [Text seg] /\
    Str.existsb (fun c => Char.same c "/") seg = false /\
    (topic = seg \/ exists pre, topic = pre +:+ "/" +:+ seg).
Proof.
  destruct (split_last_segment "/" topic) as (seg & Hl & Hn & H).
  exists seg. split; [| split; [exact Hn |]].
  - unfold DatasetCard.topic_tag, JS.pop. rewrite Hl. reflexivity.
  - destruct H as [[_ E] | [[pre E] _]]; [left; exact E | right; exists pre; exact E].
Qed.

Lemma tag_filter_topic_tags (tag : string) (d : Dataset) :
  String.eqb "span" tag = false ->
  List.flat_map (fun c => List.filter (has_tag tag) (nodes c))
                (DatasetCard.topic_tags d ++ DatasetCard.tactile_tag d) = [].
Proof.
  intros Ht. rewrite List.flat_map_app.
  assert (H1 : List.flat_map (fun c => List.filter (has_tag tag) (nodes c))
                 (DatasetCard.tactile_tag d) = []).
  { unfold DatasetCard.tactile_tag. destruct (topics d !! "tactile"); [| reflexivity].
    cbn [List.flat_map nodes List.filter has_tag app]. rewrite Ht. reflexivity. }
  assert (H2 : List.flat_map (fun c => List.filter (has_tag tag) (nodes c))
                 (DatasetCard.topic_tags d) = []).
  { unfold DatasetCard.topic_tags. destruct (topics d !! "transforms") as [l|];
      [| reflexivity].
    induction (JS.slice0 2 l) as [|t ts IH]; [reflexivity |].
    cbn [List.map List.flat_map]. rewrite IH.
    unfold DatasetCard.topic_tag. destruct (JS.pop (Str.split "/" t));
      cbn [child List.flat_map nodes List.filter has_tag app]; rewrite Ht; reflexivity. }
  rewrite H1, H2. reflexivity.
Qed.

Lemma card_nodes_of_tag (tag : string) (d : Dataset) (isActive : bool) (onClick : action) :
  In tag ["img"; "svg"] ->
  List.filter (has_tag tag) (nodes (DatasetCard.DatasetCard d isActive onClick))
  = List.filter (has_tag tag)
      (nodes (if DatasetCard.shows_thumbnail d
              then DatasetCard.thumbnail_image d
              else DatasetCard.fallback_icon d)).
Proof.
  intros Ht. unfold DatasetCard.DatasetCard.
  rewrite filter_nodes_Elem. cbn [List.flat_map].
  rewrite (filter_nodes_Elem _ "div" _ (_ ++ _)), List.flat_map_app. cbn [List.flat_map].
  rewrite (filter_nodes_Elem _ "div" [("className", AStr "p-4")]). cbn [List.flat_map].
  rewrite (filter_nodes_Elem _ "div" [("className", AStr "mt-3 flex flex-wrap gap-1")]).
  rewrite tag_filter_topic_tags by (destruct Ht as [<- | [<- | []]]; reflexivity).
  destruct Ht as [<- | [<- | []]]; destruct isActive;
    cbn [DatasetCard.active_indicator DatasetCard.source_badge List.flat_map List.filter
         nodes has_tag app String.eqb Ascii.eqb Bool.eqb];
    rewrite ?List.app_nil_r; reflexivity.
Qed.

(** Thumbnail or fallback icon: a tile holds one image, with the thumbnail
    as [src], the name as [alt] and an error handler that hides it, when
    the thumbnail is a non-empty string that does not contain
    "placeholder"; in every other case (no thumbnail, an empty one, a
    placeholder) it holds the fallback icon and no image.  It never holds
    both. *)
Theorem thumbnail_or_fallback_icon (d : Dataset) (isActive : bool) (onClick : action) :
  let card := DatasetCard.DatasetCard d isActive onClick in
  let image :=
    Elem "img" [("src", AStr (JS.to_string (thumbnail d))); ("alt", AStr (name d));
                ("className", AStr "w-full h-full object-cover");
                ("onError", AHandler HideTarget)] [] in
  match thumbnail d with
  | JS.Str s =>
      if negb (Str.is_empty s) && negb (Str.includes s "placeholder")
      then List.filter (has_tag "img") (nodes card) = [image] /\
           count (has_tag "svg") card = 0%nat
      else List.filter (has_tag "img") (nodes card) = [] /\
           count (has_tag "svg") card = 1%nat
  | JS.Null | JS.Undefined =>
      List.filter (has_tag "img") (nodes card) = [] /\
      count (has_tag "svg") card = 1%nat
  end.
Proof.
  intros card image. unfold count, card.
  rewrite !card_nodes_of_tag by (simpl; tauto).
  unfold DatasetCard.shows_thumbnail, DatasetCard.thumbnail_image. subst image.
  destruct (thumbnail d) as [| |s]; try (split; reflexivity).
  destruct (negb (Str.is_empty s) && negb (Str.includes s "placeholder"));
    split; reflexivity.
Qed.

(** ** The embed URL, for every resolved URL *)

(** Case analysis on the 256 bytes. *)
Ltac by_bytes c :=
  destruct c as [[] [] [] [] [] [] [] []]; vm_compute;
  try reflexivity; try (intros; discriminate); try (intros; repeat split; reflexivity).

Lemma serialize_byte_form (c : ascii) :
  Str.forallb form_byte (URLSearchParams.serialize_byte c) = true.
Proof. by_bytes c. Qed.

Lemma form_byte_plain (c : ascii) :
  form_byte c = true ->
  Url.special_query_set c = false /\ Char.same c "#" = false /\
  Char.is_c0_control_or_space c = false /\ Char.is_tab_or_newline c = false /\
  Char.same c "&" = false /\ Char.same c "=" = false.
Proof. by_bytes c. Qed.

Lemma forallb_append (p : ascii -> bool) (a b : string) :
  Str.forallb p (a +:+ b) = Str.forallb p a && Str.forallb p b.
Proof.
  induction a as [|c a IH]; [reflexivity |].
  simpl. rewrite IH. apply andb_assoc.
Qed.

Lemma serialize_string_form (s : string) :
  Str.forallb form_byte (URLSearchParams.serialize_string s) = true.
Proof.
  induction s as [|c s IH]; [reflexivity |].
  cbn [URLSearchParams.serialize_string Str.concat_map].
  rewrite forallb_append, serialize_byte_form. exact IH.
Qed.

Lemma forallb_impl (p q : ascii -> bool) (s : string) :
  (forall c, p c = true -> q c = true) ->
  Str.forallb p s = true -> Str.forallb q s = true.
Proof.
  intros H. induction s as [|c s IH]; [reflexivity |]. cbn.
  intros Hs. apply andb_prop in Hs as [Hc Hs]. rewrite (H c Hc). exact (IH Hs).
Qed.

Lemma existsb_forallb (p : ascii -> bool) (s : string) :
  Str.forallb (fun c => negb (p c)) s = true -> Str.existsb p s = false.
Proof.
  induction s as [|c s IH]; [reflexivity |]. cbn.
  intros Hs. apply andb_prop in Hs as [Hc Hs]. rewrite (IH Hs).
  destruct (p c); [discriminate | reflexivity].
Qed.

Lemma percent_decode_plain (c : ascii) (s : string) :
  Char.same c "%" = false ->
  Url.percent_decode (String c s) = String c (Url.percent_decode s).
Proof.
  intros H. destruct s as [|a [|b s]]; cbn [Url.percent_decode]; rewrite ?H; reflexivity.
Qed.

Lemma lor_shift_add (a y : N) (n : N) :
  (y < 2 ^ n)%N -> N.lor (a * 2 ^ n) y = (a * 2 ^ n + y)%N.
Proof.
  intros Hy.
  assert (H0 : N.land (a * 2 ^ n) y = 0%N).
  { apply N.bits_inj. intros k. rewrite N.land_spec, N.bits_0.
    destruct (N.lt_ge_cases k n) as [Hk | Hk].
    - rewrite N.mul_pow2_bits_low by exact Hk. reflexivity.
    - rewrite <- (N.mod_small y (2 ^ n)) by exact Hy.
      rewrite N.mod_pow2_bits_high by exact Hk. apply andb_false_r. }
  rewrite <- N.lxor_lor by exact H0. symmetry. apply N.add_nocarry_lxor. exact H0.
Qed.

Lemma land_low6 (x : N) : N.land x 0x3F = (x mod 64)%N.
Proof. exact (N.land_ones x 6). Qed.
Lemma land_low5 (x : N) : N.land x 0x1F = (x mod 32)%N.
Proof. exact (N.land_ones x 5). Qed.
Lemma land_low4 (x : N) : N.land x 0xF = (x mod 16)%N.
Proof. exact (N.land_ones x 4). Qed.
Lemma land_low3 (x : N) : N.land x 0x7 = (x mod 8)%N.
Proof. exact (N.land_ones x 3). Qed.

Lemma continuation_code (cp k : N) :
  N_of_ascii (Utf8.continuation cp k) = (0x80 + (cp / 2 ^ (6 * k)) mod 64)%N.
Proof.
  unfold Utf8.continuation, Utf8.byte.
  rewrite land_low6, N.shiftr_div_pow2.
  assert (H : ((cp / 2 ^ (6 * k)) mod 64 < 64)%N) by (apply N.mod_lt; discriminate).
  change 0x80%N with (2 * 2 ^ 6)%N at 1.
  rewrite lor_shift_add by exact H.
  apply N_ascii_embedding. change (2 * 2 ^ 6)%N with 128%N. lia.
Qed.

Lemma shiftl6 (c y : N) : (y < 64)%N -> N.lor (N.shiftl c 6) y = (c * 64 + y)%N.
Proof. intros H. rewrite N.shiftl_mul_pow2. apply (lor_shift_add c y 6). exact H. Qed.


Ltac divlia := zify; Z.to_euclidean_division_equations; lia.

Lemma N_of_byte (x : N) : (x < 256)%N -> N_of_ascii (Utf8.byte x) = x.
Proof. apply N_ascii_embedding. Qed.

(** Settle the comparisons of the decoder on bytes given by arithmetic. *)
Ltac settle_comparisons :=
  repeat match goal with
         | |- context [N.leb ?a ?b] =>
             destruct (N.leb_spec a b); try (exfalso; divlia)
         | |- context [N.eqb ?a ?b] =>
             destruct (N.eqb_spec a b); try (exfalso; divlia)
         end.

Ltac decoder_step :=
  unfold Utf8.step, Utf8.lead, Utf8.initial;
  cbn [Utf8.bytes_needed Utf8.bytes_seen Utf8.code_point Utf8.lower_boundary
       Utf8.upper_boundary];
  rewrite ?land_low6, ?land_low5, ?land_low4, ?land_low3.

Lemma run_1 (b : N) (rest : string) :
  (b <= 0x7F)%N ->
  Utf8.run Utf8.initial (String (Utf8.byte b) rest) = b :: Utf8.run Utf8.initial rest.
Proof.
  intros Hb. cbn [Utf8.run]. rewrite N_of_byte by lia.
  decoder_step. change (0 =? 0)%N with true. cbv iota.
  destruct (N.leb_spec b 0x7F); [reflexivity | lia].
Qed.

Lemma run_continue (c seen needed b : N) (rest : string) :
  (seen + 1 < needed)%N -> (b < 64)%N ->
  Utf8.run (Utf8.mkState c seen needed 0x80 0xBF) (String (Utf8.byte (0x80 + b)) rest)
  = Utf8.run (Utf8.mkState (c * 64 + b) (seen + 1) needed 0x80 0xBF) rest.
Proof.
  intros Hn Hb. cbn [Utf8.run]. rewrite N_of_byte by lia. decoder_step.
  replace ((0x80 + b) mod 64)%N with b by divlia.
  rewrite shiftl6 by exact Hb.
  settle_comparisons. reflexivity.
Qed.

Lemma run_last (c seen needed b : N) (rest : string) :
  (seen + 1 = needed)%N -> (b < 64)%N ->
  Utf8.run (Utf8.mkState c seen needed 0x80 0xBF) (String (Utf8.byte (0x80 + b)) rest)
  = (c * 64 + b)%N :: Utf8.run Utf8.initial rest.
Proof.
  intros Hn Hb. cbn [Utf8.run]. rewrite N_of_byte by lia. decoder_step.
  replace ((0x80 + b) mod 64)%N with b by divlia.
  rewrite shiftl6 by exact Hb.
  settle_comparisons. reflexivity.
Qed.

(** The second byte of a sequence, within the boundaries the first set. *)
Lemma run_second (c needed lo hi b : N) (rest : string) :
  (2 <= needed)%N -> (b < 64)%N -> (lo <= 0x80 + b)%N -> (0x80 + b <= hi)%N ->
  Utf8.run (Utf8.mkState c 0 needed lo hi) (String (Utf8.byte (0x80 + b)) rest)
  = Utf8.run (Utf8.mkState (c * 64 + b) 1 needed 0x80 0xBF) rest.
Proof.
  intros Hn Hb Hlo Hhi. cbn [Utf8.run]. rewrite N_of_byte by lia. decoder_step.
  replace ((0x80 + b) mod 64)%N with b by divlia.
  rewrite shiftl6 by exact Hb.
  settle_comparisons. reflexivity.
Qed.

Lemma run_lead (b : N) (rest : string) :
  (b < 256)%N ->
  Utf8.run Utf8.initial (String (Utf8.byte b) rest)
  = fst (Utf8.lead b) ++ Utf8.run (snd (Utf8.lead b)) rest.
Proof.
  intros Hb. cbn [Utf8.run]. rewrite N_of_byte by exact Hb.
  unfold Utf8.step. change (Utf8.bytes_needed Utf8.initial =? 0)%N with true. cbv iota.
  destruct (Utf8.lead b). reflexivity.
Qed.

Lemma run_encode_code_point (cp : N) (rest : string) :
  Utf8.is_scalar_value cp = true ->
  Utf8.run Utf8.initial (Utf8.encode_code_point cp +:+ rest)
  = cp :: Utf8.run Utf8.initial rest.
Proof.
  intros Hs. unfold Utf8.is_scalar_value in Hs.
  assert (Hcp : (cp < 0xD800 \/ 0xE000 <= cp <= 0x10FFFF)%N).
  { apply orb_prop in Hs as [H | H]; [left; apply N.ltb_lt; exact H |].
    apply andb_prop in H as [H1 H2]. right. split; apply N.leb_le; assumption. }
  clear Hs. unfold Utf8.encode_code_point.
  destruct (N.leb_spec cp 0x7F) as [H1 | H1]; [apply run_1; exact H1 |].
  destruct (N.leb_spec cp 0x7FF) as [H2 | H2].
  { change (String ?a (String ?b "") +:+ rest) with (String a (String b rest)).
    unfold Utf8.continuation. rewrite land_low6, !N.shiftr_div_pow2.
    change (2 ^ 6)%N with 64%N. change (2 ^ (6 * 0))%N with 1%N. rewrite N.div_1_r.
    change 0x80%N with (2 * 2 ^ 6)%N at 1.
    rewrite lor_shift_add by (change (2 ^ 6)%N with 64%N; divlia).
    change (2 * 2 ^ 6)%N with 0x80%N.
    rewrite run_lead by divlia. decoder_step. settle_comparisons.
    cbn [andb fst snd app].
    replace ((cp / 64 + 0xC0) mod 32)%N with (cp / 64)%N by divlia.
    rewrite run_last by divlia. f_equal. divlia. }
  destruct (N.leb_spec cp 0xFFFF) as [H3 | H3].
  { change (String ?a (String ?b (String ?c "")) +:+ rest)
      with (String a (String b (String c rest))).
    unfold Utf8.continuation. rewrite !land_low6, !N.shiftr_div_pow2.
    change (2 ^ 12)%N with 4096%N. change (2 ^ (6 * 1))%N with 64%N.
    change (2 ^ (6 * 0))%N with 1%N. rewrite N.div_1_r.
    change 0x80%N with (2 * 2 ^ 6)%N at 1 2.
    rewrite !lor_shift_add by (change (2 ^ 6)%N with 64%N; divlia).
    change (2 * 2 ^ 6)%N with 0x80%N.
    rewrite run_lead by divlia. decoder_step. settle_comparisons; cbn [andb fst snd app];
      replace ((cp / 4096 + 0xE0) mod 16)%N with (cp / 4096)%N by divlia;
      (rewrite run_second by divlia); (rewrite run_last by divlia);
      f_equal; divlia. }
  change (String ?a (String ?b (String ?c (String ?d ""))) +:+ rest)
    with (String a (String b (String c (String d rest)))).
  unfold Utf8.continuation. rewrite !land_low6, !N.shiftr_div_pow2.
  change (2 ^ 18)%N with 262144%N. change (2 ^ (6 * 2))%N with 4096%N.
  change (2 ^ (6 * 1))%N with 64%N.
  change (2 ^ (6 * 0))%N with 1%N. rewrite N.div_1_r.
  change 0x80%N with (2 * 2 ^ 6)%N at 1 2 3.
  rewrite !lor_shift_add by (change (2 ^ 6)%N with 64%N; divlia).
  change (2 * 2 ^ 6)%N with 0x80%N.
  rewrite run_lead by divlia. decoder_step. settle_comparisons; cbn [andb fst snd app];
    replace ((cp / 262144 + 0xF0) mod 8)%N with (cp / 262144)%N by divlia;
    (rewrite run_second by divlia); (rewrite run_continue by divlia);
    (rewrite run_last by divlia); f_equal; divlia.
Qed.

Lemma decode_encode (cps : list N) :
  forallb Utf8.is_scalar_value cps = true -> Utf8.decode (Utf8.encode cps) = cps.
Proof.
  unfold Utf8.decode. induction cps as [|cp cps IH]; [reflexivity |].
  intros H. apply andb_prop in H as [Hc Hs]. cbn [Utf8.encode].
  rewrite run_encode_code_point by exact Hc. f_equal. exact (IH Hs).
Qed.

Lemma to_string_encode (cps : list N) :
  forallb Utf8.is_scalar_value cps = true ->
  Utf8.to_string (Utf8.encode cps) = Utf8.encode cps.
Proof. intros H. unfold Utf8.to_string. rewrite decode_encode by exact H. reflexivity. Qed.

(** Ill-formed input: an encoded surrogate, a lone first byte, an overlong
    form, a sequence beyond U+10FFFF and a sequence cut short. *)
Example decode_ill_formed :
  let bytes := List.fold_right (fun n s => String (Utf8.byte n) s) "" in
  Utf8.decode (bytes [0xED; 0xA0; 0x80]%N) = [0xFFFD; 0xFFFD; 0xFFFD]%N /\
  Utf8.decode (bytes [0xC3; 0x41]%N) = [0xFFFD; 0x41]%N /\
  Utf8.decode (bytes [0xC0; 0x80]%N) = [0xFFFD; 0xFFFD]%N /\
  Utf8.decode (bytes [0xF4; 0x90; 0x80; 0x80]%N) = [0xFFFD; 0xFFFD; 0xFFFD; 0xFFFD]%N /\
  Utf8.decode (bytes [0xE2; 0x82]%N) = [0xFFFD]%N.
Proof. repeat split; vm_compute; reflexivity. Qed.

Lemma decode_serialize_byte (c : ascii) (s : string) :
  Urlencoded.decode_bytes (URLSearchParams.serialize_byte c +:+ s)
  = String c (Urlencoded.decode_bytes s).
Proof.
  unfold Urlencoded.decode_bytes.
  destruct c as [[] [] [] [] [] [] [] []];
    first [ reflexivity | apply percent_decode_plain; reflexivity ].
Qed.

(** Percent-decoding undoes the serialization of a name or a value, byte
    for byte. *)
Lemma decode_serialize_string (s : string) :
  Urlencoded.decode_bytes (URLSearchParams.serialize_string s) = s.
Proof.
  induction s as [|c s IH]; [reflexivity |].
  cbn [URLSearchParams.serialize_string Str.concat_map].
  rewrite decode_serialize_byte. f_equal. exact IH.
Qed.

Lemma split_no_sep (sep : ascii) (s : string) :
  Str.existsb (fun c => Char.same c sep) s = false -> Str.split sep s = [s].
Proof.
  induction s as [|c s IH]; [reflexivity |]. cbn [Str.existsb Str.split].
  intros H. apply orb_false_elim in H as [Hc Hs]. rewrite Hc, (IH Hs). reflexivity.
Qed.

Lemma split_at_sep (sep : ascii) (a b : string) :
  Str.existsb (fun c => Char.same c sep) a = false ->
  Str.split sep (a +:+ String sep b) = a :: Str.split sep b.
Proof.
  induction a as [|c a IH]; intros H.
  - simpl. unfold Char.same. rewrite Ascii.eqb_refl. reflexivity.
  - cbn [Str.existsb] in H. apply orb_false_elim in H as [Hc Ha].
    simpl. rewrite Hc, (IH Ha). reflexivity.
Qed.

Lemma append_inj_l (a x y : string) : a +:+ x = a +:+ y -> x = y.
Proof. induction a as [|c a IH]; simpl; [auto | intros E; injection E as E; auto]. Qed.

Lemma form_string_no (sep : ascii) (s : string) :
  (forall c, form_byte c = true -> Char.same c sep = false) ->
  Str.forallb form_byte s = true ->
  Str.existsb (fun c => Char.same c sep) s = false.
Proof.
  intros H Hs. apply existsb_forallb.
  apply (forallb_impl form_byte); [| exact Hs].
  intros c Hc. rewrite (H c Hc). reflexivity.
Qed.

(** Reading back: for a resolved URL without lone surrogates (the encoding
    [u] of a sequence of scalar values), the query of the embed URL, parsed
    by the platform's application/x-www-form-urlencoded parser, gives
    exactly the two parameters, and the value of ds.url is [u] again.  So
    two such resolved URLs with the same embed URL are the same string.
    [URLSearchParams] replaces a lone surrogate by U+FFFD before it
    encodes: a resolved URL that holds one is not covered. *)
Theorem embed_query_reads_back (cps : list N) :
  forallb Utf8.is_scalar_value cps = true ->
  let u := Utf8.encode cps in
  Urlencoded.parse (URLSearchParams.toString (FoxgloveViewer.params (JS.Str u)))
  = [("ds", "remote-file"); ("ds.url", u)] /\
  forall cps' : list N,
    forallb Utf8.is_scalar_value cps' = true ->
    FoxgloveViewer.baseUrl +:+ "?" +:+
      URLSearchParams.toString (FoxgloveViewer.params (JS.Str u))
    = FoxgloveViewer.baseUrl +:+ "?" +:+
      URLSearchParams.toString (FoxgloveViewer.params (JS.Str (Utf8.encode cps'))) ->
    cps = cps'.
Proof.
  assert (R : forall w, Urlencoded.parse
                          (URLSearchParams.toString (FoxgloveViewer.params (JS.Str w)))
                        = [("ds", "remote-file"); ("ds.url", Utf8.to_string w)]).
  { intros w. rewrite toString_params. unfold Urlencoded.parse.
    pose proof (serialize_string_form w) as Hf.
    change ("ds=remote-file&ds.url=" +:+ URLSearchParams.serialize_string w)
      with ("ds=remote-file" +:+ String "&" ("ds.url=" +:+ URLSearchParams.serialize_string w)).
    rewrite split_at_sep by reflexivity.
    rewrite split_no_sep.
    - assert (He : Str.is_empty ("ds.url=" +:+ URLSearchParams.serialize_string w) = false)
        by reflexivity.
      assert (H1 : Urlencoded.parse_pair "ds=remote-file" = ("ds", "remote-file"))
        by (vm_compute; reflexivity).
      assert (H2 : Urlencoded.parse_pair ("ds.url=" +:+ URLSearchParams.serialize_string w)
                   = (Urlencoded.decode "ds.url",
                      Urlencoded.decode (URLSearchParams.serialize_string w)))
        by reflexivity.
      assert (H3 : Urlencoded.decode "ds.url" = "ds.url") by (vm_compute; reflexivity).
      cbn [List.filter Str.is_empty negb]. rewrite He. cbn [negb List.map].
      rewrite H1, H2, H3. unfold Urlencoded.decode.
      rewrite decode_serialize_string. reflexivity.
    - simpl. apply form_string_no; [| exact Hf].
      intros c Hc. apply (form_byte_plain c Hc). }
  intros Hs u. split; [unfold u; rewrite R, to_string_encode by exact Hs; reflexivity |].
  intros cps' Hs' E. apply (append_inj_l FoxgloveViewer.baseUrl) in E.
  apply (append_inj_l "?") in E.
  apply (f_equal Urlencoded.parse) in E. unfold u in E. rewrite !R in E.
  rewrite !to_string_encode in E by assumption.
  assert (E' : Utf8.encode cps = Utf8.encode cps') by congruence.
  apply (f_equal Utf8.decode) in E'. rewrite !decode_encode in E' by assumption.
  exact E'.
Qed.

Lemma append_cons (c : ascii) (a b : string) : String c a +:+ b = String c (a +:+ b).
Proof. reflexivity. Qed.

Lemma append_empty_r (s : string) : s +:+ "" = s.
Proof.
  induction s as [|c s IH]; [reflexivity |]. rewrite append_cons, IH. reflexivity.
Qed.

Lemma snoc_append (a b : string) (c : ascii) : Str.snoc a c +:+ b = a +:+ String c b.
Proof.
  unfold Str.snoc. induction a as [|d a IH]; [reflexivity |].
  rewrite !append_cons, IH. reflexivity.
Qed.

Lemma rev_app_rev_app (s t u : string) :
  String.rev_app (String.rev_app s t) u = String.rev_app t (s +:+ u).
Proof.
  revert t. induction s as [|c s IH]; intros t; [reflexivity |].
  cbn [String.rev_app]. rewrite IH. reflexivity.
Qed.

Lemma rev_rev (s : string) : String.rev (String.rev s) = s.
Proof. unfold String.rev. rewrite rev_app_rev_app. simpl. apply append_empty_r. Qed.

Lemma forallb_rev_app (p : ascii -> bool) (s t : string) :
  Str.forallb p (String.rev_app s t) = Str.forallb p s && Str.forallb p t.
Proof.
  revert t. induction s as [|c s IH]; intros t; [reflexivity |].
  simpl. rewrite IH. simpl. destruct (p c), (Str.forallb p s); reflexivity.
Qed.

Lemma drop_while_none (p : ascii -> bool) (s : string) :
  Str.forallb (fun c => negb (p c)) s = true -> Str.drop_while p s = s.
Proof.
  destruct s as [|c s]; [reflexivity |]. simpl. intros H.
  apply andb_prop in H as [Hc _]. destruct (p c); [discriminate | reflexivity].
Qed.

Lemma filter_all (p : ascii -> bool) (s : string) :
  Str.forallb p s = true -> Str.filter p s = s.
Proof.
  induction s as [|c s IH]; [reflexivity |]. simpl. intros H.
  apply andb_prop in H as [Hc Hs]. rewrite Hc, (IH Hs). reflexivity.
Qed.

(** Stripping leaves a string without controls and spaces as it is. *)
Lemma strip_id (s : string) :
  Str.forallb (fun c => negb (Char.is_c0_control_or_space c)) s = true ->
  Url.strip s = s.
Proof.
  intros H. unfold Url.strip. rewrite (drop_while_none _ s H).
  rewrite drop_while_none.
  - rewrite rev_rev. apply filter_all.
    apply (forallb_impl (fun c => negb (Char.is_c0_control_or_space c))); [| exact H].
    intros c. by_bytes c.
  - unfold String.rev. rewrite forallb_rev_app, H. reflexivity.
Qed.

Lemma query_without_fragment (u : Url.url) (buffer q : string) :
  Str.existsb (fun c => Char.same c "#") q = false ->
  Url.query_state u buffer q = Url.flush_query u (buffer +:+ q).
Proof.
  revert buffer. induction q as [|c q IH]; intros buffer H.
  - simpl. rewrite append_empty_r. reflexivity.
  - cbn [Str.existsb] in H. apply orb_false_elim in H as [Hc Hq].
    cbn [Url.query_state]. rewrite Hc, (IH _ Hq), snoc_append. reflexivity.
Qed.

Lemma percent_encode_plain (set : ascii -> bool) (s : string) :
  Str.forallb (fun c => negb (set c)) s = true ->
  Url.percent_encode_string set s = s.
Proof.
  induction s as [|c s IH]; [reflexivity |]. cbn [Str.forallb]. intros H.
  apply andb_prop in H as [Hc Hs].
  change (Url.percent_encode_string set (String c s))
    with (Url.percent_encode set c +:+ Url.percent_encode_string set s).
  rewrite (IH Hs). unfold Url.percent_encode.
  destruct (set c); [discriminate | reflexivity].
Qed.

Lemma query_byte_plain (c : ascii) :
  query_byte c = true ->
  Url.special_query_set c = false /\ Char.same c "#" = false /\
  Char.is_c0_control_or_space c = false.
Proof. by_bytes c. Qed.

(** The parse of "https://embed.foxglove.dev?" followed by a serialized
    parameter list, with any base or none. *)
Lemma parse_embed_url (q : string) (base : option Url.url) :
  Str.forallb query_byte q = true ->
  Url.parse ("https://embed.foxglove.dev?" +:+ q) base
  = Url.Success (Url.mkUrl "https" "" "" (Some (Url.Domain "embed.foxglove.dev")) None
                           (Url.ListPath [""]) (Some q) None).
Proof.
  intros Hq. unfold Url.parse. rewrite strip_id.
  - change (Url.scheme_start_state base ("https://embed.foxglove.dev?" +:+ q))
      with (Url.after_scheme (Url.set_scheme Url.blank "https") base
              ("//embed.foxglove.dev?" +:+ q)).
    assert (E : Url.special_authority_ignore_slashes_state
                  (Url.set_scheme Url.blank "https") ("embed.foxglove.dev?" +:+ q)
                = Url.Success
                    (Url.query_state
                       (Url.mkUrl "https" "" "" (Some (Url.Domain "embed.foxglove.dev")) None
                                  (Url.ListPath [""]) (Some "") None) "" q))
      by reflexivity.
    assert (E' : Url.after_scheme (Url.set_scheme Url.blank "https") base
                   ("//embed.foxglove.dev?" +:+ q)
                 = Url.special_authority_ignore_slashes_state
                     (Url.set_scheme Url.blank "https") ("embed.foxglove.dev?" +:+ q)).
    { unfold Url.after_scheme.
      change (Url.scheme (Url.set_scheme Url.blank "https")) with "https".
      change (String.eqb "https" "file") with false.
      change (Url.is_special (Url.set_scheme Url.blank "https")) with true.
      cbv iota. destruct base as [b|]; [| reflexivity].
      destruct (String.eqb (Url.scheme b) "https"); reflexivity. }
    rewrite E', E. f_equal. rewrite query_without_fragment.
    + unfold Url.flush_query.
      change (Url.is_special _) with true. cbv iota.
      rewrite percent_encode_plain; [reflexivity |].
      apply (forallb_impl query_byte); [| exact Hq].
      intros c Hc. destruct (query_byte_plain c Hc) as [-> _]. reflexivity.
    + apply existsb_forallb. apply (forallb_impl query_byte); [| exact Hq].
      intros c Hc. destruct (query_byte_plain c Hc) as (_ & -> & _). reflexivity.
  - rewrite forallb_append. apply andb_true_intro. split; [reflexivity |].
    apply (forallb_impl query_byte); [| exact Hq].
    intros c Hc. destruct (query_byte_plain c Hc) as (_ & _ & ->). reflexivity.
Qed.

(** The embed URL as the browser parses it, for every resolved URL [u]:
    the scheme is https, the host embed.foxglove.dev, the path "/", there
    are no credentials, port or fragment, and the query is the serialized
    parameters unchanged.  In serialized form the URL has the slash that
    the string the adapter builds lacks. *)
Theorem embed_url_as_parsed (u : string) (base : option Url.url) :
  let query := URLSearchParams.toString (FoxgloveViewer.params (JS.Str u)) in
  let target := FoxgloveViewer.baseUrl +:+ "?" +:+ query in
  exists parsed,
    Url.parse target base = Url.Success parsed /\
    Url.scheme parsed = "https" /\
    Url.url_host parsed = Some (Url.Domain "embed.foxglove.dev") /\
    Url.path parsed = Url.ListPath [""] /\
    Url.query parsed = Some query /\
    Url.includes_credentials parsed = false /\ Url.port parsed = None /\
    Url.fragment parsed = None /\
    Url.serialize parsed = "https://embed.foxglove.dev/?" +:+ query.
Proof.
  intros query target. eexists. split.
  - unfold target, query. rewrite toString_params.
    change (FoxgloveViewer.baseUrl +:+ "?" +:+
              "ds=remote-file&ds.url=" +:+ URLSearchParams.serialize_string u)
      with ("https://embed.foxglove.dev?" +:+
              ("ds=remote-file&ds.url=" +:+ URLSearchParams.serialize_string u)).
    apply parse_embed_url. rewrite forallb_append. apply andb_true_intro.
    split; [reflexivity |].
    apply (forallb_impl form_byte); [| apply serialize_string_form].
    intros c Hc. unfold query_byte. rewrite Hc. reflexivity.
  - unfold query. rewrite toString_params. repeat split.
    cbv [Url.serialize Url.scheme Url.url_host Url.includes_credentials Url.username
         Url.password Url.port Url.serialize_host Url.serialize_path Url.path Url.query
         Url.fragment Str.is_empty negb orb List.map Str.join].
    rewrite (append_empty_r ("?" +:+ "ds=remote-file&ds.url="
                              +:+ URLSearchParams.serialize_string u)).
    reflexivity.
Qed.

(** ** What the URL constructor returns is absolute *)

(** The states of the parser after the scheme is known leave it alone. *)

Lemma scheme_query_state (input : string) (u : Url.url) (buffer : string) :
  Url.scheme (Url.query_state u buffer input) = Url.scheme u.
Proof.
  revert u buffer. induction input as [|c input IH]; intros u buffer; [reflexivity |].
  cbn [Url.query_state]. destruct (Char.same c "#"); [reflexivity | apply IH].
Qed.

Lemma scheme_end_segment (u : Url.url) (buffer : string) (slash : bool) :
  Url.scheme (Url.end_segment u buffer slash) = Url.scheme u.
Proof.
  unfold Url.end_segment.
  repeat match goal with |- context [if ?b then _ else _] => destruct b end; reflexivity.
Qed.

Lemma scheme_path_state (input : string) (u : Url.url) (buffer : string) :
  Url.scheme (Url.path_state u buffer input) = Url.scheme u.
Proof.
  revert u buffer. induction input as [|c input IH]; intros u buffer.
  - apply scheme_end_segment.
  - cbn [Url.path_state]. destruct (Url.is_slash u c).
    + rewrite IH. apply scheme_end_segment.
    + destruct (Char.same c "?"); [rewrite scheme_query_state; apply scheme_end_segment |].
      destruct (Char.same c "#"); [apply scheme_end_segment | apply IH].
Qed.

Lemma scheme_path_start_state (input : string) (u : Url.url) :
  Url.scheme (Url.path_start_state u input) = Url.scheme u.
Proof.
  unfold Url.path_start_state. destruct input as [|c input].
  - destruct (Url.is_special u); [apply scheme_path_state | reflexivity].
  - repeat match goal with |- context [if ?b then _ else _] => destruct b end;
      rewrite ?scheme_path_state, ?scheme_query_state; reflexivity.
Qed.

Lemma has_scheme_bind (s : string) (m : Url.parsed Url.url)
    (k : Url.url -> Url.parsed Url.url) :
  has_scheme s m -> (forall u, Url.scheme u = s -> has_scheme s (k u)) ->
  has_scheme s (Url.bind m k).
Proof. destruct m as [u| |]; simpl; auto. Qed.

Lemma scheme_finish_port (u : Url.url) (buffer : string) :
  has_scheme (Url.scheme u) (Url.finish_port u buffer).
Proof.
  unfold Url.finish_port.
  repeat match goal with
         | |- context [if ?b then _ else _] => destruct b
         | |- context [match ?o with Some _ => _ | None => _ end] => destruct o
         end; simpl; auto.
Qed.

Lemma scheme_port_state (input : string) (u : Url.url) (buffer : string) :
  has_scheme (Url.scheme u) (Url.port_state u buffer input).
Proof.
  assert (F : forall buffer i,
             has_scheme (Url.scheme u)
               (Url.bind (Url.finish_port u buffer)
                         (fun u => Url.Success (Url.path_start_state u i)))).
  { intros b i. apply has_scheme_bind; [apply scheme_finish_port |].
    intros v Hv. simpl. rewrite scheme_path_start_state. exact Hv. }
  revert buffer. induction input as [|c input IH]; intros buffer; [apply F |].
  cbn [Url.port_state]. destruct (Char.is_digit c); [apply IH |].
  destruct (Url.ends_authority u c); [apply F | exact I].
Qed.

Lemma scheme_finish_host (u : Url.url) (buffer : string) :
  has_scheme (Url.scheme u) (Url.finish_host u buffer).
Proof.
  unfold Url.finish_host. destruct (Url.host_parse _ _); simpl; auto.
Qed.

Lemma scheme_host_state (input : string) (u : Url.url) (buffer : string) (inside : bool) :
  has_scheme (Url.scheme u) (Url.host_state u buffer inside input).
Proof.
  assert (F : forall buffer i,
             has_scheme (Url.scheme u)
               (Url.bind (Url.finish_host u buffer)
                         (fun u => Url.Success (Url.path_start_state u i)))).
  { intros b i. apply has_scheme_bind; [apply scheme_finish_host |].
    intros v Hv. simpl. rewrite scheme_path_start_state. exact Hv. }
  revert buffer inside. induction input as [|c input IH]; intros buffer inside.
  - cbn [Url.host_state]. destruct (_ && _); [exact I | apply F].
  - cbn [Url.host_state]. destruct (Char.same c ":" && negb inside).
    + destruct (Str.is_empty buffer); [exact I |].
      apply has_scheme_bind; [apply scheme_finish_host |].
      intros v Hv. rewrite <- Hv. apply scheme_port_state.
    + destruct (Url.ends_authority u c).
      * destruct (_ && _); [exact I | apply F].
      * apply IH.
Qed.

Lemma scheme_credentials (buffer : string) (u : Url.url) (seen : bool) :
  Url.scheme (fst (Url.credentials u seen buffer)) = Url.scheme u.
Proof.
  revert u seen. induction buffer as [|c buffer IH]; intros u seen; [reflexivity |].
  cbn [Url.credentials]. destruct (Char.same c ":" && negb seen); [apply IH |].
  destruct seen; rewrite IH; reflexivity.
Qed.

Lemma scheme_authority_state (input : string) (u : Url.url) (buffer : string)
    (atSignSeen passwordTokenSeen : bool) :
  has_scheme (Url.scheme u)
    (Url.authority_state u buffer atSignSeen passwordTokenSeen input).
Proof.
  revert u buffer atSignSeen passwordTokenSeen.
  induction input as [|c input IH]; intros u buffer a p.
  - cbn [Url.authority_state]. destruct (_ && _); [exact I | apply scheme_host_state].
  - cbn [Url.authority_state]. destruct (Char.same c "@").
    + pose proof (scheme_credentials (if a then "%40" +:+ buffer else buffer) u p) as Hc.
      destruct (Url.credentials u p (if a then "%40" +:+ buffer else buffer)) as [v q].
      simpl in Hc. rewrite <- Hc. apply IH.
    + destruct (Url.ends_authority u c); [| apply IH].
      destruct (_ && _); [exact I | apply scheme_host_state].
Qed.

Lemma scheme_ignore_slashes (input : string) (u : Url.url) :
  has_scheme (Url.scheme u) (Url.special_authority_ignore_slashes_state u input).
Proof.
  induction input as [|c input IH]; cbn [Url.special_authority_ignore_slashes_state].
  - apply scheme_authority_state.
  - destruct (Char.mem c "/\"); [exact IH | apply scheme_authority_state].
Qed.

Lemma scheme_authority_slashes (input : string) (u : Url.url) :
  has_scheme (Url.scheme u) (Url.special_authority_slashes_state u input).
Proof.
  unfold Url.special_authority_slashes_state.
  repeat match goal with
         | |- context [match ?x with _ => _ end] => destruct x
         end; apply scheme_ignore_slashes.
Qed.

Lemma scheme_relative_slash (input : string) (u base : Url.url) :
  has_scheme (Url.scheme u) (Url.relative_slash_state u base input).
Proof.
  unfold Url.relative_slash_state. destruct input as [|c input].
  - cbn [has_scheme]. rewrite scheme_path_state. reflexivity.
  - destruct (_ && _); [apply scheme_ignore_slashes |].
    destruct (Char.same c "/"); [apply scheme_authority_state |].
    cbn [has_scheme]. rewrite scheme_path_state. reflexivity.
Qed.

Lemma scheme_relative_state (input : string) (u base : Url.url) :
  has_scheme (Url.scheme base) (Url.relative_state u base input).
Proof.
  unfold Url.relative_state. destruct input as [|c input]; [reflexivity |].
  destruct (Char.same c "/"); [apply (scheme_relative_slash input (Url.set_scheme u _)) |].
  destruct (_ && _); [apply (scheme_relative_slash input (Url.set_scheme u _)) |].
  destruct (Char.same c "?");
    [cbn [has_scheme]; rewrite scheme_query_state; reflexivity |].
  destruct (Char.same c "#"); [reflexivity |].
  cbn [has_scheme]. rewrite scheme_path_state. reflexivity.
Qed.

Lemma scheme_path_or_authority (input : string) (u : Url.url) :
  has_scheme (Url.scheme u) (Url.path_or_authority_state u input).
Proof.
  unfold Url.path_or_authority_state.
  destruct input as [|c input];
    [cbn [has_scheme]; rewrite scheme_path_state; reflexivity |].
  destruct (Ascii.eqb c "/") eqn:E.
  - apply Ascii.eqb_eq in E. subst c. apply scheme_authority_state.
  - assert (H : has_scheme (Url.scheme u)
                  (Url.Success (Url.path_state u "" (String c input))))
      by (cbn [has_scheme]; rewrite scheme_path_state; reflexivity).
    destruct c as [[] [] [] [] [] [] [] []]; try exact H; discriminate E.
Qed.

Lemma scheme_relative_or_authority (input : string) (u base : Url.url) :
  Url.scheme base = Url.scheme u ->
  has_scheme (Url.scheme u) (Url.special_relative_or_authority_state u base input).
Proof.
  intros Hb. unfold Url.special_relative_or_authority_state.
  pose proof (scheme_relative_state input u base) as Hr. rewrite Hb in Hr.
  destruct input as [|c input]; [exact Hr |].
  destruct c as [[] [] [] [] [] [] [] []]; try exact Hr.
  destruct input as [|c' input]; [exact Hr |].
  destruct c' as [[] [] [] [] [] [] [] []]; try exact Hr.
  apply scheme_ignore_slashes.
Qed.

Lemma scheme_file_host_state (input : string) (u : Url.url) (buffer : string) :
  has_scheme (Url.scheme u) (Url.file_host_state u buffer input).
Proof.
  assert (F : forall buffer i,
     has_scheme (Url.scheme u)
       (if Url.is_windows_drive_letter buffer then Url.Success (Url.path_state u buffer i)
        else if Str.is_empty buffer
        then Url.Success (Url.path_start_state (Url.set_host u (Some Url.EmptyHost)) i)
        else Url.bind (Url.host_parse buffer (negb (Url.is_special u)))
               (fun h =>
                  let h := match h with
                           | Url.Domain name => if String.eqb name "localhost"
                                                then Url.EmptyHost else h
                           | _ => h
                           end in
                  Url.Success (Url.path_start_state (Url.set_host u (Some h)) i)))).
  { intros b i. destruct (Url.is_windows_drive_letter b);
      [cbn [has_scheme]; rewrite scheme_path_state; reflexivity |].
    destruct (Str.is_empty b);
      [cbn [has_scheme]; rewrite scheme_path_start_state; reflexivity |].
    destruct (Url.host_parse b _); simpl; auto.
    rewrite scheme_path_start_state. reflexivity. }
  revert buffer. induction input as [|c input IH]; intros buffer.
  - apply F.
  - cbn [Url.file_host_state]. destruct (Char.mem c "/\?#"); [apply F | apply IH].
Qed.

Lemma scheme_file_slash_state (input : string) (u : Url.url) (base : option Url.url) :
  has_scheme (Url.scheme u) (Url.file_slash_state u base input).
Proof.
  unfold Url.file_slash_state.
  assert (F : forall v, Url.scheme v = Url.scheme u ->
                         has_scheme (Url.scheme u) (Url.Success (Url.path_state v "" input))).
  { intros v Hv. cbn [has_scheme]. rewrite scheme_path_state. exact Hv. }
  assert (G : has_scheme (Url.scheme u)
                (Url.Success
                   (Url.path_state
                      match Url.base_is_file base with
                      | Some b =>
                          match Url.segments_of b with
                          | [] => Url.set_host u (Url.url_host b)
                          | first :: _ =>
                              if negb (Url.starts_with_windows_drive_letter input)
                                 && Url.is_normalized_windows_drive_letter first
                              then Url.append_segment (Url.set_host u (Url.url_host b)) first
                              else Url.set_host u (Url.url_host b)
                          end
                      | None => u
                      end "" input))).
  { apply F. destruct (Url.base_is_file base) as [b|]; [| reflexivity].
    destruct (Url.segments_of b); [reflexivity |].
    destruct (_ && _); reflexivity. }
  destruct input as [|c input]; [exact G |].
  destruct (Char.mem c "/\"); [apply scheme_file_host_state | exact G].
Qed.

Lemma scheme_file_state (input : string) (u : Url.url) (base : option Url.url) :
  has_scheme "file" (Url.file_state u base input).
Proof.
  unfold Url.file_state.
  destruct input as [|c input].
  - destruct (Url.base_is_file base); [reflexivity |].
    cbn [has_scheme]. rewrite scheme_path_state. reflexivity.
  - destruct (Char.mem c "/\").
    + apply (scheme_file_slash_state input
               (Url.set_host (Url.set_scheme u "file") (Some Url.EmptyHost))).
    + destruct (Url.base_is_file base);
        [| cbn [has_scheme]; rewrite scheme_path_state; reflexivity].
      destruct (Char.same c "?");
        [cbn [has_scheme]; rewrite scheme_query_state; reflexivity |].
      destruct (Char.same c "#"); [reflexivity |].
      cbn [has_scheme]. rewrite scheme_path_state.
      destruct (negb _); reflexivity.
Qed.

Lemma scheme_no_scheme_state (input : string) (u b : Url.url) :
  has_scheme (Url.scheme b) (Url.no_scheme_state u (Some b) input).
Proof.
  unfold Url.no_scheme_state. destruct (Url.has_opaque_path b).
  - destruct input as [|c input]; [exact I |].
    destruct (Ascii.eqb c "#") eqn:E.
    + apply Ascii.eqb_eq in E. subst c. reflexivity.
    + destruct c as [[] [] [] [] [] [] [] []]; try exact I; discriminate E.
  - destruct (String.eqb (Url.scheme b) "file") eqn:E; cbn [negb].
    + apply String.eqb_eq in E. rewrite E. apply scheme_file_state.
    + apply scheme_relative_state.
Qed.

Lemma scheme_opaque_path_state (input : string) (u : Url.url) (acc : string) :
  Url.scheme (Url.opaque_path_state u acc input) = Url.scheme u.
Proof.
  revert acc. induction input as [|c input IH]; intros acc; [reflexivity |].
  cbn [Url.opaque_path_state].
  destruct (Char.same c "?"); [rewrite scheme_query_state; reflexivity |].
  destruct (Char.same c "#"); [reflexivity |].
  destruct (Char.same c " "); [| apply IH].
  destruct input as [|d input]; [apply IH |].
  destruct (Char.mem d "?#"); apply IH.
Qed.

Lemma scheme_after_scheme (input : string) (u : Url.url) (base : option Url.url) :
  has_scheme (Url.scheme u) (Url.after_scheme u base input).
Proof.
  unfold Url.after_scheme. destruct (String.eqb (Url.scheme u) "file") eqn:Ef.
  - apply String.eqb_eq in Ef. rewrite Ef. apply scheme_file_state.
  - destruct (Url.is_special u).
    + destruct base as [b|]; [| apply scheme_authority_slashes].
      destruct (String.eqb (Url.scheme b) (Url.scheme u)) eqn:Eb;
        [| apply scheme_authority_slashes].
      apply String.eqb_eq in Eb. apply scheme_relative_or_authority. exact Eb.
    + assert (H : has_scheme (Url.scheme u)
                    (Url.Success (Url.opaque_path_state u "" input)))
        by (cbn [has_scheme]; apply scheme_opaque_path_state).
      destruct input as [|c input]; [exact H |].
      destruct (Ascii.eqb c "/") eqn:E.
      * apply Ascii.eqb_eq in E. subst c. apply scheme_path_or_authority.
      * destruct c as [[] [] [] [] [] [] [] []]; try exact H; discriminate E.
Qed.

Lemma scheme_char_lowercase (c : ascii) :
  scheme_char c = true -> scheme_char (Char.lowercase c) = true.
Proof. by_bytes c. Qed.

Lemma alpha_lowercase (c : ascii) :
  Char.is_alpha c = true -> Char.is_alpha (Char.lowercase c) = true.
Proof. by_bytes c. Qed.

Lemma valid_scheme_snoc (s : string) (c : ascii) :
  valid_scheme s = true -> scheme_char c = true -> valid_scheme (Str.snoc s c) = true.
Proof.
  destruct s as [|a s]; [discriminate |]. unfold Str.snoc.
  rewrite append_cons. cbn [valid_scheme]. intros H Hc.
  apply andb_prop in H as [Ha Hs]. rewrite Ha, forallb_append, Hs. simpl.
  rewrite Hc. reflexivity.
Qed.

(** The scheme state returns a valid scheme. *)
Lemma scheme_state_valid (input buffer sch rest : string) :
  valid_scheme buffer = true ->
  Url.scheme_state buffer input = Some (sch, rest) -> valid_scheme sch = true.
Proof.
  revert buffer. induction input as [|c input IH]; intros buffer Hb; [discriminate |].
  cbn [Url.scheme_state].
  destruct (Char.is_alphanumeric c || Char.mem c "+-.") eqn:Ec.
  - apply IH. apply valid_scheme_snoc; [exact Hb |].
    apply scheme_char_lowercase. exact Ec.
  - destruct (Char.same c ":"); [| discriminate].
    intros E. injection E as <- _. exact Hb.
Qed.

(** A parse that succeeds gives a valid scheme, when the base has one. *)
Lemma parse_valid_scheme (input : string) (base : option Url.url) (u : Url.url) :
  match base with
  | Some b => valid_scheme (Url.scheme b) = true
  | None => True
  end ->
  Url.parse input base = Url.Success u -> valid_scheme (Url.scheme u) = true.
Proof.
  intros Hb. unfold Url.parse. generalize (Url.strip input). clear input. intros input.
  assert (N : Url.no_scheme_state Url.blank base input = Url.Success u ->
              valid_scheme (Url.scheme u) = true).
  { destruct base as [b|]; [| discriminate].
    intros E. pose proof (scheme_no_scheme_state input Url.blank b) as H.
    rewrite E in H. simpl in H. rewrite H. exact Hb. }
  unfold Url.scheme_start_state. destruct input as [|c input]; [exact N |].
  destruct (Char.is_alpha c) eqn:Ea; [| exact N].
  destruct (Url.scheme_state (String (Char.lowercase c) "") input) as [[sch rest]|] eqn:Es;
    [| exact N].
  intros E. pose proof (scheme_after_scheme rest (Url.set_scheme Url.blank sch) base) as H.
  rewrite E in H. simpl in H. rewrite H.
  apply (scheme_state_valid input (String (Char.lowercase c) "") sch rest); [| exact Es].
  cbn [valid_scheme Str.forallb]. rewrite (alpha_lowercase c Ea). reflexivity.
Qed.

Lemma scheme_state_accepts (s x buffer : string) :
  Str.forallb scheme_char s = true ->
  is_Some (Url.scheme_state buffer (s +:+ String ":" x)).
Proof.
  revert buffer. induction s as [|c s IH]; intros buffer H.
  - simpl. eexists; reflexivity.
  - cbn [Str.forallb] in H. apply andb_prop in H as [Hc Hs].
    rewrite append_cons. cbn [Url.scheme_state].
    unfold scheme_char in Hc. rewrite Hc. apply IH. exact Hs.
Qed.

(** The serialization of a URL with a valid scheme begins with a scheme. *)
Lemma serialize_begins_with_scheme (u : Url.url) :
  valid_scheme (Url.scheme u) = true -> Url.begins_with_scheme (Url.serialize u) = true.
Proof.
  unfold Url.serialize. destruct (Url.scheme u) as [|c s]; [discriminate |].
  cbn [valid_scheme]. intros H. apply andb_prop in H as [Hc Hs].
  rewrite append_cons. cbn [Url.begins_with_scheme]. rewrite Hc.
  apply bool_decide_eq_true. apply scheme_state_accepts. exact Hs.
Qed.

Lemma href_begins_with_scheme (input : JS.value) (base u : string) :
  JS.new_URL_href input base = JS.Normal (JS.Str u) -> Url.begins_with_scheme u = true.
Proof.
  unfold JS.new_URL_href, Url.href, Url.bind.
  destruct (Url.parse base None) as [b| |] eqn:Eb; try discriminate.
  destruct (Url.parse (JS.to_string input) (Some b)) as [v| |] eqn:Ev; try discriminate.
  intros E. apply Normal_inj in E. injection E as <-.
  apply serialize_begins_with_scheme.
  apply (parse_valid_scheme (JS.to_string input) (Some b) v); [| exact Ev].
  apply (parse_valid_scheme base None b); [exact I | exact Eb].
Qed.

(** What reaches the embedded viewer is an absolute URL, with one
    exception: for a non-empty reference, the resolved URL of the adapters
    does not begin with a scheme exactly when the reference starts with
    "http" and does not begin with a scheme itself.  Every reference that
    goes through the URL constructor comes back absolute. *)
Theorem resolved_url_absolute_unless_http_named (r location_href : string) (u : JS.value) :
  r <> "" ->
  RerunViewer.fullUrl (JS.Str r) location_href = JS.Normal u \/
  FoxgloveViewer.fullMcapUrl (JS.Str r) location_href = JS.Normal u ->
  exists s,
    u = JS.Str s /\
    (Url.begins_with_scheme s = false
     <-> Str.startsWith r "http" = true /\ Url.begins_with_scheme r = false).
Proof.
  intros Hr H. destruct (Str.startsWith r "http") eqn:Hh.
  - destruct (fullUrl_http r location_href Hh) as [E1 E2].
    assert (u = JS.Str r) as -> by (destruct H as [H | H]; congruence).
    exists r. split; [reflexivity |]. tauto.
  - destruct (fullUrl_resolved r location_href Hr Hh) as [E1 E2].
    assert (E : JS.new_URL_href (JS.Str r) location_href = JS.Normal u)
      by (destruct H as [H | H]; congruence).
    assert (exists s, u = JS.Str s) as [s ->].
    { unfold JS.new_URL_href in E. destruct (Url.href _ _); try discriminate.
      apply Normal_inj in E. eexists. symmetry. exact E. }
    exists s. split; [reflexivity |].
    rewrite (href_begins_with_scheme _ _ _ E). split; [discriminate | intros [? _]; discriminate].
Qed.

Lemma resolved_url_absolute_example :
  (RerunViewer.fullUrl (JS.Str "./rrd/clean_bowl.rrd") "https://example.org/gallery/"
   = JS.Normal (JS.Str "https://example.org/gallery/rrd/clean_bowl.rrd") /\
   Url.begins_with_scheme "https://example.org/gallery/rrd/clean_bowl.rrd" = true) /\
  (RerunViewer.fullUrl (JS.Str "httpdocs/a.rrd") "https://example.org/gallery/"
   = JS.Normal (JS.Str "httpdocs/a.rrd") /\
   Url.begins_with_scheme "httpdocs/a.rrd" = false).
Proof.
  assert (E1 : RerunViewer.fullUrl (JS.Str "./rrd/clean_bowl.rrd")
                 "https://example.org/gallery/"
               = JS.Normal (JS.Str "https://example.org/gallery/rrd/clean_bowl.rrd"))
    by (vm_compute; reflexivity).
  assert (E2 : RerunViewer.fullUrl (JS.Str "httpdocs/a.rrd") "https://example.org/gallery/"
               = JS.Normal (JS.Str "httpdocs/a.rrd"))
    by (vm_compute; reflexivity).
  split; (split; [assumption |]).
  - destruct (resolved_url_absolute_unless_http_named "./rrd/clean_bowl.rrd"
                "https://example.org/gallery/" _ ltac:(discriminate) (or_introl E1))
      as (s & E & H).
    injection E as <-.
    destruct (Url.begins_with_scheme "https://example.org/gallery/rrd/clean_bowl.rrd");
      [reflexivity |].
    destruct (proj1 H eq_refl) as [Hh _]. discriminate Hh.
  - destruct (resolved_url_absolute_unless_http_named "httpdocs/a.rrd"
                "https://example.org/gallery/" _ ltac:(discriminate) (or_introl E2))
      as (s & E & H).
    injection E as <-. apply H. split; reflexivity.
Defined.

(** ** The shipped catalog and the adapters *)




(** The resolved URL "https://x/" followed by U+00E9, U+0020, U+20AC,
    U+1F600 and ".mcap". *)
Lemma embed_query_reads_back_example :
  let cps := [104; 116; 116; 112; 115; 58; 47; 47; 120; 47;
              0xE9; 0x20; 0x20AC; 0x1F600; 46; 109; 99; 97; 112]%N in
  forallb Utf8.is_scalar_value cps = true /\
  URLSearchParams.toString (FoxgloveViewer.params (JS.Str (Utf8.encode cps)))
  = "ds=remote-file&ds.url=https%3A%2F%2Fx%2F%C3%A9+%E2%82%AC%F0%9F%98%80.mcap" /\
  Urlencoded.parse
    (URLSearchParams.toString (FoxgloveViewer.params (JS.Str (Utf8.encode cps))))
  = [("ds", "remote-file"); ("ds.url", Utf8.encode cps)].
Proof.
  intros cps.
  assert (H : forallb Utf8.is_scalar_value cps = true) by (vm_compute; reflexivity).
  split; [exact H |]. split; [vm_compute; reflexivity |].
  exact (proj1 (embed_query_reads_back cps H)).
Defined.
